(** * Face Touch Monitor: touch proximity, posture issues and alert state

    A shallow embedding of the detection core of the monitor
    (the script with posture support, and the older [detect.js]):
    [checkFaceTouch], [getMinDistance], [checkPosture], [calculateAngle],
    the touch and posture alert handlers with their repeat timers,
    [stopMonitoring] and the posture toggle handler.

    JavaScript numbers are IEEE 754 binary64 values, so coordinates,
    thresholds and distances are primitive floats and every arithmetic
    operation and comparison below rounds exactly as the script does.
    Counters and timestamps are integers ([Z]).  A property access on
    [undefined] (a landmark index beyond the end of a landmark array)
    raises a TypeError, written [Throw]. *)

From Stdlib Require Import Floats ZArith List String Bool Lia PArith.
From Stdlib Require Uint63.
Import ListNotations.

Set Warnings "-inexact-float".

(** ** Data model *)

(** A normalized landmark as delivered by the landmarkers.  For face and
    hand landmarks [visibility] is not read; an absent visibility behaves
    as NaN in every comparison. *)
Module Landmark.
Record t := mk { x : float; y : float; z : float; visibility : float }.
End Landmark.

(** A point in pixel space: the object literal [{x, y, z}]. *)
Module Point.
Record t := mk { x : float; y : float; z : float }.
End Point.

Module Canvas.
Record t := mk { width : float; height : float }.
End Canvas.

(** The keys of [FACE_REGIONS] and of [settings.zones]. *)
Inductive zone : Set :=
  mouth | nose | leftEye | rightEye | leftCheek | rightCheek | chin.

Definition zone_eqb (a b : zone) : bool :=
  match a, b with
  | mouth, mouth | nose, nose | leftEye, leftEye | rightEye, rightEye
  | leftCheek, leftCheek | rightCheek, rightCheek | chin, chin => true
  | _, _ => false
  end.

(** [settings.zones] *)
Module Zones.
Record t := mk {
  mouth : bool; nose : bool; leftEye : bool; rightEye : bool;
  leftCheek : bool; rightCheek : bool; chin : bool }.

End Zones.

(** [settings.zones[region]] *)
Definition zoneEnabled (zs : Zones.t) (region : zone) : bool :=
  match region with
  | mouth => Zones.mouth zs
  | nose => Zones.nose zs
  | leftEye => Zones.leftEye zs
  | rightEye => Zones.rightEye zs
  | leftCheek => Zones.leftCheek zs
  | rightCheek => Zones.rightCheek zs
  | chin => Zones.chin zs
  end.

(** [settings.posture] *)
Module Posture.
Record t := mk {
  enabled : bool;
  sensitivity : float;
  headForwardThreshold : float;
  shoulderSlouchThreshold : float;
  spineAngleThreshold : float;
  alertCooldownMs : float }.

Definition set_enabled (b : bool) (p : t) : t :=
  mk b (sensitivity p) (headForwardThreshold p) (shoulderSlouchThreshold p)
     (spineAngleThreshold p) (alertCooldownMs p).
End Posture.

(** [state.settings] *)
Module Settings.
Record t := mk {
  sensitivity : float;
  alertCooldownMs : float;
  soundEnabled : bool;
  notifyEnabled : bool;
  visualAlertEnabled : bool;
  zones : Zones.t;
  posture : Posture.t }.

Definition set_posture (p : Posture.t) (s : t) : t :=
  mk (sensitivity s) (alertCooldownMs s) (soundEnabled s) (notifyEnabled s)
     (visualAlertEnabled s) (zones s) p.
End Settings.

(** Handle returned by [setInterval]; handles are positive integers, so a
    stored handle is always truthy. *)
Definition handle := positive.

(** The fields of the global [state] object read or written by detection
    and alerting. *)
Record State := mkState {
  isRunning : bool;
  canvas : Canvas.t;
  touchCount : Z;
  lastTouchTime : option Z;
  postureAlertCount : Z;
  lastPostureAlertTime : option Z;
  startTime : option Z;
  alertCooldown : bool;
  isTouching : bool;
  wasTouching : bool;
  continuousBeepTimer : option handle;
  isBadPosture : bool;
  wasBadPosture : bool;
  postureBeepTimer : option handle;
  currentPostureIssue : option string;
  settings : Settings.t;
  lastTouchedZone : option zone }.

Definition set_isRunning (v : bool) (s : State) : State :=
  mkState v (canvas s) (touchCount s) (lastTouchTime s) (postureAlertCount s)
    (lastPostureAlertTime s) (startTime s) (alertCooldown s) (isTouching s)
    (wasTouching s) (continuousBeepTimer s) (isBadPosture s) (wasBadPosture s)
    (postureBeepTimer s) (currentPostureIssue s) (settings s) (lastTouchedZone s).

Definition set_touchCount (v : Z) (s : State) : State :=
  mkState (isRunning s) (canvas s) v (lastTouchTime s) (postureAlertCount s)
    (lastPostureAlertTime s) (startTime s) (alertCooldown s) (isTouching s)
    (wasTouching s) (continuousBeepTimer s) (isBadPosture s) (wasBadPosture s)
    (postureBeepTimer s) (currentPostureIssue s) (settings s) (lastTouchedZone s).

Definition set_lastTouchTime (v : option Z) (s : State) : State :=
  mkState (isRunning s) (canvas s) (touchCount s) v (postureAlertCount s)
    (lastPostureAlertTime s) (startTime s) (alertCooldown s) (isTouching s)
    (wasTouching s) (continuousBeepTimer s) (isBadPosture s) (wasBadPosture s)
    (postureBeepTimer s) (currentPostureIssue s) (settings s) (lastTouchedZone s).

Definition set_postureAlertCount (v : Z) (s : State) : State :=
  mkState (isRunning s) (canvas s) (touchCount s) (lastTouchTime s) v
    (lastPostureAlertTime s) (startTime s) (alertCooldown s) (isTouching s)
    (wasTouching s) (continuousBeepTimer s) (isBadPosture s) (wasBadPosture s)
    (postureBeepTimer s) (currentPostureIssue s) (settings s) (lastTouchedZone s).

Definition set_lastPostureAlertTime (v : option Z) (s : State) : State :=
  mkState (isRunning s) (canvas s) (touchCount s) (lastTouchTime s)
    (postureAlertCount s) v (startTime s) (alertCooldown s) (isTouching s)
    (wasTouching s) (continuousBeepTimer s) (isBadPosture s) (wasBadPosture s)
    (postureBeepTimer s) (currentPostureIssue s) (settings s) (lastTouchedZone s).

Definition set_startTime (v : option Z) (s : State) : State :=
  mkState (isRunning s) (canvas s) (touchCount s) (lastTouchTime s)
    (postureAlertCount s) (lastPostureAlertTime s) v (alertCooldown s)
    (isTouching s) (wasTouching s) (continuousBeepTimer s) (isBadPosture s)
    (wasBadPosture s) (postureBeepTimer s) (currentPostureIssue s) (settings s)
    (lastTouchedZone s).

Definition set_isTouching (v : bool) (s : State) : State :=
  mkState (isRunning s) (canvas s) (touchCount s) (lastTouchTime s)
    (postureAlertCount s) (lastPostureAlertTime s) (startTime s)
    (alertCooldown s) v (wasTouching s) (continuousBeepTimer s)
    (isBadPosture s) (wasBadPosture s) (postureBeepTimer s)
    (currentPostureIssue s) (settings s) (lastTouchedZone s).

Definition set_wasTouching (v : bool) (s : State) : State :=
  mkState (isRunning s) (canvas s) (touchCount s) (lastTouchTime s)
    (postureAlertCount s) (lastPostureAlertTime s) (startTime s)
    (alertCooldown s) (isTouching s) v (continuousBeepTimer s)
    (isBadPosture s) (wasBadPosture s) (postureBeepTimer s)
    (currentPostureIssue s) (settings s) (lastTouchedZone s).

Definition set_continuousBeepTimer (v : option handle) (s : State) : State :=
  mkState (isRunning s) (canvas s) (touchCount s) (lastTouchTime s)
    (postureAlertCount s) (lastPostureAlertTime s) (startTime s)
    (alertCooldown s) (isTouching s) (wasTouching s) v
    (isBadPosture s) (wasBadPosture s) (postureBeepTimer s)
    (currentPostureIssue s) (settings s) (lastTouchedZone s).

Definition set_isBadPosture (v : bool) (s : State) : State :=
  mkState (isRunning s) (canvas s) (touchCount s) (lastTouchTime s)
    (postureAlertCount s) (lastPostureAlertTime s) (startTime s)
    (alertCooldown s) (isTouching s) (wasTouching s) (continuousBeepTimer s)
    v (wasBadPosture s) (postureBeepTimer s)
    (currentPostureIssue s) (settings s) (lastTouchedZone s).

Definition set_wasBadPosture (v : bool) (s : State) : State :=
  mkState (isRunning s) (canvas s) (touchCount s) (lastTouchTime s)
    (postureAlertCount s) (lastPostureAlertTime s) (startTime s)
    (alertCooldown s) (isTouching s) (wasTouching s) (continuousBeepTimer s)
    (isBadPosture s) v (postureBeepTimer s)
    (currentPostureIssue s) (settings s) (lastTouchedZone s).

Definition set_postureBeepTimer (v : option handle) (s : State) : State :=
  mkState (isRunning s) (canvas s) (touchCount s) (lastTouchTime s)
    (postureAlertCount s) (lastPostureAlertTime s) (startTime s)
    (alertCooldown s) (isTouching s) (wasTouching s) (continuousBeepTimer s)
    (isBadPosture s) (wasBadPosture s) v
    (currentPostureIssue s) (settings s) (lastTouchedZone s).

Definition set_currentPostureIssue (v : option string) (s : State) : State :=
  mkState (isRunning s) (canvas s) (touchCount s) (lastTouchTime s)
    (postureAlertCount s) (lastPostureAlertTime s) (startTime s)
    (alertCooldown s) (isTouching s) (wasTouching s) (continuousBeepTimer s)
    (isBadPosture s) (wasBadPosture s) (postureBeepTimer s)
    v (settings s) (lastTouchedZone s).

Definition set_settings (v : Settings.t) (s : State) : State :=
  mkState (isRunning s) (canvas s) (touchCount s) (lastTouchTime s)
    (postureAlertCount s) (lastPostureAlertTime s) (startTime s)
    (alertCooldown s) (isTouching s) (wasTouching s) (continuousBeepTimer s)
    (isBadPosture s) (wasBadPosture s) (postureBeepTimer s)
    (currentPostureIssue s) v (lastTouchedZone s).

Definition set_lastTouchedZone (v : option zone) (s : State) : State :=
  mkState (isRunning s) (canvas s) (touchCount s) (lastTouchTime s)
    (postureAlertCount s) (lastPostureAlertTime s) (startTime s)
    (alertCooldown s) (isTouching s) (wasTouching s) (continuousBeepTimer s)
    (isBadPosture s) (wasBadPosture s) (postureBeepTimer s)
    (currentPostureIssue s) (settings s) v.

(** ** Completions: a normal result or a thrown TypeError *)

Inductive Completion (A : Type) : Type :=
| Normal (a : A)
| Throw.
Arguments Normal {A} a.
Arguments Throw {A}.

Definition bindC {A B : Type} (c : Completion A) (k : A -> Completion B)
  : Completion B :=
  match c with
  | Normal a => k a
  | Throw => Throw
  end.

Notation "'let*' p ':=' c 'in' k" :=
  (bindC c (fun p => k))
  (at level 61, p pattern, c at next level, right associativity).

(** [arr[idx]] followed by a property access: a TypeError when the index
    is past the end of the array. *)
Definition at_index {A : Type} (arr : list A) (idx : nat) : Completion A :=
  match nth_error arr idx with
  | Some a => Normal a
  | None => Throw
  end.

(** [arr.map(f)] for a callback that may throw. *)
Fixpoint mapC {A B : Type} (f : A -> Completion B) (l : list A)
  : Completion (list B) :=
  match l with
  | [] => Normal []
  | a :: rest =>
      let* b := f a in
      let* bs := mapC f rest in
      Normal (b :: bs)
  end.

(** [arr.length] as a number. *)
Definition length_float {A : Type} (l : list A) : float :=
  PrimFloat.of_uint63 (Uint63.of_Z (Z.of_nat (List.length l))).

(** ** Constants *)

Definition FACE_REGIONS (region : zone) : list nat :=
  match region with
  | mouth => [0; 13; 14; 17; 37; 39; 40; 61; 78; 80; 81; 82; 84; 87; 88; 91;
              95; 146; 178; 181; 185; 191; 267; 269; 270; 291; 308; 310; 311;
              312; 314; 317; 318; 321; 324; 375; 402; 405; 409; 415]
  | nose => [1; 2; 4; 5; 6; 19; 94; 168; 195; 197; 236; 237; 238; 239; 240;
             241; 242; 250; 456; 457; 458; 459; 460; 461; 462]
  | leftEye => [33; 7; 163; 144; 145; 153; 154; 155; 133; 173; 157; 158; 159;
                160; 161; 246]
  | rightEye => [362; 382; 381; 380; 374; 373; 390; 249; 263; 466; 388; 387;
                 386; 385; 384; 398]
  | leftCheek => [117; 118; 119; 120; 121; 126; 142; 203; 206; 216; 207; 187]
  | rightCheek => [346; 347; 348; 349; 350; 355; 371; 423; 426; 436; 427; 411]
  | chin => [152; 175; 176; 148; 149; 150; 136; 169; 170; 171; 377; 378; 379;
             365; 397; 288; 361; 323]
  end%nat.

(** thumb, index, middle, ring, pinky *)
Definition FINGERTIPS : list nat := [4; 8; 12; 16; 20]%nat.

Module POSE_LANDMARKS.
Definition NOSE := 0%nat.
Definition LEFT_EAR := 7%nat.
Definition RIGHT_EAR := 8%nat.
Definition LEFT_SHOULDER := 11%nat.
Definition RIGHT_SHOULDER := 12%nat.
Definition LEFT_HIP := 23%nat.
Definition RIGHT_HIP := 24%nat.
End POSE_LANDMARKS.

(** [Math.PI] *)
Definition Math_PI : float := 0x1.921fb54442d18p+1%float.

(** ** Face touch detection *)

Section FaceTouch.
Local Open Scope float_scope.

Definition getMinDistance (point : Point.t) (targets : list Point.t) : float :=
  fold_left
    (fun minDist target =>
       let dx := Point.x point - Point.x target in
       let dy := Point.y point - Point.y target in
       let dist := PrimFloat.sqrt (dx * dx + dy * dy) in
       if dist <? minDist then dist else minDist)
    targets infinity.

(** The zones pushed onto [enabledZones], in push order. *)
Definition enabledZones (st : State) : list zone :=
  let zs := Settings.zones (settings st) in
  (if Zones.mouth zs then [mouth] else []) ++
  (if Zones.nose zs then [nose] else []) ++
  (if Zones.leftEye zs then [leftEye] else []) ++
  (if Zones.rightEye zs then [rightEye] else []) ++
  (if Zones.leftCheek zs then [leftCheek] else []) ++
  (if Zones.rightCheek zs then [rightCheek] else []) ++
  (if Zones.chin zs then [chin] else []).

(** [indices.map(idx => ...)] for one region: its landmarks in pixel
    space. *)
Definition regionPoints (faceLandmarks : list Landmark.t)
    (videoWidth videoHeight : float) (indices : list nat)
  : Completion (list Point.t) :=
  mapC (fun idx =>
          let* lm := at_index faceLandmarks idx in
          Normal (Point.mk (Landmark.x lm * videoWidth)
                           (Landmark.y lm * videoHeight)
                           (Landmark.z lm * videoWidth)))
       indices.

(** The object [facePoints]: one entry per enabled zone, in insertion
    order, which is the order [Object.entries] enumerates. *)
Definition buildFacePoints (faceLandmarks : list Landmark.t)
    (videoWidth videoHeight : float) (zones : list zone)
  : Completion (list (zone * list Point.t)) :=
  mapC (fun region =>
          let* points :=
            regionPoints faceLandmarks videoWidth videoHeight
                         (FACE_REGIONS region) in
          Normal (region, points))
       zones.

(** [threshold] of the innermost loop body. *)
Definition touchThreshold (st : State) : float :=
  let baseThreshold := 40 in
  let sensitivityMultiplier := Settings.sensitivity (settings st) / 100 in
  baseThreshold / sensitivityMultiplier.

(** [minDist < threshold] *)
Definition withinThreshold (st : State) (tipPoint : Point.t)
    (points : list Point.t) : bool :=
  getMinDistance tipPoint points <? touchThreshold st.

Definition avgFaceZ (points : list Point.t) : float :=
  fold_left (fun sum p => sum + Point.z p) points 0 / length_float points.

(** [zDiff < 50] *)
Definition depthAccepted (tipPoint : Point.t) (points : list Point.t) : bool :=
  let zDiff := Point.z tipPoint - avgFaceZ points in
  zDiff <? 50.

(** Innermost loop: the entries of [facePoints] in order; the first
    region passing both tests is returned. *)
Fixpoint scanRegions (st : State) (tipPoint : Point.t)
    (facePoints : list (zone * list Point.t)) : option zone :=
  match facePoints with
  | [] => None
  | (region, points) :: rest =>
      if withinThreshold st tipPoint points then
        if depthAccepted tipPoint points then Some region
        else scanRegions st tipPoint rest
      else scanRegions st tipPoint rest
  end.

(** Middle loop over the fingertip indices of one hand. *)
Fixpoint scanFingertips (st : State) (videoWidth videoHeight : float)
    (facePoints : list (zone * list Point.t))
    (handLandmarks : list Landmark.t) (tips : list nat)
  : Completion (option zone) :=
  match tips with
  | [] => Normal None
  | tipIdx :: rest =>
      let* tip := at_index handLandmarks tipIdx in
      let tipPoint := Point.mk (Landmark.x tip * videoWidth)
                               (Landmark.y tip * videoHeight)
                               (Landmark.z tip * videoWidth) in
      match scanRegions st tipPoint facePoints with
      | Some region => Normal (Some region)
      | None =>
          scanFingertips st videoWidth videoHeight facePoints
                         handLandmarks rest
      end
  end.

(** Outer loop over the detected hands. *)
Fixpoint scanHands (st : State) (videoWidth videoHeight : float)
    (facePoints : list (zone * list Point.t))
    (handLandmarksList : list (list Landmark.t))
  : Completion (option zone) :=
  match handLandmarksList with
  | [] => Normal None
  | handLandmarks :: rest =>
      let* found :=
        scanFingertips st videoWidth videoHeight facePoints
                       handLandmarks FINGERTIPS in
      match found with
      | Some region => Normal (Some region)
      | None => scanHands st videoWidth videoHeight facePoints rest
      end
  end.

(** [checkFaceTouch(faceLandmarks, handLandmarksList)]: the new state and
    the returned boolean.  An absent face is [None]. *)
Definition checkFaceTouch (st : State)
    (faceLandmarks : option (list Landmark.t))
    (handLandmarksList : list (list Landmark.t))
  : Completion (State * bool) :=
  match faceLandmarks, handLandmarksList with
  | None, _ | _, [] => Normal (set_lastTouchedZone None st, false)
  | Some face, _ :: _ =>
      let videoWidth := Canvas.width (canvas st) in
      let videoHeight := Canvas.height (canvas st) in
      match enabledZones st with
      | [] => Normal (set_lastTouchedZone None st, false)
      | zones =>
          let* facePoints :=
            buildFacePoints face videoWidth videoHeight zones in
          let* found :=
            scanHands st videoWidth videoHeight facePoints
                      handLandmarksList in
          match found with
          | Some region => Normal (set_lastTouchedZone (Some region) st, true)
          | None => Normal (set_lastTouchedZone None st, false)
          end
      end
  end.

(** [getZoneDisplayName(zone)] *)
Definition getZoneDisplayName (region : zone) : string :=
  match region with
  | mouth => "Mouth"
  | nose => "Nose"
  | leftEye => "Left Eye"
  | rightEye => "Right Eye"
  | leftCheek => "Left Cheek"
  | rightCheek => "Right Cheek"
  | chin => "Chin"
  end%string.

End FaceTouch.

(** ** Posture detection *)

Section PostureDetection.
Local Open Scope float_scope.

(** [Math.atan2(y, x)].  The language leaves its result
    implementation-approximated, so the classifier is stated for any
    such function. *)
Variable atan2 : float -> float -> float.

Definition calculateAngle (pointA pointB pointC : Landmark.t) : float :=
  let radians :=
    atan2 (Landmark.y pointC - Landmark.y pointB)
          (Landmark.x pointC - Landmark.x pointB) -
    atan2 (Landmark.y pointA - Landmark.y pointB)
          (Landmark.x pointA - Landmark.x pointB) in
  let angle := abs (radians * (180 / Math_PI)) in
  if 180 <? angle then 360 - angle else angle.

(** [issues.push(label)] *)
Definition push (issues : list string) (label : string) : list string :=
  issues ++ [label].

(** [a.visibility > b.visibility ? a : b] *)
Definition moreVisible (a b : Landmark.t) : Landmark.t :=
  if Landmark.visibility b <? Landmark.visibility a then a else b.

(** The body of [checkPosture] between the disabled guard and the final
    test on [issues.length], for landmarks that are all defined (so the
    truthiness tests [ear && shoulder && ...] all succeed). *)
Definition postureIssues (p : Posture.t)
    (leftEar rightEar leftShoulder rightShoulder leftHip rightHip
       : Landmark.t) : list string :=
  let issues := [] in
  let sensitivity := Posture.sensitivity p / 100 in
  (* 1. head forward *)
  let headForwardThreshold := Posture.headForwardThreshold p / sensitivity in
  let ear := moreVisible leftEar rightEar in
  let shoulder := moreVisible leftShoulder rightShoulder in
  let issues :=
    if (0.5 <? Landmark.visibility ear)
       && (0.5 <? Landmark.visibility shoulder) then
      let headForwardAngle :=
        calculateAngle
          (Landmark.mk (Landmark.x shoulder) (Landmark.y shoulder - 0.1)
                       nan nan)
          shoulder ear in
      let headForwardDeviation := abs (90 - headForwardAngle) in
      if headForwardThreshold <? headForwardDeviation
      then push issues "Head forward" else issues
    else issues in
  (* 2. shoulder slouch *)
  let shoulderSlouchThreshold :=
    Posture.shoulderSlouchThreshold p / sensitivity in
  let issues :=
    if (0.5 <? Landmark.visibility leftShoulder)
       && (0.5 <? Landmark.visibility rightShoulder) then
      let shoulderAngle :=
        abs (atan2 (Landmark.y rightShoulder - Landmark.y leftShoulder)
                   (Landmark.x rightShoulder - Landmark.x leftShoulder)
             * (180 / Math_PI)) in
      if shoulderSlouchThreshold <? shoulderAngle
      then push issues "Uneven shoulders" else issues
    else issues in
  (* 3. spine alignment *)
  let spineAngleThreshold := Posture.spineAngleThreshold p / sensitivity in
  let hip := moreVisible leftHip rightHip in
  let issues :=
    if (0.5 <? Landmark.visibility ear)
       && (0.5 <? Landmark.visibility shoulder)
       && (0.5 <? Landmark.visibility hip) then
      let spineAngle := calculateAngle ear shoulder hip in
      let spineDeviation := abs (180 - spineAngle) in
      if spineAngleThreshold <? spineDeviation
      then push issues "Spine curved" else issues
    else issues in
  (* 4. hunched shoulders *)
  let issues :=
    if (0.5 <? Landmark.visibility shoulder)
       && (0.5 <? Landmark.visibility hip) then
      let hunchThreshold := 0.05 / sensitivity in
      if hunchThreshold <? Landmark.x shoulder - Landmark.x hip
      then push issues "Shoulders hunched" else issues
    else issues in
  issues.

(** [checkPosture(poseLandmarks)]: the new state and the returned
    boolean.  The six landmarks are dereferenced (their [visibility] is
    read) before any state is written, so a missing one throws with the
    state unchanged. *)
Definition checkPosture (st : State) (poseLandmarks : option (list Landmark.t))
  : Completion (State * bool) :=
  match poseLandmarks with
  | None => Normal (set_currentPostureIssue None st, false)
  | Some pose =>
      if negb (Posture.enabled (Settings.posture (settings st))) then
        Normal (set_currentPostureIssue None st, false)
      else
        let* leftEar := at_index pose POSE_LANDMARKS.LEFT_EAR in
        let* rightEar := at_index pose POSE_LANDMARKS.RIGHT_EAR in
        let* leftShoulder := at_index pose POSE_LANDMARKS.LEFT_SHOULDER in
        let* rightShoulder := at_index pose POSE_LANDMARKS.RIGHT_SHOULDER in
        let* leftHip := at_index pose POSE_LANDMARKS.LEFT_HIP in
        let* rightHip := at_index pose POSE_LANDMARKS.RIGHT_HIP in
        let issues :=
          postureIssues (Settings.posture (settings st))
            leftEar rightEar leftShoulder rightShoulder leftHip rightHip in
        if (0 <? List.length issues)%nat then
          Normal (set_currentPostureIssue
                    (Some (String.concat ", " issues)) st, true)
        else
          Normal (set_currentPostureIssue None st, false)
  end.

(** *** The four checks, one by one

    Each check as the specification words it: its visibility
    precondition and its threshold test.  [postureIssues] is compared
    with these below. *)

Definition chosenEar (leftEar rightEar : Landmark.t) : Landmark.t :=
  moreVisible leftEar rightEar.
Definition chosenShoulder (leftShoulder rightShoulder : Landmark.t) :=
  moreVisible leftShoulder rightShoulder.
Definition chosenHip (leftHip rightHip : Landmark.t) : Landmark.t :=
  moreVisible leftHip rightHip.

Definition visible (lm : Landmark.t) : bool := 0.5 <? Landmark.visibility lm.

Definition scaled (p : Posture.t) (threshold : float) : float :=
  threshold / (Posture.sensitivity p / 100).

Definition headForwardFires (p : Posture.t) (ear shoulder : Landmark.t) : bool :=
  visible ear && visible shoulder &&
  (scaled p (Posture.headForwardThreshold p) <?
     abs (90 - calculateAngle
                 (Landmark.mk (Landmark.x shoulder)
                              (Landmark.y shoulder - 0.1) nan nan)
                 shoulder ear)).

Definition shoulderTiltFires (p : Posture.t)
    (leftShoulder rightShoulder : Landmark.t) : bool :=
  visible leftShoulder && visible rightShoulder &&
  (scaled p (Posture.shoulderSlouchThreshold p) <?
     abs (atan2 (Landmark.y rightShoulder - Landmark.y leftShoulder)
                (Landmark.x rightShoulder - Landmark.x leftShoulder)
          * (180 / Math_PI))).

Definition spineCurveFires (p : Posture.t) (ear shoulder hip : Landmark.t)
  : bool :=
  visible ear && visible shoulder && visible hip &&
  (scaled p (Posture.spineAngleThreshold p) <?
     abs (180 - calculateAngle ear shoulder hip)).

Definition hunchFires (p : Posture.t) (shoulder hip : Landmark.t) : bool :=
  visible shoulder && visible hip &&
  (scaled p 0.05 <? Landmark.x shoulder - Landmark.x hip).

End PostureDetection.

(** ** Alerts and repeat timers *)

(** One constructor per alert routine: [triggerAlert],
    [triggerContinuousAlert], [triggerPostureAlert] and
    [triggerPostureContinuousAlert], with the values each one formats. *)
Inductive Alert : Type :=
| TouchAlert (zoneName : string) (count : Z) (time : Z)
| ContinuousAlert (zoneName : string)
| PostureAlert (issue : string) (count : Z) (time : Z)
| PostureContinuousAlert (issue : string).

Definition isOnset (a : Alert) : bool :=
  match a with
  | TouchAlert _ _ _ | PostureAlert _ _ _ => true
  | _ => false
  end.

Definition isContinuous (a : Alert) : bool := negb (isOnset a).

(** What an alert asks of the outside world. *)
Inductive Sink : Type :=
| playBeep (frequency duration : Z)
| alertFlash (posture : bool)
| sendNotification (about : Alert).

Definition alertSinks (s : Settings.t) (a : Alert) : list Sink :=
  let posture := match a with
                 | PostureAlert _ _ _ | PostureContinuousAlert _ => true
                 | _ => false
                 end in
  (if Settings.soundEnabled s
   then [if posture then playBeep 330 200 else playBeep 440 150] else []) ++
  (if Settings.visualAlertEnabled s then [alertFlash posture] else []) ++
  (if Settings.notifyEnabled s then [sendNotification a] else []).

(** The two closures handed to [setInterval]. *)
Inductive IntervalCallback : Set :=
| continuousBeepCallback
| postureBeepCallback.

(** The script's state together with the host's table of live interval
    timers and the alerts raised so far (oldest first). *)
Record Runtime := mkRuntime {
  state : State;
  intervals : list (handle * (IntervalCallback * float));
  nextHandle : handle;
  alerts : list Alert }.

Definition with_state (f : State -> State) (rt : Runtime) : Runtime :=
  mkRuntime (f (state rt)) (intervals rt) (nextHandle rt) (alerts rt).

Definition emit (a : Alert) (rt : Runtime) : Runtime :=
  mkRuntime (state rt) (intervals rt) (nextHandle rt) (alerts rt ++ [a]).

(** [setInterval(callback, delay)]: a fresh handle and the runtime with
    the timer registered. *)
Definition setInterval (callback : IntervalCallback) (delay : float)
    (rt : Runtime) : handle * Runtime :=
  (nextHandle rt,
   mkRuntime (state rt)
             (intervals rt ++ [(nextHandle rt, (callback, delay))])
             (Pos.succ (nextHandle rt)) (alerts rt)).

(** [clearInterval(id)] *)
Definition clearInterval (id : handle) (rt : Runtime) : Runtime :=
  mkRuntime (state rt)
            (filter (fun t => negb (Pos.eqb (fst t) id)) (intervals rt))
            (nextHandle rt) (alerts rt).

Definition liveInterval (id : handle) (rt : Runtime) : option IntervalCallback :=
  match find (fun t => Pos.eqb (fst t) id) (intervals rt) with
  | Some (_, (callback, _)) => Some callback
  | None => None
  end.

Definition zoneNameOf (st : State) : string :=
  match lastTouchedZone st with
  | Some region => getZoneDisplayName region
  | None => "Face"%string
  end.

Definition issueOf (st : State) : string :=
  match currentPostureIssue st with
  | Some EmptyString => "Poor posture"%string
  | Some issue => issue
  | None => "Poor posture"%string
  end.

(** [triggerAlert()]; [now] is the value of [Date.now()]. *)
Definition triggerAlert (now : Z) (rt : Runtime) : Runtime :=
  let rt := with_state (fun st => set_touchCount (touchCount st + 1) st) rt in
  let rt := with_state (set_lastTouchTime (Some now)) rt in
  emit (TouchAlert (zoneNameOf (state rt)) (touchCount (state rt)) now) rt.

(** [triggerContinuousAlert()] *)
Definition triggerContinuousAlert (rt : Runtime) : Runtime :=
  emit (ContinuousAlert (zoneNameOf (state rt))) rt.

(** [triggerPostureAlert()] *)
Definition triggerPostureAlert (now : Z) (rt : Runtime) : Runtime :=
  let rt := with_state
              (fun st => set_postureAlertCount (postureAlertCount st + 1) st)
              rt in
  let rt := with_state (set_lastPostureAlertTime (Some now)) rt in
  emit (PostureAlert (issueOf (state rt)) (postureAlertCount (state rt)) now)
       rt.

(** [triggerPostureContinuousAlert()] *)
Definition triggerPostureContinuousAlert (rt : Runtime) : Runtime :=
  emit (PostureContinuousAlert (issueOf (state rt))) rt.

Definition stopContinuousBeep (rt : Runtime) : Runtime :=
  match continuousBeepTimer (state rt) with
  | Some id =>
      with_state (set_continuousBeepTimer None) (clearInterval id rt)
  | None => rt
  end.

Definition startContinuousBeep (rt : Runtime) : Runtime :=
  let rt := stopContinuousBeep rt in
  let (id, rt) :=
    setInterval continuousBeepCallback
                (Settings.alertCooldownMs (settings (state rt))) rt in
  with_state (set_continuousBeepTimer (Some id)) rt.

(** [handleTouchState(touchDetected, faceVisible)].  [faceVisible] only
    feeds the status display. *)
Definition handleTouchState (touchDetected faceVisible : bool) (now : Z)
    (rt : Runtime) : Runtime :=
  let rt := with_state (fun st => set_wasTouching (isTouching st) st) rt in
  let rt := with_state (set_isTouching touchDetected) rt in
  if touchDetected && negb (wasTouching (state rt)) then
    startContinuousBeep (triggerAlert now rt)
  else if negb touchDetected && wasTouching (state rt) then
    stopContinuousBeep rt
  else rt.

Definition stopPostureContinuousAlert (rt : Runtime) : Runtime :=
  match postureBeepTimer (state rt) with
  | Some id =>
      with_state (set_postureBeepTimer None) (clearInterval id rt)
  | None => rt
  end.

Definition startPostureContinuousAlert (rt : Runtime) : Runtime :=
  let rt := stopPostureContinuousAlert rt in
  let (id, rt) :=
    setInterval postureBeepCallback
                (Posture.alertCooldownMs
                   (Settings.posture (settings (state rt)))) rt in
  with_state (set_postureBeepTimer (Some id)) rt.

(** [handlePostureState(badPostureDetected)] *)
Definition handlePostureState (badPostureDetected : bool) (now : Z)
    (rt : Runtime) : Runtime :=
  let rt := with_state (fun st => set_wasBadPosture (isBadPosture st) st) rt in
  let rt := with_state (set_isBadPosture badPostureDetected) rt in
  if badPostureDetected && negb (wasBadPosture (state rt)) then
    startPostureContinuousAlert (triggerPostureAlert now rt)
  else if negb badPostureDetected && wasBadPosture (state rt) then
    stopPostureContinuousAlert rt
  else rt.

(** The body of each interval closure. *)
Definition runCallback (callback : IntervalCallback) (rt : Runtime) : Runtime :=
  match callback with
  | continuousBeepCallback =>
      if isTouching (state rt) then triggerContinuousAlert rt
      else stopContinuousBeep rt
  | postureBeepCallback =>
      if isBadPosture (state rt) then triggerPostureContinuousAlert rt
      else stopPostureContinuousAlert rt
  end.

(** The host fires interval [id]: its closure runs if the timer is still
    registered; a cleared timer never fires. *)
Definition intervalTick (id : handle) (rt : Runtime) : Runtime :=
  match liveInterval id rt with
  | Some callback => runCallback callback rt
  | None => rt
  end.

(** [stopMonitoring()], as far as it touches the alert state: the
    animation frame, the cameras and the canvases are outside this model. *)
Definition stopMonitoring (rt : Runtime) : Runtime :=
  let rt := with_state (set_isRunning false) rt in
  let rt := stopContinuousBeep rt in
  let rt := stopPostureContinuousAlert rt in
  let rt := with_state (set_isBadPosture false) rt in
  with_state (set_wasBadPosture false) rt.

(** The state update at the end of a successful [startMonitoring()]. *)
Definition startMonitoring (now : Z) (rt : Runtime) : Runtime :=
  let rt := with_state (set_isRunning true) rt in
  let rt := with_state (set_startTime (Some now)) rt in
  let rt := with_state (set_touchCount 0) rt in
  let rt := with_state (set_lastTouchTime None) rt in
  let rt := with_state (set_postureAlertCount 0) rt in
  with_state (set_lastPostureAlertTime None) rt.

(** The [change] handler of the posture toggle, as far as it touches the
    alert state (the lateral camera is outside this model). *)
Definition postureToggleChange (checked : bool) (rt : Runtime) : Runtime :=
  let rt :=
    with_state
      (fun st =>
         set_settings
           (Settings.set_posture
              (Posture.set_enabled checked (Settings.posture (settings st)))
              (settings st)) st) rt in
  if checked then rt
  else
    let rt := stopPostureContinuousAlert rt in
    let rt := with_state (set_isBadPosture false) rt in
    with_state (set_wasBadPosture false) rt.

(** The alert state machine of one behaviour, read off the runtime:
    [Active] while its repeat timer is scheduled. *)
Inductive AlertMode : Set := Idle | Active.

Definition touchMode (rt : Runtime) : AlertMode :=
  match continuousBeepTimer (state rt) with
  | Some _ => Active
  | None => Idle
  end.

Definition postureMode (rt : Runtime) : AlertMode :=
  match postureBeepTimer (state rt) with
  | Some _ => Active
  | None => Idle
  end.

(** No live interval timer runs the given closure. *)
Definition noLiveTimer (callback : IntervalCallback) (rt : Runtime) : bool :=
  forallb (fun t => match fst (snd t), callback with
                    | continuousBeepCallback, continuousBeepCallback
                    | postureBeepCallback, postureBeepCallback => false
                    | _, _ => true
                    end) (intervals rt).

(** Inputs of one behaviour's machine between two observations. *)
Inductive Input : Type :=
| touchFrame (touchDetected faceVisible : bool) (now : Z)
| postureFrame (badPostureDetected : bool) (now : Z)
| timerFires (id : handle).

Definition step (rt : Runtime) (i : Input) : Runtime :=
  match i with
  | touchFrame d v now => handleTouchState d v now rt
  | postureFrame d now => handlePostureState d now rt
  | timerFires id => intervalTick id rt
  end.

Definition run (rt : Runtime) (inputs : list Input) : Runtime :=
  fold_left step inputs rt.

(** Consecutive frames in which a touch is detected, each with its
    face-visible flag and time; and the same for bad posture. *)
Definition touchFrames (frames : list (bool * Z)) : list Input :=
  map (fun f => touchFrame true (fst f) (snd f)) frames.

Definition postureFrames (frames : list Z) : list Input :=
  map (fun now => postureFrame true now) frames.

(** ** The older script, [detect.js]: touch alerts with a cooldown flag *)

Module DetectJs.

Record State := mkState {
  touchCount : Z;
  lastTouchTime : option Z;
  alertCooldown : bool;
  isTouching : bool;
  wasTouching : bool;
  alertCooldownMs : float;
  lastTouchedZone : option zone }.

(** The state with the pending cooldown timeouts and the alerts raised. *)
Record Runtime := mkRuntime {
  state : State;
  timeouts : list handle;
  nextHandle : handle;
  alerts : list Alert }.

Definition zoneNameOf (st : State) : string :=
  match lastTouchedZone st with
  | Some region => getZoneDisplayName region
  | None => "Face"%string
  end.

(** [triggerAlert()] *)
Definition triggerAlert (now : Z) (rt : Runtime) : Runtime :=
  let st := state rt in
  let count := (touchCount st + 1)%Z in
  mkRuntime
    (mkState count (Some now) true (isTouching st) (wasTouching st)
             (alertCooldownMs st) (lastTouchedZone st))
    (timeouts rt ++ [nextHandle rt])
    (Pos.succ (nextHandle rt))
    (alerts rt ++ [TouchAlert (zoneNameOf st) count now]).

(** The cooldown timeout set by [triggerAlert] fires. *)
Definition timeoutFires (id : handle) (rt : Runtime) : Runtime :=
  if existsb (Pos.eqb id) (timeouts rt) then
    let st := state rt in
    mkRuntime
      (mkState (touchCount st) (lastTouchTime st) false (isTouching st)
               (wasTouching st) (alertCooldownMs st) (lastTouchedZone st))
      (filter (fun t => negb (Pos.eqb t id)) (timeouts rt))
      (nextHandle rt) (alerts rt)
  else rt.

(** [handleTouchState(touchDetected, faceVisible)] *)
Definition handleTouchState (touchDetected faceVisible : bool) (now : Z)
    (rt : Runtime) : Runtime :=
  let st := state rt in
  let rt :=
    mkRuntime
      (mkState (touchCount st) (lastTouchTime st) (alertCooldown st)
               touchDetected (isTouching st) (alertCooldownMs st)
               (lastTouchedZone st))
      (timeouts rt) (nextHandle rt) (alerts rt) in
  if touchDetected && negb (wasTouching (state rt))
     && negb (alertCooldown (state rt))
  then triggerAlert now rt
  else rt.

End DetectJs.

(** ** Reference notions used to state the properties *)

Definition isSome {A : Type} (o : option A) : bool :=
  match o with
  | Some _ => true
  | None => false
  end.

Section Reference.
Local Open Scope float_scope.

(** The 2-D Euclidean distance [sqrt(dx² + dy²)]; [z] plays no part. *)
Definition distance2D (point target : Point.t) : float :=
  let dx := Point.x point - Point.x target in
  let dy := Point.y point - Point.y target in
  PrimFloat.sqrt (dx * dx + dy * dy).

(** One round of the loop of [getMinDistance]. *)
Definition keepSmaller (point : Point.t) (minDist : float) (target : Point.t)
  : float :=
  if distance2D point target <? minDist then distance2D point target
  else minDist.

(** A number that is not NaN. *)
Definition ordered (f : float) : Prop := (f <=? f) = true.

(** A landmark scaled to pixel space. *)
Definition toPixel (videoWidth videoHeight : float) (lm : Landmark.t)
  : Point.t :=
  Point.mk (Landmark.x lm * videoWidth) (Landmark.y lm * videoHeight)
           (Landmark.z lm * videoWidth).

(** The arithmetic mean of the [z] values of a point list. *)
Definition meanZ (points : list Point.t) : float :=
  fold_left PrimFloat.add (map Point.z points) 0 / length_float points.

(** Both tests of the innermost loop body. *)
Definition accepted (st : State) (tipPoint : Point.t) (points : list Point.t)
  : bool :=
  withinThreshold st tipPoint points && depthAccepted tipPoint points.

(** The fixed order in which zones are considered. *)
Definition zoneOrder : list zone :=
  [mouth; nose; leftEye; rightEye; leftCheek; rightCheek; chin].

(** The pairs one fingertip contributes: its pixel-space point against
    each zone entry, in entry order. *)
Definition tipCandidates (videoWidth videoHeight : float)
    (facePoints : list (zone * list Point.t))
    (handLandmarks : list Landmark.t) (tipIdx : nat)
  : list (Point.t * (zone * list Point.t)) :=
  match nth_error handLandmarks tipIdx with
  | Some tip =>
      map (fun entry => (toPixel videoWidth videoHeight tip, entry)) facePoints
  | None => []
  end.

(** Every fingertip-zone pair in enumeration order: hands outermost,
    then the five fingertips, then the zone entries. *)
Definition candidates (videoWidth videoHeight : float)
    (facePoints : list (zone * list Point.t))
    (handLandmarksList : list (list Landmark.t))
  : list (Point.t * (zone * list Point.t)) :=
  flat_map
    (fun handLandmarks =>
       flat_map (tipCandidates videoWidth videoHeight facePoints handLandmarks)
                FINGERTIPS)
    handLandmarksList.

(** The first candidate passing both tests. *)
Definition firstAccepted (st : State)
    (cands : list (Point.t * (zone * list Point.t))) : option zone :=
  option_map (fun c => fst (snd c))
    (find (fun c => accepted st (fst c) (snd (snd c))) cands).

(** The zone of the candidate at the smallest distance of all. *)
Definition closestZone (cands : list (Point.t * (zone * list Point.t)))
  : option zone :=
  option_map fst
    (fold_left
       (fun best c =>
          let d := getMinDistance (fst c) (snd (snd c)) in
          match best with
          | None => Some (fst (snd c), d)
          | Some (_, bestDist) =>
              if d <? bestDist then Some (fst (snd c), d) else best
          end)
       cands None).

(** The values fixed for [Math.atan2] when the argument pair lies on a
    coordinate axis; NaN elsewhere.  It instantiates [atan2] in the
    worked examples, which only use such arguments. *)
Definition atan2_axes (y x : float) : float :=
  let negative f :=
    match classify f with
    | NInf | NNormal | NSubn | NZero => true
    | _ => false
    end in
  if is_nan y || is_nan x then nan
  else if y =? 0 then
    if negative x then (if negative y then - Math_PI else Math_PI) else y
  else if x =? 0 then
    if y <? 0 then - (Math_PI / 2) else Math_PI / 2
  else nan.

End Reference.

(** ** Sample data for the worked examples *)

Section Samples.
Local Open Scope float_scope.

Definition defaultZones : Zones.t :=
  Zones.mk true true true true false false false.

Definition defaultPosture : Posture.t :=
  Posture.mk false 100 15 10 15 3000.

Definition defaultSettings : Settings.t :=
  Settings.mk 100 2000 true false true defaultZones defaultPosture.

(** The initial [state] object, with a 1280 x 720 canvas. *)
Definition initialState : State :=
  mkState false (Canvas.mk 1280 720) 0 None 0 None None false
          false false None false false None None defaultSettings None.

Definition initialRuntime : Runtime := mkRuntime initialState [] 1%positive [].

Definition noZones : Zones.t :=
  Zones.mk false false false false false false false.

Definition withZones (zs : Zones.t) (st : State) : State :=
  set_settings
    (Settings.mk (Settings.sensitivity (settings st))
                 (Settings.alertCooldownMs (settings st))
                 (Settings.soundEnabled (settings st))
                 (Settings.notifyEnabled (settings st))
                 (Settings.visualAlertEnabled (settings st))
                 zs (Settings.posture (settings st))) st.


Definition landmarkAt (x y z : float) : Landmark.t := Landmark.mk x y z nan.

(** A face of 478 landmarks: the mouth landmarks at [mouthLm], the nose
    landmarks at [noseLm], all others at [elsewhere]. *)
Definition sampleFace (mouthLm noseLm elsewhere : Landmark.t)
  : list Landmark.t :=
  map (fun idx =>
         if existsb (Nat.eqb idx) (FACE_REGIONS mouth) then mouthLm
         else if existsb (Nat.eqb idx) (FACE_REGIONS nose) then noseLm
         else elsewhere)
      (seq 0 478).

(** A hand whose 21 landmarks all sit at one place. *)
Definition handAt (lm : Landmark.t) : list Landmark.t := repeat lm 21.

(** Mouth at pixel (640, 360), nose at pixel (675, 360), the rest of
    the face at the origin; all at depth 0. *)
Definition faceA : list Landmark.t :=
  sampleFace (landmarkAt 0.5 0.5 0) (landmarkAt 0.52734375 0.5 0)
             (landmarkAt 0 0 0).

(** Mouth at pixel (640, 360), every other landmark at the origin. *)
Definition faceB : list Landmark.t :=
  sampleFace (landmarkAt 0.5 0.5 0) (landmarkAt 0 0 0) (landmarkAt 0 0 0).

(** Hands at pixels (679, 360) and (681, 360), at depth 10: distance 39
    and 41 from the mouth landmarks of [faceB]. *)
Definition hand39 : list Landmark.t :=
  handAt (landmarkAt 0.53046875 0.5 0.0078125).
Definition hand41 : list Landmark.t :=
  handAt (landmarkAt 0.53203125 0.5 0.0078125).

(** The mouth entry of [facePoints] for [faceB] on the 1280 x 720
    canvas, and a pixel-space point at (650, 360) with depth [z]. *)
Definition mouthPointsB : list Point.t :=
  map (fun _ => Point.mk 640 360 0) (FACE_REGIONS mouth).
Definition tipTen (z : float) : Point.t := Point.mk 650 360 z.

(** What a call returned: the recorded zone and the boolean. *)
Definition outcome (c : Completion (State * bool))
  : option (option zone * bool) :=
  match c with
  | Normal (st, b) => Some (lastTouchedZone st, b)
  | Throw => None
  end.

(** A hand at pixel (650, 360): distance 10 from the mouth landmarks. *)
Definition handNear (z : float) : list Landmark.t :=
  handAt (landmarkAt 0.5078125 0.5 z).

(** A hand at pixel (670, 360): 30 from the mouth, 5 from the nose. *)
Definition handBetween : list Landmark.t :=
  handAt (landmarkAt 0.5234375 0.5 0).

(** Pose landmarks: 33 entries, the six used ones given, the others at
    the origin with visibility 0. *)
Definition samplePose
    (leftEar rightEar leftShoulder rightShoulder leftHip rightHip
       : Landmark.t) : list Landmark.t :=
  map (fun idx =>
         if Nat.eqb idx POSE_LANDMARKS.LEFT_EAR then leftEar
         else if Nat.eqb idx POSE_LANDMARKS.RIGHT_EAR then rightEar
         else if Nat.eqb idx POSE_LANDMARKS.LEFT_SHOULDER then leftShoulder
         else if Nat.eqb idx POSE_LANDMARKS.RIGHT_SHOULDER then rightShoulder
         else if Nat.eqb idx POSE_LANDMARKS.LEFT_HIP then leftHip
         else if Nat.eqb idx POSE_LANDMARKS.RIGHT_HIP then rightHip
         else Landmark.mk 0 0 0 0)
      (seq 0 33).

(** A pose in which every check fires: the ear straight above the left
    shoulder, the right shoulder straight below the left one, the hip
    level with the shoulder and 0.25 to its left. *)
Definition poseAllBad (earVisibility : float) : list Landmark.t :=
  samplePose (Landmark.mk 0.5 0.25 0 earVisibility)
             (Landmark.mk 0.5 0.25 0 0.125)
             (Landmark.mk 0.5 0.5 0 0.875)
             (Landmark.mk 0.5 0.75 0 0.75)
             (Landmark.mk 0.25 0.5 0 0.875)
             (Landmark.mk 0.25 0.5 0 0.125).

(** The initial state of [detect.js] with no timeout pending. *)
Definition detectJsInitial : DetectJs.Runtime :=
  DetectJs.mkRuntime
    (DetectJs.mkState 0 None false false false 3000 None)
    [] 1%positive [].

(** A session in which the user is touching when monitoring stops and is
    still touching when it starts again. *)
Definition touchingWhenStopped : Runtime :=
  stopMonitoring (handleTouchState true true 1000 initialRuntime).
Definition restartedWhileTouching : Runtime :=
  handleTouchState true true 5000 (startMonitoring 4000 touchingWhenStopped).

(** The runtime after a touch onset, and the same runtime with the
    detection flag cleared while the repeat timer is still registered. *)
Definition touchingRuntime : Runtime :=
  handleTouchState true true 1000 initialRuntime.
Definition releasedBeforeTick : Runtime :=
  with_state (set_isTouching false) touchingRuntime.

Definition postureOn (st : State) : State :=
  set_settings
    (Settings.set_posture
       (Posture.set_enabled true (Settings.posture (settings st)))
       (settings st)) st.

End Samples.

(** ** The frame loop and the controls *)

(** How a call of [detectFrame] ends: it returns at once when monitoring
    is not running, it requests the next animation frame, or an exception
    leaves it before it does. *)
Inductive FrameOutcome : Set := notRunning | rescheduled | uncaught.

Section FrameLoop.

(** [Math.atan2], as in [checkPosture]. *)
Variable atan2 : float -> float -> float.

(** [detectFrame()], as far as it touches detection and alert state: the
    frame rate and the drawing are outside this model.  [faceLandmarks]
    and [handLandmarksList] are what the two landmarkers returned;
    [lateralReady] stands for [state.lateralVideo && state.poseLandmarker]
    and [poseLandmarks] for the result of [detectPostureFrame()]; [now]
    and [later] are the values of [Date.now()] seen by the touch and by
    the posture alert. *)
Definition detectFrame (faceLandmarks : option (list Landmark.t))
    (handLandmarksList : list (list Landmark.t)) (lateralReady : bool)
    (poseLandmarks : option (list Landmark.t)) (now later : Z)
    (rt : Runtime) : FrameOutcome * Runtime :=
  if negb (isRunning (state rt)) then (notRunning, rt)
  else
    match checkFaceTouch (state rt) faceLandmarks handLandmarksList with
    | Throw => (uncaught, rt)
    | Normal (st, touchDetected) =>
        let rt := with_state (fun _ => st) rt in
        let rt := handleTouchState touchDetected (isSome faceLandmarks) now rt in
        if Posture.enabled (Settings.posture (settings (state rt)))
           && lateralReady then
          match checkPosture atan2 (state rt) poseLandmarks with
          | Throw => (uncaught, rt)
          | Normal (st, badPostureDetected) =>
              (rescheduled,
               handlePostureState badPostureDetected later
                                  (with_state (fun _ => st) rt))
          end
        else (rescheduled, rt)
    end.

End FrameLoop.

(** [resetStatistics()] *)
Definition resetStatistics (now : Z) (rt : Runtime) : Runtime :=
  let rt := with_state (set_touchCount 0) rt in
  let rt := with_state (set_lastTouchTime None) rt in
  let rt := with_state (set_postureAlertCount 0) rt in
  let rt := with_state (set_lastPostureAlertTime None) rt in
  with_state (set_startTime (Some now)) rt.

(** [state.settings.zones = zs], and the same for the touch settings
    written by the sliders. *)
Definition set_zones (zs : Zones.t) (st : State) : State :=
  set_settings
    (Settings.mk (Settings.sensitivity (settings st))
                 (Settings.alertCooldownMs (settings st))
                 (Settings.soundEnabled (settings st))
                 (Settings.notifyEnabled (settings st))
                 (Settings.visualAlertEnabled (settings st))
                 zs (Settings.posture (settings st))) st.

Definition set_sensitivity (value : float) (st : State) : State :=
  set_settings
    (Settings.mk value
                 (Settings.alertCooldownMs (settings st))
                 (Settings.soundEnabled (settings st))
                 (Settings.notifyEnabled (settings st))
                 (Settings.visualAlertEnabled (settings st))
                 (Settings.zones (settings st))
                 (Settings.posture (settings st))) st.

Definition set_alertCooldownMs (value : float) (st : State) : State :=
  set_settings
    (Settings.mk (Settings.sensitivity (settings st))
                 value
                 (Settings.soundEnabled (settings st))
                 (Settings.notifyEnabled (settings st))
                 (Settings.visualAlertEnabled (settings st))
                 (Settings.zones (settings st))
                 (Settings.posture (settings st))) st.

(** The [change] handlers of the five zone checkboxes. *)
Definition zoneMouthChange (checked : bool) (st : State) : State :=
  let zs := Settings.zones (settings st) in
  set_zones (Zones.mk checked (Zones.nose zs) (Zones.leftEye zs)
                      (Zones.rightEye zs) (Zones.leftCheek zs)
                      (Zones.rightCheek zs) (Zones.chin zs)) st.

Definition zoneNoseChange (checked : bool) (st : State) : State :=
  let zs := Settings.zones (settings st) in
  set_zones (Zones.mk (Zones.mouth zs) checked (Zones.leftEye zs)
                      (Zones.rightEye zs) (Zones.leftCheek zs)
                      (Zones.rightCheek zs) (Zones.chin zs)) st.

Definition zoneEyesChange (checked : bool) (st : State) : State :=
  let zs := Settings.zones (settings st) in
  set_zones (Zones.mk (Zones.mouth zs) (Zones.nose zs) checked checked
                      (Zones.leftCheek zs) (Zones.rightCheek zs)
                      (Zones.chin zs)) st.

Definition zoneCheeksChange (checked : bool) (st : State) : State :=
  let zs := Settings.zones (settings st) in
  set_zones (Zones.mk (Zones.mouth zs) (Zones.nose zs) (Zones.leftEye zs)
                      (Zones.rightEye zs) checked checked (Zones.chin zs)) st.

Definition zoneChinChange (checked : bool) (st : State) : State :=
  let zs := Settings.zones (settings st) in
  set_zones (Zones.mk (Zones.mouth zs) (Zones.nose zs) (Zones.leftEye zs)
                      (Zones.rightEye zs) (Zones.leftCheek zs)
                      (Zones.rightCheek zs) checked) st.

(** The [input] handlers of the sensitivity and cooldown sliders; the
    argument is the parsed slider value. *)
Definition sensitivityInput (value : float) (st : State) : State :=
  set_sensitivity value st.

Definition alertCooldownInput (value : float) (st : State) : State :=
  set_alertCooldownMs (PrimFloat.mul value 1000) st.

(** The checked state [applySettingsToUI] gives the five zone checkboxes. *)
Record ZoneCheckboxes := mkZoneCheckboxes {
  zoneMouth : bool;
  zoneNose : bool;
  zoneEyes : bool;
  zoneCheeks : bool;
  zoneChin : bool }.

Definition applyZonesToUI (st : State) : ZoneCheckboxes :=
  let zs := Settings.zones (settings st) in
  mkZoneCheckboxes (Zones.mouth zs) (Zones.nose zs)
                   (Zones.leftEye zs && Zones.rightEye zs)
                   (Zones.leftCheek zs && Zones.rightCheek zs)
                   (Zones.chin zs).

(** ** The proximity overlay *)

Section ProximityOverlay.
Local Open Scope float_scope.

(** [Math.min(...values)]: [Infinity] for no value, NaN as soon as one
    value is NaN, and [-0] below [+0]. *)
Definition Math_min (values : list float) : float :=
  fold_left
    (fun lowest number =>
       if is_nan lowest || is_nan number then nan
       else if number <? lowest then number
       else if (number =? lowest)
               && match classify number with NZero => true | _ => false end
            then number
       else lowest)
    values infinity.

(** [Math.max(...values)] *)
Definition Math_max (values : list float) : float :=
  fold_left
    (fun highest number =>
       if is_nan highest || is_nan number then nan
       else if highest <? number then number
       else if (number =? highest)
               && match classify number with PZero => true | _ => false end
            then number
       else highest)
    values neg_infinity.

(** The arguments of one [ctx.ellipse] call, with the fill colour. *)
Record Ellipse := mkEllipse {
  fillStyle : string;
  centerX : float;
  centerY : float;
  radiusX : float;
  radiusY : float }.

(** The entries of [allZones]: region, colour and enabled flag. *)
Definition allZones (st : State) : list (zone * (string * bool)) :=
  let zs := Settings.zones (settings st) in
  [(mouth, ("rgba(239, 68, 68, 0.2)"%string, Zones.mouth zs));
   (nose, ("rgba(245, 158, 11, 0.2)"%string, Zones.nose zs));
   (leftEye, ("rgba(14, 165, 233, 0.2)"%string, Zones.leftEye zs));
   (rightEye, ("rgba(14, 165, 233, 0.2)"%string, Zones.rightEye zs));
   (leftCheek, ("rgba(139, 92, 246, 0.2)"%string, Zones.leftCheek zs));
   (rightCheek, ("rgba(139, 92, 246, 0.2)"%string, Zones.rightCheek zs));
   (chin, ("rgba(34, 197, 94, 0.2)"%string, Zones.chin zs))].

(** The ellipse drawn around points with the given coordinates: their
    bounding box widened by the threshold on every side. *)
Definition ellipseAround (threshold : float) (color : string)
    (xs ys : list float) : Ellipse :=
  let minX := Math_min xs - threshold in
  let maxX := Math_max xs + threshold in
  let minY := Math_min ys - threshold in
  let maxY := Math_max ys + threshold in
  mkEllipse color ((minX + maxX) / 2) ((minY + maxY) / 2)
            ((maxX - minX) / 2) ((maxY - minY) / 2).

(** [indices.map(idx => ({x: ..., y: ...}))] of the overlay. *)
Definition overlayPoints (faceLandmarks : list Landmark.t)
    (videoWidth videoHeight : float) (indices : list nat)
  : Completion (list (float * float)) :=
  mapC (fun idx =>
          let* lm := at_index faceLandmarks idx in
          Normal (Landmark.x lm * videoWidth, Landmark.y lm * videoHeight))
       indices.

(** The loop of [drawProximityZones]: the ellipses drawn, in order. *)
Fixpoint drawZones (faceLandmarks : list Landmark.t)
    (videoWidth videoHeight threshold : float)
    (zones : list (zone * (string * bool)))
  : Completion (list (zone * Ellipse)) :=
  match zones with
  | [] => Normal []
  | (region, (color, enabled)) :: rest =>
      if negb enabled then
        drawZones faceLandmarks videoWidth videoHeight threshold rest
      else
        let* points :=
          overlayPoints faceLandmarks videoWidth videoHeight
                        (FACE_REGIONS region) in
        let xs := map fst points in
        let ys := map snd points in
        let* more :=
          drawZones faceLandmarks videoWidth videoHeight threshold rest in
        Normal ((region, ellipseAround threshold color xs ys) :: more)
  end.

(** [drawProximityZones(faceLandmarks)]: the ellipses it fills when it
    returns.  What is already on the canvas when it throws is outside
    this model. *)
Definition drawProximityZones (st : State) (faceLandmarks : list Landmark.t)
  : Completion (list (zone * Ellipse)) :=
  let videoWidth := Canvas.width (canvas st) in
  let videoHeight := Canvas.height (canvas st) in
  let threshold := 40 / (Settings.sensitivity (settings st) / 100) in
  drawZones faceLandmarks videoWidth videoHeight threshold (allZones st).

(** The colour of a zone's overlay. *)
Definition zoneColor (region : zone) : string :=
  match region with
  | mouth => "rgba(239, 68, 68, 0.2)"
  | nose => "rgba(245, 158, 11, 0.2)"
  | leftEye | rightEye => "rgba(14, 165, 233, 0.2)"
  | leftCheek | rightCheek => "rgba(139, 92, 246, 0.2)"
  | chin => "rgba(34, 197, 94, 0.2)"
  end%string.

(** The ellipse the overlay draws for one entry of [facePoints]. *)
Definition overlayOf (st : State) (entry : zone * list Point.t)
  : zone * Ellipse :=
  (fst entry,
   ellipseAround (touchThreshold st) (zoneColor (fst entry))
                 (map Point.x (snd entry)) (map Point.y (snd entry))).

End ProximityOverlay.

(** Everything that can happen to the running page. *)
Inductive Action : Type :=
| animationFrame (faceLandmarks : option (list Landmark.t))
                 (handLandmarksList : list (list Landmark.t))
                 (lateralReady : bool)
                 (poseLandmarks : option (list Landmark.t)) (now later : Z)
| intervalFires (id : handle)
| stopClicked
| startSucceeded (now : Z)
| resetClicked (now : Z)
| postureToggled (checked : bool)
| zoneMouthToggled (checked : bool)
| zoneNoseToggled (checked : bool)
| zoneEyesToggled (checked : bool)
| zoneCheeksToggled (checked : bool)
| zoneChinToggled (checked : bool)
| sensitivitySlid (value : float)
| cooldownSlid (value : float).

Definition perform (atan2 : float -> float -> float) (rt : Runtime)
    (a : Action) : Runtime :=
  match a with
  | animationFrame face hands lateralReady pose now later =>
      snd (detectFrame atan2 face hands lateralReady pose now later rt)
  | intervalFires id => intervalTick id rt
  | stopClicked => stopMonitoring rt
  | startSucceeded now => startMonitoring now rt
  | resetClicked now => resetStatistics now rt
  | postureToggled checked => postureToggleChange checked rt
  | zoneMouthToggled checked => with_state (zoneMouthChange checked) rt
  | zoneNoseToggled checked => with_state (zoneNoseChange checked) rt
  | zoneEyesToggled checked => with_state (zoneEyesChange checked) rt
  | zoneCheeksToggled checked => with_state (zoneCheeksChange checked) rt
  | zoneChinToggled checked => with_state (zoneChinChange checked) rt
  | sensitivitySlid value => with_state (sensitivityInput value) rt
  | cooldownSlid value => with_state (alertCooldownInput value) rt
  end.

Definition performAll (atan2 : float -> float -> float) (rt : Runtime)
    (actions : list Action) : Runtime :=
  fold_left (perform atan2) actions rt.

(** The page as loaded: no timer, no alert, no detection yet.  Settings,
    canvas size and counters are free. *)
Definition startup (rt : Runtime) : Prop :=
  intervals rt = [] /\ alerts rt = []
  /\ continuousBeepTimer (state rt) = None
  /\ postureBeepTimer (state rt) = None
  /\ isTouching (state rt) = false
  /\ isBadPosture (state rt) = false
  /\ lastTouchedZone (state rt) = None
  /\ currentPostureIssue (state rt) = None.

(** The states the page can be in. *)
Inductive reachable (atan2 : float -> float -> float) : Runtime -> Prop :=
| reachable_startup (rt : Runtime) : startup rt -> reachable atan2 rt
| reachable_perform (rt : Runtime) (a : Action) :
    reachable atan2 rt -> reachable atan2 (perform atan2 rt a).

(** Neither [startMonitoring] nor [resetStatistics] among the actions. *)
Definition keepsCounters (a : Action) : bool :=
  match a with
  | startSucceeded _ | resetClicked _ => false
  | _ => true
  end.

Definition isTouchOnset (a : Alert) : bool :=
  match a with TouchAlert _ _ _ => true | _ => false end.

Definition isPostureOnset (a : Alert) : bool :=
  match a with PostureAlert _ _ _ => true | _ => false end.

(** The handle the state holds for a closure. *)
Definition held (rt : Runtime) (callback : IntervalCallback) : option handle :=
  match callback with
  | continuousBeepCallback => continuousBeepTimer (state rt)
  | postureBeepCallback => postureBeepTimer (state rt)
  end.

(** The table of interval timers agrees with the two handles of the
    state: handles are fresh and registered once, every registered timer
    is the one held for its closure, and a held handle is registered. *)
Definition timersAgree (rt : Runtime) : Prop :=
  (forall t, In t (intervals rt) -> (fst t < nextHandle rt)%positive)
  /\ NoDup (map fst (intervals rt))
  /\ (forall t, In t (intervals rt) -> held rt (fst (snd t)) = Some (fst t))
  /\ (forall callback id,
        held rt callback = Some id ->
        exists delay, In (id, (callback, delay)) (intervals rt)).

(** The four labels, and the texts [issues.join(', ')] can produce from a
    non-empty selection of them in order. *)
Definition issueLabels : list string :=
  ["Head forward"; "Uneven shoulders"; "Spine curved";
   "Shoulders hunched"]%string.

Fixpoint selections {A : Type} (l : list A) : list (list A) :=
  match l with
  | [] => [[]]
  | a :: rest => map (cons a) (selections rest) ++ selections rest
  end.

Definition allIssueTexts : list string :=
  map (String.concat ", ")
      (filter (fun s => match s with [] => false | _ => true end)
              (selections issueLabels)).

(** An alert that names a zone, or a recorded issue, rather than the
    fallback wording. *)
Definition namesItsCause (a : Alert) : Prop :=
  match a with
  | TouchAlert zoneName _ _ | ContinuousAlert zoneName =>
      exists region, zoneName = getZoneDisplayName region
  | PostureAlert issue _ _ | PostureContinuousAlert issue =>
      In issue allIssueTexts
  end.

(** What holds of every state the page can be in. *)
Definition consistent (rt : Runtime) : Prop :=
  timersAgree rt
  /\ (continuousBeepTimer (state rt) <> None -> isTouching (state rt) = true)
  /\ (postureBeepTimer (state rt) <> None -> isBadPosture (state rt) = true)
  /\ isTouching (state rt) = isSome (lastTouchedZone (state rt))
  /\ (isBadPosture (state rt) = true ->
      exists issue, currentPostureIssue (state rt) = Some issue
                    /\ In issue allIssueTexts)
  /\ Forall namesItsCause (alerts rt).

(** A short session: monitoring starts, a frame sees a fingertip 39
    pixels from the mouth, the repeat timer fires once, and a frame sees
    no hand. *)
Definition sampleSession : list Action :=
  [startSucceeded 0%Z;
   animationFrame (Some faceB) [hand39] false None 1000%Z 1000%Z;
   intervalFires 1%positive;
   animationFrame (Some faceB) [] false None 3016%Z 3016%Z].

Definition startedRuntime : Runtime :=
  perform atan2_axes initialRuntime (startSucceeded 0).

Definition afterTouch : Runtime :=
  performAll atan2_axes initialRuntime (firstn 2 sampleSession).

Definition afterSession : Runtime :=
  performAll atan2_axes initialRuntime sampleSession.

(** From [rt] to [rt'] alerts were only appended, and each counter grew
    by the number of onset alerts of its behaviour among them. *)
Definition countsOnsets (rt rt' : Runtime) : Prop :=
  exists new,
    alerts rt' = alerts rt ++ new
    /\ touchCount (state rt')
       = (touchCount (state rt)
          + Z.of_nat (List.length (filter isTouchOnset new)))%Z
    /\ postureAlertCount (state rt')
       = (postureAlertCount (state rt)
          + Z.of_nat (List.length (filter isPostureOnset new)))%Z.

(** ** Inputs of [detect.js] *)

Inductive DetectJsInput : Type :=
| detectJsFrame (touchDetected faceVisible : bool) (now : Z)
| detectJsTimeout (id : handle).

Definition detectJsStep (rt : DetectJs.Runtime) (i : DetectJsInput)
  : DetectJs.Runtime :=
  match i with
  | detectJsFrame d v now => DetectJs.handleTouchState d v now rt
  | detectJsTimeout id => DetectJs.timeoutFires id rt
  end.

Definition detectJsRun (rt : DetectJs.Runtime) (inputs : list DetectJsInput)
  : DetectJs.Runtime :=
  fold_left detectJsStep inputs rt.

Definition isTimeout (i : DetectJsInput) : bool :=
  match i with detectJsTimeout _ => true | _ => false end.

(** The alerts raised so far, plus the one that can still be raised
    while the cooldown flag is clear. *)
Definition alertBudget (rt : DetectJs.Runtime) : nat :=
  List.length (DetectJs.alerts rt)
  + (if DetectJs.alertCooldown (DetectJs.state rt) then 0 else 1).

(** * Properties *)

(** ** The order on binary64 numbers

    The comparison of two specification-level floats is a total order on
    the values that are not NaN.  Every case is a comparison of signs,
    exponents and mantissas, settled by linear arithmetic. *)

Ltac sf_cases :=
  repeat match goal with
         | |- context [Z.compare ?a ?b] =>
             destruct (Z.compare_spec a b); subst
         | H : context [Z.compare ?a ?b] |- _ =>
             destruct (Z.compare_spec a b); subst
         | |- context [Pos.compare_cont Eq ?a ?b] =>
             change (Pos.compare_cont Eq a b) with (Pos.compare a b);
             destruct (Pos.compare_spec a b); subst
         | H : context [Pos.compare_cont Eq ?a ?b] |- _ =>
             change (Pos.compare_cont Eq a b) with (Pos.compare a b) in H;
             destruct (Pos.compare_spec a b); subst
         end;
  simpl in *; try congruence; try lia.

Ltac sf_order :=
  unfold SFltb, SFleb, SFcompare;
  repeat match goal with
         | f : spec_float |- _ => destruct f as [[|]|[|]| |[|] ? ?]
         end;
  simpl; intros; try congruence; sf_cases.

Lemma SFltb_trans (a b c : spec_float) :
  SFltb a b = true -> SFltb b c = true -> SFltb a c = true.
Proof. sf_order. Qed.

Lemma SFleb_ltb_trans (a b c : spec_float) :
  SFleb a b = true -> SFltb b c = true -> SFltb a c = true.
Proof. sf_order. Qed.

Lemma SFleb_trans (a b c : spec_float) :
  SFleb a b = true -> SFleb b c = true -> SFleb a c = true.
Proof. sf_order. Qed.

Lemma SFltb_false_leb (a b : spec_float) :
  SFltb a b = false -> SFleb a a = true -> SFleb b b = true ->
  SFleb b a = true.
Proof. sf_order. Qed.


Lemma SFltb_leb (a b : spec_float) : SFltb a b = true -> SFleb a b = true.
Proof. sf_order. Qed.

Lemma SFltb_ordered (a b : spec_float) :
  SFltb a b = true -> SFleb a a = true /\ SFleb b b = true.
Proof. sf_order; split; sf_cases. Qed.

Section FloatOrder.
Local Open Scope float_scope.

Lemma ltb_trans (a b c : float) :
  (a <? b) = true -> (b <? c) = true -> (a <? c) = true.
Proof. rewrite !ltb_spec. apply SFltb_trans. Qed.

Lemma leb_ltb_trans (a b c : float) :
  (a <=? b) = true -> (b <? c) = true -> (a <? c) = true.
Proof. rewrite !ltb_spec, leb_spec. apply SFleb_ltb_trans. Qed.

Lemma leb_trans (a b c : float) :
  (a <=? b) = true -> (b <=? c) = true -> (a <=? c) = true.
Proof. rewrite !leb_spec. apply SFleb_trans. Qed.

Lemma ltb_false_leb (a b : float) :
  (a <? b) = false -> ordered a -> ordered b -> (b <=? a) = true.
Proof.
  unfold ordered. rewrite ltb_spec, !leb_spec. apply SFltb_false_leb.
Qed.


Lemma ltb_leb (a b : float) : (a <? b) = true -> (a <=? b) = true.
Proof. rewrite ltb_spec, leb_spec. apply SFltb_leb. Qed.

Lemma ltb_ordered (a b : float) :
  (a <? b) = true -> ordered a /\ ordered b.
Proof. unfold ordered. rewrite ltb_spec, !leb_spec. apply SFltb_ordered. Qed.

Lemma infinity_ordered : ordered infinity.
Proof. reflexivity. Qed.

Lemma infinity_not_below (t : float) : (infinity <? t) = false.
Proof.
  rewrite ltb_spec.
  change (Prim2SF infinity) with (S754_infinity false).
  destruct (Prim2SF t) as [[|]|[|]| |[|] ? ?]; reflexivity.
Qed.

Lemma leb_infinity (d : float) : ordered d -> (d <=? infinity) = true.
Proof.
  unfold ordered. rewrite !leb_spec.
  change (Prim2SF infinity) with (S754_infinity false).
  destruct (Prim2SF d) as [[|]|[|]| |[|] ? ?]; cbn; intros H;
    try reflexivity; discriminate H.
Qed.

End FloatOrder.

(** ** The minimum distance *)

Section MinDistance.
Local Open Scope float_scope.
Variable point : Point.t.

Lemma getMinDistance_fold (targets : list Point.t) :
  getMinDistance point targets = fold_left (keepSmaller point) targets infinity.
Proof. reflexivity. Qed.

Lemma keepSmaller_ordered (minDist : float) (target : Point.t) :
  ordered minDist -> ordered (keepSmaller point minDist target).
Proof.
  intros Hm. unfold keepSmaller.
  destruct (distance2D point target <? minDist) eqn:E; [|exact Hm].
  apply ltb_ordered in E. tauto.
Qed.

Lemma keepSmaller_below (minDist t : float) (target : Point.t) :
  ordered minDist ->
  (keepSmaller point minDist target <? t)
  = (minDist <? t) || (distance2D point target <? t).
Proof.
  intros Hm. unfold keepSmaller.
  destruct (distance2D point target <? minDist) eqn:E.
  - destruct (minDist <? t) eqn:A; simpl; [|reflexivity].
    apply ltb_trans with minDist; assumption.
  - destruct (distance2D point target <? t) eqn:D.
    + rewrite orb_true_r.
      apply leb_ltb_trans with (distance2D point target); [|exact D].
      apply ltb_false_leb; [exact E| |exact Hm].
      apply ltb_ordered in D. tauto.
    + rewrite orb_false_r. reflexivity.
Qed.

Lemma fold_keepSmaller_ordered (targets : list Point.t) (minDist : float) :
  ordered minDist -> ordered (fold_left (keepSmaller point) targets minDist).
Proof.
  revert minDist. induction targets as [|q rest IH]; intros m Hm; simpl.
  - exact Hm.
  - apply IH, keepSmaller_ordered, Hm.
Qed.

Lemma fold_keepSmaller_below (targets : list Point.t) (minDist t : float) :
  ordered minDist ->
  (fold_left (keepSmaller point) targets minDist <? t)
  = (minDist <? t) || existsb (fun q => distance2D point q <? t) targets.
Proof.
  revert minDist. induction targets as [|q rest IH]; intros m Hm; simpl.
  - rewrite orb_false_r. reflexivity.
  - rewrite IH by (apply keepSmaller_ordered, Hm).
    rewrite keepSmaller_below by exact Hm.
    rewrite orb_assoc. reflexivity.
Qed.

(** The result is below a bound exactly when some target is. *)
Lemma getMinDistance_below (targets : list Point.t) (t : float) :
  (getMinDistance point targets <? t)
  = existsb (fun q => distance2D point q <? t) targets.
Proof.
  rewrite getMinDistance_fold, fold_keepSmaller_below by apply infinity_ordered.
  rewrite infinity_not_below. reflexivity.
Qed.







End MinDistance.

(** ** The scan over hands, fingertips and zones *)

Section TouchScan.
Local Open Scope float_scope.

Lemma find_app {A : Type} (f : A -> bool) (l1 l2 : list A) :
  find f (l1 ++ l2)
  = match find f l1 with Some a => Some a | None => find f l2 end.
Proof.
  induction l1 as [|a l1 IH]; simpl; [reflexivity|].
  destruct (f a); [reflexivity|exact IH].
Qed.

Lemma fold_sum_z (points : list Point.t) (sum : float) :
  fold_left (fun sum p => sum + Point.z p) points sum
  = fold_left PrimFloat.add (map Point.z points) sum.
Proof.
  revert sum. induction points as [|p rest IH]; intros sum; simpl.
  - reflexivity.
  - apply IH.
Qed.

Lemma avgFaceZ_mean (points : list Point.t) : avgFaceZ points = meanZ points.
Proof. unfold avgFaceZ, meanZ. rewrite fold_sum_z. reflexivity. Qed.

Lemma scanRegions_first (st : State) (tipPoint : Point.t)
      (facePoints : list (zone * list Point.t)) :
  scanRegions st tipPoint facePoints
  = option_map fst (find (fun e => accepted st tipPoint (snd e)) facePoints).
Proof.
  induction facePoints as [|[region points] rest IH]; simpl; [reflexivity|].
  unfold accepted at 1. simpl.
  destruct (withinThreshold st tipPoint points); simpl; [|exact IH].
  destruct (depthAccepted tipPoint points); simpl; [reflexivity|exact IH].
Qed.

Lemma scanRegions_sound (st : State) (tipPoint : Point.t)
      (facePoints : list (zone * list Point.t)) (region : zone) :
  scanRegions st tipPoint facePoints = Some region ->
  exists points, In (region, points) facePoints
                 /\ withinThreshold st tipPoint points = true
                 /\ depthAccepted tipPoint points = true.
Proof.
  induction facePoints as [|[r points] rest IH]; simpl; [discriminate|].
  destruct (withinThreshold st tipPoint points) eqn:W.
  - destruct (depthAccepted tipPoint points) eqn:D.
    + intros [= <-]. exists points. auto.
    + intros H. destruct (IH H) as [ps [Hin Hp]]. exists ps. auto.
  - intros H. destruct (IH H) as [ps [Hin Hp]]. exists ps. auto.
Qed.

Lemma scanRegions_none (st : State) (tipPoint : Point.t)
      (facePoints : list (zone * list Point.t)) :
  (forall region points, In (region, points) facePoints ->
                         accepted st tipPoint points = false) ->
  scanRegions st tipPoint facePoints = None.
Proof.
  induction facePoints as [|[r points] rest IH]; simpl; intros H.
  - reflexivity.
  - assert (A : accepted st tipPoint points = false) by (apply (H r); auto).
    unfold accepted in A.
    destruct (withinThreshold st tipPoint points); simpl in A;
      [rewrite A|]; apply IH; intros r' ps Hin; apply (H r'); auto.
Qed.

Lemma firstAccepted_app (st : State)
      (c1 c2 : list (Point.t * (zone * list Point.t))) :
  firstAccepted st (c1 ++ c2)
  = match firstAccepted st c1 with
    | Some region => Some region
    | None => firstAccepted st c2
    end.
Proof.
  unfold firstAccepted. rewrite find_app.
  destruct (find _ c1); reflexivity.
Qed.

Lemma firstAccepted_tip (st : State) (tipPoint : Point.t)
      (facePoints : list (zone * list Point.t)) :
  firstAccepted st (map (fun entry => (tipPoint, entry)) facePoints)
  = scanRegions st tipPoint facePoints.
Proof.
  rewrite scanRegions_first. unfold firstAccepted.
  induction facePoints as [|e rest IH]; simpl; [reflexivity|].
  destruct (accepted st tipPoint (snd e)); simpl; [reflexivity|exact IH].
Qed.

Variables (st : State) (videoWidth videoHeight : float).
Variable facePoints : list (zone * list Point.t).

Lemma scanFingertips_first (handLandmarks : list Landmark.t) (tips : list nat) :
  Forall (fun tipIdx => (tipIdx < List.length handLandmarks)%nat) tips ->
  scanFingertips st videoWidth videoHeight facePoints handLandmarks tips
  = Normal (firstAccepted st
              (flat_map (tipCandidates videoWidth videoHeight facePoints
                                       handLandmarks) tips)).
Proof.
  induction tips as [|tipIdx rest IH]; intros Hall; simpl; [reflexivity|].
  inversion Hall as [|? ? Hlt Hrest]; subst.
  rewrite firstAccepted_app. unfold tipCandidates at 1, at_index.
  destruct (nth_error handLandmarks tipIdx) as [tip|] eqn:E.
  - simpl. rewrite firstAccepted_tip. fold (toPixel videoWidth videoHeight tip).
    destruct (scanRegions st (toPixel videoWidth videoHeight tip) facePoints);
      [reflexivity|apply IH, Hrest].
  - apply nth_error_None in E. lia.
Qed.

Lemma scanHands_first (handLandmarksList : list (list Landmark.t)) :
  Forall (fun hand => (21 <= List.length hand)%nat) handLandmarksList ->
  scanHands st videoWidth videoHeight facePoints handLandmarksList
  = Normal (firstAccepted st
              (candidates videoWidth videoHeight facePoints handLandmarksList)).
Proof.
  induction handLandmarksList as [|hand rest IH]; intros Hall;
    [reflexivity|].
  inversion Hall as [|? ? Hlen Hrest]; subst.
  cbn [scanHands].
  rewrite scanFingertips_first
    by (unfold FINGERTIPS; repeat constructor; lia).
  cbn [bindC]. unfold candidates. cbn [flat_map].
  rewrite firstAccepted_app.
  destruct (firstAccepted st
              (flat_map (tipCandidates videoWidth videoHeight facePoints hand)
                        FINGERTIPS));
    [reflexivity|].
  apply IH, Hrest.
Qed.

Lemma scanFingertips_sound (handLandmarks : list Landmark.t)
      (tips : list nat) (region : zone) :
  scanFingertips st videoWidth videoHeight facePoints handLandmarks tips
  = Normal (Some region) ->
  exists tipIdx tip points,
    In tipIdx tips /\ nth_error handLandmarks tipIdx = Some tip
    /\ In (region, points) facePoints
    /\ withinThreshold st (toPixel videoWidth videoHeight tip) points = true
    /\ depthAccepted (toPixel videoWidth videoHeight tip) points = true.
Proof.
  induction tips as [|tipIdx rest IH]; simpl; [discriminate|].
  unfold at_index.
  destruct (nth_error handLandmarks tipIdx) as [tip|] eqn:E; simpl;
    [|discriminate].
  fold (toPixel videoWidth videoHeight tip).
  destruct (scanRegions st (toPixel videoWidth videoHeight tip) facePoints)
    as [r|] eqn:S.
  - intros [= <-]. apply scanRegions_sound in S.
    destruct S as [points [Hin [W D]]].
    exists tipIdx, tip, points. auto.
  - intros H. destruct (IH H) as [i [t [ps [Hi Hp]]]].
    exists i, t, ps. auto.
Qed.

Lemma scanHands_sound (handLandmarksList : list (list Landmark.t))
      (region : zone) :
  scanHands st videoWidth videoHeight facePoints handLandmarksList
  = Normal (Some region) ->
  exists handLandmarks tipIdx tip points,
    In handLandmarks handLandmarksList
    /\ In tipIdx FINGERTIPS /\ nth_error handLandmarks tipIdx = Some tip
    /\ In (region, points) facePoints
    /\ withinThreshold st (toPixel videoWidth videoHeight tip) points = true
    /\ depthAccepted (toPixel videoWidth videoHeight tip) points = true.
Proof.
  induction handLandmarksList as [|hand rest IH]; [discriminate|].
  cbn [scanHands].
  destruct (scanFingertips st videoWidth videoHeight facePoints hand
                           FINGERTIPS) as [[r|]|] eqn:S; cbn [bindC].
  - intros [= <-]. apply scanFingertips_sound in S.
    destruct S as [i [t [ps [Hi Hp]]]]. exists hand, i, t, ps.
    split; [left; reflexivity|]. tauto.
  - intros H. destruct (IH H) as [h [i [t [ps [Hh Hp]]]]].
    exists h, i, t, ps. split; [right; exact Hh|exact Hp].
  - discriminate.
Qed.

End TouchScan.

(** ** [checkFaceTouch] as a whole *)

Section CheckFaceTouch.
Local Open Scope float_scope.

Lemma enabledZones_filter (st : State) :
  enabledZones st = filter (zoneEnabled (Settings.zones (settings st))) zoneOrder.
Proof.
  unfold enabledZones.
  destruct (Settings.zones (settings st)) as [[] [] [] [] [] [] []];
    reflexivity.
Qed.

Lemma In_enabledZones (st : State) (region : zone) :
  In region (enabledZones st)
  <-> zoneEnabled (Settings.zones (settings st)) region = true.
Proof.
  rewrite enabledZones_filter, filter_In. split; [tauto|].
  intros H. split; [|exact H].
  destruct region; simpl; tauto.
Qed.

Lemma enabledZones_nil (st : State) :
  (forall region, zoneEnabled (Settings.zones (settings st)) region = false) ->
  enabledZones st = [].
Proof.
  intros H. destruct (enabledZones st) as [|r rest] eqn:E; [reflexivity|].
  assert (Hin : In r (enabledZones st)) by (rewrite E; left; reflexivity).
  apply In_enabledZones in Hin. rewrite H in Hin. discriminate.
Qed.

Lemma buildFacePoints_keys (face : list Landmark.t) (w h : float)
      (zones : list zone) (facePoints : list (zone * list Point.t)) :
  buildFacePoints face w h zones = Normal facePoints ->
  map fst facePoints = zones.
Proof.
  revert facePoints. unfold buildFacePoints.
  induction zones as [|r rest IH]; intros fp; simpl.
  - intros [= <-]. reflexivity.
  - destruct (regionPoints face w h (FACE_REGIONS r)) as [ps|]; simpl;
      [|discriminate].
    destruct (mapC _ rest) as [fps|]; simpl; [|discriminate].
    intros [= <-]. simpl. f_equal. apply IH. reflexivity.
Qed.

Lemma mapC_total {A B : Type} (f : A -> Completion B) (l : list A) :
  Forall (fun a => exists b, f a = Normal b) l ->
  exists bs, mapC f l = Normal bs.
Proof.
  induction l as [|a rest IH]; intros Hall; cbn [mapC].
  - eauto.
  - inversion Hall as [|? ? [b Hb] Hrest]; subst.
    rewrite Hb. cbn [bindC]. destruct (IH Hrest) as [bs ->].
    cbn [bindC]. eauto.
Qed.

Lemma regionPoints_total (face : list Landmark.t) (w h : float)
      (indices : list nat) :
  Forall (fun idx => (idx < List.length face)%nat) indices ->
  exists points, regionPoints face w h indices = Normal points.
Proof.
  intros Hall. unfold regionPoints. apply mapC_total.
  eapply Forall_impl; [|exact Hall].
  cbv beta. intros idx Hlt. unfold at_index.
  destruct (nth_error face idx) as [lm|] eqn:E.
  - cbn [bindC]. eauto.
  - apply nth_error_None in E. lia.
Qed.

Lemma FACE_REGIONS_bound (region : zone) :
  Forall (fun idx => (idx < 467)%nat) (FACE_REGIONS region).
Proof.
  apply Forall_forall. intros idx Hin.
  assert (B : forallb (fun i => Nat.ltb i 467) (FACE_REGIONS region) = true)
    by (destruct region; vm_compute; reflexivity).
  rewrite forallb_forall in B. apply Nat.ltb_lt, B, Hin.
Qed.

Lemma buildFacePoints_total (face : list Landmark.t) (w h : float)
      (zones : list zone) :
  (467 <= List.length face)%nat ->
  exists facePoints, buildFacePoints face w h zones = Normal facePoints.
Proof.
  intros Hlen. unfold buildFacePoints. apply mapC_total.
  apply Forall_forall. intros r _.
  destruct (regionPoints_total face w h (FACE_REGIONS r)) as [ps Hps].
  - eapply Forall_impl; [|apply FACE_REGIONS_bound].
    cbv beta. intros idx Hidx. lia.
  - rewrite Hps. cbn [bindC]. eauto.
Qed.

(** Whatever a returning call found is recorded, came from an enabled
    zone, and passed both tests for some fingertip of some hand. *)
Lemma checkFaceTouch_normal (st st' : State)
      (faceLandmarks : option (list Landmark.t))
      (handLandmarksList : list (list Landmark.t)) (b : bool) :
  checkFaceTouch st faceLandmarks handLandmarksList = Normal (st', b) ->
  exists found,
    st' = set_lastTouchedZone found st /\ b = isSome found
    /\ forall region, found = Some region ->
         In region (enabledZones st)
         /\ exists face facePoints handLandmarks tipIdx tip points,
             faceLandmarks = Some face
             /\ buildFacePoints face (Canvas.width (canvas st))
                  (Canvas.height (canvas st)) (enabledZones st)
                = Normal facePoints
             /\ In handLandmarks handLandmarksList
             /\ In tipIdx FINGERTIPS
             /\ nth_error handLandmarks tipIdx = Some tip
             /\ In (region, points) facePoints
             /\ withinThreshold st
                  (toPixel (Canvas.width (canvas st))
                           (Canvas.height (canvas st)) tip) points = true
             /\ depthAccepted
                  (toPixel (Canvas.width (canvas st))
                           (Canvas.height (canvas st)) tip) points = true.
Proof.
  unfold checkFaceTouch.
  destruct faceLandmarks as [face|];
    [|intros [= <- <-]; exists None; repeat split; discriminate].
  destruct handLandmarksList as [|hand hands];
    [intros [= <- <-]; exists None; repeat split; discriminate|].
  destruct (enabledZones st) as [|r rest] eqn:EZ;
    [intros [= <- <-]; exists None; repeat split; discriminate|].
  rewrite <- EZ.
  destruct (buildFacePoints face _ _ (enabledZones st)) as [fp|] eqn:B;
    cbn [bindC]; [|discriminate].
  destruct (scanHands st _ _ fp (hand :: hands)) as [[region|]|] eqn:S;
    cbn [bindC]; [| |discriminate].
  - intros [= <- <-]. exists (Some region). repeat split.
    + injection H as <-. rewrite <- (buildFacePoints_keys _ _ _ _ _ B).
      apply scanHands_sound in S.
      destruct S as [h [i [t [ps [_ [_ [_ [Hin _]]]]]]]].
      apply (in_map fst) in Hin. exact Hin.
    + injection H as <-. apply scanHands_sound in S.
      destruct S as [h [i [t [ps Hp]]]].
      exists face, fp, h, i, t, ps. tauto.
  - intros [= <- <-]. exists None. repeat split; discriminate.
Qed.

Lemma candidates_nil (w h : float) (hands : list (list Landmark.t)) :
  candidates w h [] hands = [].
Proof.
  unfold candidates. induction hands as [|hand rest IH]; [reflexivity|].
  cbn [flat_map]. rewrite IH, app_nil_r.
  unfold FINGERTIPS, tipCandidates. cbn [flat_map].
  repeat match goal with
         | |- context [nth_error hand ?i] => destruct (nth_error hand i)
         end; reflexivity.
Qed.

(** With landmark arrays of full length the call returns, and what it
    records is the first accepted pair of the enumeration. *)
Lemma checkFaceTouch_first (st : State) (face : list Landmark.t)
      (handLandmarksList : list (list Landmark.t)) :
  handLandmarksList <> [] ->
  (467 <= List.length face)%nat ->
  Forall (fun hand => (21 <= List.length hand)%nat) handLandmarksList ->
  exists facePoints,
    buildFacePoints face (Canvas.width (canvas st))
                    (Canvas.height (canvas st)) (enabledZones st)
    = Normal facePoints
    /\ map fst facePoints = enabledZones st
    /\ let found :=
         firstAccepted st
           (candidates (Canvas.width (canvas st)) (Canvas.height (canvas st))
                       facePoints handLandmarksList) in
       checkFaceTouch st (Some face) handLandmarksList
       = Normal (set_lastTouchedZone found st, isSome found).
Proof.
  intros Hne Hface Hhands.
  destruct (buildFacePoints_total face (Canvas.width (canvas st))
              (Canvas.height (canvas st)) (enabledZones st) Hface)
    as [fp Hfp].
  exists fp. split; [exact Hfp|].
  split; [apply (buildFacePoints_keys _ _ _ _ _ Hfp)|].
  cbv zeta. unfold checkFaceTouch.
  destruct handLandmarksList as [|hand hands]; [congruence|].
  destruct (enabledZones st) as [|r rest] eqn:EZ.
  - apply buildFacePoints_keys in Hfp. destruct fp; [|discriminate].
    assert (C : candidates (Canvas.width (canvas st))
                  (Canvas.height (canvas st)) [] (hand :: hands) = []).
    { apply candidates_nil. }
    rewrite C. reflexivity.
  - rewrite Hfp. cbn [bindC].
    rewrite scanHands_first by exact Hhands. cbn [bindC].
    destruct (firstAccepted st _); reflexivity.
Qed.

End CheckFaceTouch.

(** ** Touch detection: the claims *)

Section TouchClaims.
Local Open Scope float_scope.

Example touch_at_39 :
  outcome (checkFaceTouch initialState (Some faceB) [hand39])
  = Some (Some mouth, true).
Proof. vm_compute. reflexivity. Qed.

Example no_touch_at_41 :
  outcome (checkFaceTouch initialState (Some faceB) [hand41])
  = Some (None, false).
Proof. vm_compute. reflexivity. Qed.

Example mouthPointsB_built :
  buildFacePoints faceB 1280 720 [mouth] = Normal [(mouth, mouthPointsB)].
Proof. vm_compute. reflexivity. Qed.



(** C2: once a fingertip is within the threshold of a zone, the pair is
    accepted exactly when [zDiff], the fingertip's z minus the mean z of
    the zone's points, is strictly below 50; otherwise the scan moves on
    to the next zone, so a reported touch always comes from a fingertip
    within the threshold with [zDiff < 50].  A fingertip at distance 10
    with [zDiff = 60] at
    sensitivity 100 is not a touch, while the same fingertip with
    [zDiff = 10] is. *)
Theorem C2_depth_guard
    (st : State) (tipPoint : Point.t) (region : zone)
    (points : list Point.t) (rest : list (zone * list Point.t)) :
  withinThreshold st tipPoint points = true ->
  (accepted st tipPoint points = true
   <-> (Point.z tipPoint - meanZ points <? 50) = true)
  /\ scanRegions st tipPoint ((region, points) :: rest)
     = (if Point.z tipPoint - meanZ points <? 50 then Some region
        else scanRegions st tipPoint rest)
  /\ (forall (faceLandmarks : option (list Landmark.t))
             (handLandmarksList : list (list Landmark.t)) (st' : State),
        checkFaceTouch st faceLandmarks handLandmarksList = Normal (st', true) ->
        exists handLandmarks tipIdx tip touched zonePoints,
          In handLandmarks handLandmarksList
          /\ In tipIdx FINGERTIPS
          /\ nth_error handLandmarks tipIdx = Some tip
          /\ lastTouchedZone st' = Some touched
          /\ (getMinDistance
                (toPixel (Canvas.width (canvas st))
                         (Canvas.height (canvas st)) tip) zonePoints
              <? touchThreshold st) = true
          /\ (Point.z (toPixel (Canvas.width (canvas st))
                               (Canvas.height (canvas st)) tip)
              - meanZ zonePoints <? 50) = true)
  /\ (getMinDistance (tipTen 60) mouthPointsB = 10
      /\ Point.z (tipTen 60) - meanZ mouthPointsB = 60
      /\ Settings.sensitivity (settings initialState) = 100
      /\ outcome (checkFaceTouch initialState (Some faceB) [handNear 0.046875])
         = Some (None, false)
      /\ outcome (checkFaceTouch initialState (Some faceB) [handNear 0.0078125])
         = Some (Some mouth, true)).
Proof.
  intros W. split; [|split; [|split]].
  - unfold accepted, depthAccepted. rewrite W, avgFaceZ_mean. simpl. tauto.
  - cbn [scanRegions]. rewrite W. unfold depthAccepted.
    rewrite avgFaceZ_mean. reflexivity.
  - intros face hands st' H. apply checkFaceTouch_normal in H.
    destruct H as [found [-> [Hb Hfound]]].
    destruct found as [touched|]; [|discriminate Hb].
    destruct (Hfound touched eq_refl)
      as [_ [f [fp [h [i [t [ps [_ [_ [Hh [Hi [Ht [_ [Hw Hd]]]]]]]]]]]]]].
    exists h, i, t, touched, ps.
    unfold depthAccepted in Hd. rewrite avgFaceZ_mean in Hd.
    repeat split; assumption.
  - repeat split; vm_compute; reflexivity.
Qed.

Lemma C2_depth_guard_witness :
  withinThreshold initialState (tipTen 60) mouthPointsB = true
  /\ scanRegions initialState (tipTen 60) [(mouth, mouthPointsB)] = None.
Proof.
  split; [vm_compute; reflexivity|].
  destruct (C2_depth_guard initialState (tipTen 60) mouth mouthPointsB [])
    as [_ [H _]]; [vm_compute; reflexivity|].
  rewrite H. vm_compute. reflexivity.
Defined.

(** C8: with no face, with an empty list of hands, or with every zone
    disabled, [checkFaceTouch] returns false and sets the last touched
    zone to null.  With every zone disabled this holds whatever the face
    and hand arrays contain, also for arrays on which building the zone
    geometry throws as soon as one zone is enabled. *)
Theorem C8_nothing_to_detect
    (st : State) (faceLandmarks : option (list Landmark.t))
    (handLandmarksList : list (list Landmark.t)) :
  checkFaceTouch st None handLandmarksList
  = Normal (set_lastTouchedZone None st, false)
  /\ checkFaceTouch st faceLandmarks []
     = Normal (set_lastTouchedZone None st, false)
  /\ ((forall region,
         zoneEnabled (Settings.zones (settings st)) region = false) ->
      checkFaceTouch st faceLandmarks handLandmarksList
      = Normal (set_lastTouchedZone None st, false))
  /\ lastTouchedZone (set_lastTouchedZone None st) = None
  /\ (checkFaceTouch (withZones noZones initialState) (Some []) [[]]
      = Normal (set_lastTouchedZone None (withZones noZones initialState),
                false)
      /\ checkFaceTouch initialState (Some []) [[]] = Throw).
Proof.
  split; [reflexivity|].
  split; [destruct faceLandmarks; reflexivity|].
  split.
  - intros H. unfold checkFaceTouch. rewrite (enabledZones_nil st H).
    destruct faceLandmarks, handLandmarksList; reflexivity.
  - split; [reflexivity|]. split; vm_compute; reflexivity.
Qed.

Lemma C8_nothing_to_detect_witness :
  (forall region,
      zoneEnabled (Settings.zones (settings (withZones noZones initialState)))
                  region = false)
  /\ checkFaceTouch (withZones noZones initialState) (Some faceB) [hand39]
     = Normal (set_lastTouchedZone None (withZones noZones initialState),
               false).
Proof.
  assert (H : forall region,
             zoneEnabled
               (Settings.zones (settings (withZones noZones initialState)))
               region = false)
    by (intros []; reflexivity).
  split; [exact H|].
  destruct (C8_nothing_to_detect (withZones noZones initialState)
                                 (Some faceB) [hand39])
    as [_ [_ [Hzones _]]].
  exact (Hzones H).
Defined.

End TouchClaims.

Section TouchOrderClaims.
Local Open Scope float_scope.

Example faceA_points_built :
  exists facePoints,
    buildFacePoints faceA 1280 720 (enabledZones initialState)
    = Normal facePoints
    /\ firstAccepted initialState
         (candidates 1280 720 facePoints [handBetween]) = Some mouth
    /\ closestZone (candidates 1280 720 facePoints [handBetween]) = Some nose
    /\ existsb (fun c => zone_eqb (fst (snd c)) nose
                         && accepted initialState (fst c) (snd (snd c)))
               (candidates 1280 720 facePoints [handBetween]) = true.
Proof.
  destruct (buildFacePoints faceA 1280 720 (enabledZones initialState))
    as [fp|] eqn:E; [|vm_compute in E; discriminate E].
  exists fp. split; [reflexivity|].
  vm_compute in E. injection E as <-.
  repeat split; vm_compute; reflexivity.
Qed.

(** C9: for landmark arrays of full length, [checkFaceTouch] returns and
    records the first fingertip-zone pair passing both tests, with hands
    enumerated in list order, then the fingertips 4, 8, 12, 16, 20, then
    the enabled zones in the order mouth, nose, leftEye, rightEye,
    leftCheek, rightCheek, chin.  That pair need not be the closest one:
    for the hand between mouth and nose the mouth is reported although
    the nose is nearer and passes both tests as well. *)
Theorem C9_first_match_in_enumeration_order :
  (forall (st : State) (face : list Landmark.t)
          (handLandmarksList : list (list Landmark.t)),
      handLandmarksList <> [] ->
      (467 <= List.length face)%nat ->
      Forall (fun hand => (21 <= List.length hand)%nat) handLandmarksList ->
      exists facePoints,
        buildFacePoints face (Canvas.width (canvas st))
                        (Canvas.height (canvas st)) (enabledZones st)
        = Normal facePoints
        /\ map fst facePoints
           = filter (zoneEnabled (Settings.zones (settings st)))
                    [mouth; nose; leftEye; rightEye; leftCheek; rightCheek;
                     chin]
        /\ let found :=
             firstAccepted st
               (flat_map
                  (fun handLandmarks =>
                     flat_map
                       (tipCandidates (Canvas.width (canvas st))
                                      (Canvas.height (canvas st))
                                      facePoints handLandmarks)
                       [4; 8; 12; 16; 20]%nat)
                  handLandmarksList) in
           checkFaceTouch st (Some face) handLandmarksList
           = Normal (set_lastTouchedZone found st, isSome found))
  /\ (exists facePoints,
        buildFacePoints faceA 1280 720 (enabledZones initialState)
        = Normal facePoints
        /\ outcome (checkFaceTouch initialState (Some faceA) [handBetween])
           = Some (Some mouth, true)
        /\ closestZone (candidates 1280 720 facePoints [handBetween])
           = Some nose
        /\ existsb (fun c => zone_eqb (fst (snd c)) nose
                             && accepted initialState (fst c) (snd (snd c)))
                   (candidates 1280 720 facePoints [handBetween]) = true).
Proof.
  split.
  - intros st face hands Hne Hface Hhands.
    destruct (checkFaceTouch_first st face hands Hne Hface Hhands)
      as [fp [Hfp [Hkeys Hres]]].
    exists fp. split; [exact Hfp|]. split.
    + rewrite Hkeys. apply enabledZones_filter.
    + exact Hres.
  - destruct faceA_points_built as [fp [Hfp [_ Hclosest]]].
    exists fp. split; [exact Hfp|]. split; [|exact Hclosest].
    vm_compute. reflexivity.
Qed.

Lemma C9_first_match_in_enumeration_order_witness :
  [handBetween] <> []
  /\ (467 <= List.length faceA)%nat
  /\ Forall (fun hand => (21 <= List.length hand)%nat) [handBetween]
  /\ exists found,
      checkFaceTouch initialState (Some faceA) [handBetween]
      = Normal (set_lastTouchedZone found initialState, isSome found).
Proof.
  assert (Hne : [handBetween] <> []) by discriminate.
  assert (Hface : (467 <= List.length faceA)%nat) by (vm_compute; lia).
  assert (Hhands : Forall (fun hand => (21 <= List.length hand)%nat)
                          [handBetween])
    by (constructor; [vm_compute; lia|constructor]).
  split; [exact Hne|]. split; [exact Hface|]. split; [exact Hhands|].
  destruct (proj1 C9_first_match_in_enumeration_order initialState faceA
                  [handBetween] Hne Hface Hhands)
    as [fp [_ [_ Hres]]].
  eexists. exact Hres.
Defined.

(** C10: when [checkFaceTouch] returns, the boolean is true exactly when
    the recorded last touched zone is not null, and a recorded zone is
    one whose flag is set in the settings the call ran with; the
    settings themselves are left as they were. *)
Theorem C10_flag_and_zone_agree
    (st st' : State) (faceLandmarks : option (list Landmark.t))
    (handLandmarksList : list (list Landmark.t)) (b : bool) :
  checkFaceTouch st faceLandmarks handLandmarksList = Normal (st', b) ->
  (b = true <-> lastTouchedZone st' <> None)
  /\ (forall region, lastTouchedZone st' = Some region ->
        zoneEnabled (Settings.zones (settings st)) region = true)
  /\ settings st' = settings st.
Proof.
  intros H. apply checkFaceTouch_normal in H.
  destruct H as [found [-> [-> Hfound]]]. cbn.
  split; [|split].
  - destruct found; cbn; split; congruence.
  - intros region E. apply In_enabledZones, (Hfound region E).
  - reflexivity.
Qed.

Lemma C10_flag_and_zone_agree_witness :
  exists st',
    checkFaceTouch initialState (Some faceB) [hand39] = Normal (st', true)
    /\ lastTouchedZone st' = Some mouth
    /\ zoneEnabled (Settings.zones (settings initialState)) mouth = true.
Proof.
  destruct (checkFaceTouch initialState (Some faceB) [hand39])
    as [[st' b]|] eqn:E; [|vm_compute in E; discriminate E].
  assert (Hb : b = true) by (vm_compute in E; congruence).
  assert (Hz : lastTouchedZone st' = Some mouth)
    by (vm_compute in E; injection E as <- _; reflexivity).
  subst b. exists st'. split; [reflexivity|]. split; [exact Hz|].
  destruct (C10_flag_and_zone_agree initialState st' (Some faceB) [hand39]
                                    true E) as [_ [Hen _]].
  exact (Hen mouth Hz).
Defined.

End TouchOrderClaims.

(** ** Posture: the claims *)

Section PostureClaims.
Local Open Scope float_scope.
Local Open Scope string_scope.
Local Open Scope list_scope.
Variable atan2 : float -> float -> float.

Variable p : Posture.t.
Variables leftEar rightEar leftShoulder rightShoulder leftHip rightHip
  : Landmark.t.

Let ear := chosenEar leftEar rightEar.
Let shoulder := chosenShoulder leftShoulder rightShoulder.
Let hip := chosenHip leftHip rightHip.
Let issues :=
  postureIssues atan2 p leftEar rightEar leftShoulder rightShoulder
                leftHip rightHip.

(** The list built by the successive pushes is the four checks' labels,
    each present when its own check fires, in the fixed order. *)
Lemma postureIssues_checks :
  issues
  = (if headForwardFires atan2 p ear shoulder then ["Head forward"] else [])
    ++ (if shoulderTiltFires atan2 p leftShoulder rightShoulder
        then ["Uneven shoulders"] else [])
    ++ (if spineCurveFires atan2 p ear shoulder hip
        then ["Spine curved"] else [])
    ++ (if hunchFires p shoulder hip then ["Shoulders hunched"] else []).
Proof.
  unfold issues, ear, shoulder, hip, postureIssues, headForwardFires,
    shoulderTiltFires, spineCurveFires, hunchFires, chosenEar,
    chosenShoulder, chosenHip, visible, scaled, push.
  cbv zeta.
  destruct (0.5 <? Landmark.visibility (moreVisible leftEar rightEar))%float;
    destruct (0.5 <? Landmark.visibility
                       (moreVisible leftShoulder rightShoulder))%float;
    destruct (0.5 <? Landmark.visibility (moreVisible leftHip rightHip))%float;
    destruct (0.5 <? Landmark.visibility leftShoulder)%float;
    destruct (0.5 <? Landmark.visibility rightShoulder)%float;
    cbn [andb];
    repeat match goal with
           | |- context [if ?c then _ else _] => destruct c
           end; reflexivity.
Qed.


Lemma checkPosture_enabled (st : State) (pose : list Landmark.t) :
  Posture.enabled (Settings.posture (settings st)) = true ->
  Settings.posture (settings st) = p ->
  nth_error pose POSE_LANDMARKS.LEFT_EAR = Some leftEar ->
  nth_error pose POSE_LANDMARKS.RIGHT_EAR = Some rightEar ->
  nth_error pose POSE_LANDMARKS.LEFT_SHOULDER = Some leftShoulder ->
  nth_error pose POSE_LANDMARKS.RIGHT_SHOULDER = Some rightShoulder ->
  nth_error pose POSE_LANDMARKS.LEFT_HIP = Some leftHip ->
  nth_error pose POSE_LANDMARKS.RIGHT_HIP = Some rightHip ->
  checkPosture atan2 st (Some pose)
  = match issues with
    | [] => Normal (set_currentPostureIssue None st, false)
    | _ :: _ =>
        Normal (set_currentPostureIssue (Some (String.concat ", " issues)) st,
                true)
    end.
Proof.
  intros Hen Hp H1 H2 H3 H4 H5 H6. unfold checkPosture, at_index.
  rewrite Hen, H1, H2, H3, H4, H5, H6, Hp. cbn [negb bindC].
  fold issues. destruct issues; reflexivity.
Qed.

End PostureClaims.

Section PostureTheorems.
Local Open Scope float_scope.
Local Open Scope string_scope.
Local Open Scope list_scope.

Example all_four_issues :
  option_map (fun r => (currentPostureIssue (fst r), snd r))
    (match checkPosture atan2_axes (postureOn initialState)
                        (Some (poseAllBad 0.875)) with
     | Normal r => Some r
     | Throw => None
     end)
  = Some (Some "Head forward, Uneven shoulders, Spine curved, Shoulders hunched",
          true).
Proof. vm_compute. reflexivity. Qed.

Example ear_hidden_issues :
  option_map (fun r => (currentPostureIssue (fst r), snd r))
    (match checkPosture atan2_axes (postureOn initialState)
                        (Some (poseAllBad 0.4)) with
     | Normal r => Some r
     | Throw => None
     end)
  = Some (Some "Uneven shoulders, Shoulders hunched", true).
Proof. vm_compute. reflexivity. Qed.



(** C7: the four checks are evaluated one after the other, none cutting
    the others short: the issue list holds, in the order head forward,
    uneven shoulders, spine curved, shoulders hunched, exactly the
    labels of the checks that fire, each depending on its own check
    only; with all four firing it has length 4; and [checkPosture]
    returns true exactly when the list is not empty, recording the
    labels joined by a comma. *)
Theorem C7_posture_issue_list
    (atan2 : float -> float -> float) (st : State) (pose : list Landmark.t)
    (leftEar rightEar leftShoulder rightShoulder leftHip rightHip
       : Landmark.t) :
  let p := Settings.posture (settings st) in
  let ear := chosenEar leftEar rightEar in
  let shoulder := chosenShoulder leftShoulder rightShoulder in
  let hip := chosenHip leftHip rightHip in
  let issues :=
    postureIssues atan2 p leftEar rightEar leftShoulder rightShoulder
                  leftHip rightHip in
  Posture.enabled p = true ->
  nth_error pose POSE_LANDMARKS.LEFT_EAR = Some leftEar ->
  nth_error pose POSE_LANDMARKS.RIGHT_EAR = Some rightEar ->
  nth_error pose POSE_LANDMARKS.LEFT_SHOULDER = Some leftShoulder ->
  nth_error pose POSE_LANDMARKS.RIGHT_SHOULDER = Some rightShoulder ->
  nth_error pose POSE_LANDMARKS.LEFT_HIP = Some leftHip ->
  nth_error pose POSE_LANDMARKS.RIGHT_HIP = Some rightHip ->
  issues
  = (if headForwardFires atan2 p ear shoulder then ["Head forward"] else [])
    ++ (if shoulderTiltFires atan2 p leftShoulder rightShoulder
        then ["Uneven shoulders"] else [])
    ++ (if spineCurveFires atan2 p ear shoulder hip
        then ["Spine curved"] else [])
    ++ (if hunchFires p shoulder hip then ["Shoulders hunched"] else [])
  /\ (headForwardFires atan2 p ear shoulder = true ->
      shoulderTiltFires atan2 p leftShoulder rightShoulder = true ->
      spineCurveFires atan2 p ear shoulder hip = true ->
      hunchFires p shoulder hip = true ->
      issues = ["Head forward"; "Uneven shoulders"; "Spine curved";
                "Shoulders hunched"]
      /\ List.length issues = 4%nat)
  /\ (exists b : bool,
        checkPosture atan2 st (Some pose)
        = Normal (set_currentPostureIssue
                    (if b then Some (String.concat ", " issues) else None) st,
                  b)
        /\ (b = true <-> issues <> [])).
Proof.
  intros p ear shoulder hip issues Hen H1 H2 H3 H4 H5 H6.
  pose proof (postureIssues_checks atan2 p leftEar rightEar leftShoulder
                rightShoulder leftHip rightHip) as E.
  fold issues ear shoulder hip in E.
  split; [exact E|]. split.
  - intros A B C D.
    rewrite A, B, C, D in E. rewrite E. split; reflexivity.
  - rewrite (checkPosture_enabled atan2 p leftEar rightEar leftShoulder
               rightShoulder leftHip rightHip st pose Hen eq_refl
               H1 H2 H3 H4 H5 H6).
    fold issues. destruct issues as [|i rest].
    + exists false. split; [reflexivity|]. split; congruence.
    + exists true. split; [reflexivity|]. split; congruence.
Qed.

Lemma C7_posture_issue_list_witness :
  Posture.enabled (Settings.posture (settings (postureOn initialState))) = true
  /\ postureIssues atan2_axes (Settings.posture (settings (postureOn initialState)))
       (Landmark.mk 0.5 0.25 0 0.875) (Landmark.mk 0.5 0.25 0 0.125)
       (Landmark.mk 0.5 0.5 0 0.875) (Landmark.mk 0.5 0.75 0 0.75)
       (Landmark.mk 0.25 0.5 0 0.875) (Landmark.mk 0.25 0.5 0 0.125)
     = ["Head forward"; "Uneven shoulders"; "Spine curved";
        "Shoulders hunched"].
Proof.
  split; [reflexivity|].
  destruct (C7_posture_issue_list atan2_axes (postureOn initialState)
              (poseAllBad 0.875)
              (Landmark.mk 0.5 0.25 0 0.875) (Landmark.mk 0.5 0.25 0 0.125)
              (Landmark.mk 0.5 0.5 0 0.875) (Landmark.mk 0.5 0.75 0 0.75)
              (Landmark.mk 0.25 0.5 0 0.875) (Landmark.mk 0.25 0.5 0 0.125)
              eq_refl eq_refl eq_refl eq_refl eq_refl eq_refl eq_refl)
    as [_ [Hall _]].
  apply Hall; vm_compute; reflexivity.
Defined.

End PostureTheorems.

(** ** Interval timers *)

Section Intervals.

Lemma find_filter_none {A : Type} (f : A -> bool) (l : list A) :
  find f (filter (fun a => negb (f a)) l) = None.
Proof.
  induction l as [|a rest IH]; simpl; [reflexivity|].
  destruct (f a) eqn:E; simpl; [exact IH|].
  rewrite E. exact IH.
Qed.

Lemma find_filter_keep {A : Type} (f g : A -> bool) (l : list A) :
  (forall a, f a = true -> g a = true) ->
  find f (filter g l) = find f l.
Proof.
  intros H. induction l as [|a rest IH]; simpl; [reflexivity|].
  destruct (g a) eqn:G; simpl.
  - destruct (f a); [reflexivity|exact IH].
  - destruct (f a) eqn:F; [|exact IH].
    apply H in F. congruence.
Qed.

Lemma forallb_filter {A : Type} (f g : A -> bool) (l : list A) :
  forallb f l = true -> forallb f (filter g l) = true.
Proof.
  induction l as [|a rest IH]; simpl; [reflexivity|].
  rewrite andb_true_iff. intros [Ha Hrest].
  destruct (g a); simpl; [rewrite Ha|]; auto.
Qed.

Lemma liveInterval_cleared (id : handle) (rt : Runtime) :
  liveInterval id (clearInterval id rt) = None.
Proof.
  unfold liveInterval, clearInterval. cbn [intervals].
  rewrite (find_filter_none (fun t => Pos.eqb (fst t) id)). reflexivity.
Qed.

Lemma liveInterval_clear_other (id other : handle) (rt : Runtime) :
  id <> other ->
  liveInterval id (clearInterval other rt) = liveInterval id rt.
Proof.
  intros Hne. unfold liveInterval, clearInterval. cbn [intervals].
  rewrite find_filter_keep; [reflexivity|].
  intros t Ht. apply Pos.eqb_eq in Ht.
  apply negb_true_iff, Pos.eqb_neq. congruence.
Qed.

Lemma liveInterval_with_state (id : handle) (f : State -> State)
      (rt : Runtime) :
  liveInterval id (with_state f rt) = liveInterval id rt.
Proof. reflexivity. Qed.

Lemma noLiveTimer_clear (callback : IntervalCallback) (id : handle)
      (rt : Runtime) :
  noLiveTimer callback rt = true ->
  noLiveTimer callback (clearInterval id rt) = true.
Proof. unfold noLiveTimer, clearInterval. cbn [intervals]. apply forallb_filter. Qed.

(** Clearing the timer just registered leaves no new timer behind. *)
Lemma noLiveTimer_set_clear (callback cb : IntervalCallback) (delay : float)
      (rt : Runtime) :
  noLiveTimer callback rt = true ->
  noLiveTimer callback
    (clearInterval (fst (setInterval cb delay rt))
                   (snd (setInterval cb delay rt))) = true.
Proof.
  unfold noLiveTimer, clearInterval, setInterval. cbn [intervals fst snd].
  intros H. rewrite filter_app. cbn [filter fst].
  rewrite Pos.eqb_refl. cbn [negb]. rewrite app_nil_r.
  apply forallb_filter, H.
Qed.

End Intervals.

(** ** The touch and posture alert machines *)

Ltac open_runtime rt :=
  let st := fresh "st" in
  destruct rt as [st ? ? ?]; destruct st; cbn in *; subst.

Section TouchMachine.

Lemma touch_onset (rt : Runtime) (v : bool) (now : Z) :
  isTouching (state rt) = false ->
  let rt' := handleTouchState true v now rt in
  touchCount (state rt') = (touchCount (state rt) + 1)%Z
  /\ lastTouchTime (state rt') = Some now
  /\ alerts rt'
     = alerts rt ++ [TouchAlert (zoneNameOf (state rt))
                                (touchCount (state rt) + 1) now]
  /\ isTouching (state rt') = true
  /\ continuousBeepTimer (state rt') = Some (nextHandle rt)
  /\ In (nextHandle rt,
         (continuousBeepCallback,
          Settings.alertCooldownMs (settings (state rt))))
        (intervals rt').
Proof.
  intros H. open_runtime rt. unfold handleTouchState. cbn.
  unfold startContinuousBeep, stopContinuousBeep. cbn.
  destruct continuousBeepTimer0; cbn; repeat split;
    apply in_or_app; right; left; reflexivity.
Qed.

Lemma touch_onset_timers (rt : Runtime) (v : bool) (now : Z) :
  isTouching (state rt) = false ->
  noLiveTimer continuousBeepCallback rt = true ->
  let rt' := handleTouchState true v now rt in
  exists id,
    continuousBeepTimer (state rt') = Some id
    /\ noLiveTimer continuousBeepCallback (clearInterval id rt') = true.
Proof.
  intros H N. open_runtime rt. unfold handleTouchState. cbn.
  unfold startContinuousBeep, stopContinuousBeep. cbn.
  unfold noLiveTimer in *. cbn in *.
  destruct continuousBeepTimer0; cbn; eexists; (split; [reflexivity|]);
    rewrite filter_app; cbn; rewrite Pos.eqb_refl; cbn;
    rewrite app_nil_r; repeat apply forallb_filter; exact N.
Qed.

Lemma touch_hold (rt : Runtime) (v : bool) (now : Z) :
  isTouching (state rt) = true ->
  handleTouchState true v now rt = with_state (set_wasTouching true) rt.
Proof. intros H. open_runtime rt. reflexivity. Qed.

Lemma touch_release (rt : Runtime) (v : bool) (now : Z) :
  isTouching (state rt) = true ->
  let rt' := handleTouchState false v now rt in
  isTouching (state rt') = false
  /\ continuousBeepTimer (state rt') = None
  /\ alerts rt' = alerts rt
  /\ touchCount (state rt') = touchCount (state rt)
  /\ (forall id, continuousBeepTimer (state rt) = Some id ->
                 intervals rt' = intervals (clearInterval id rt)).
Proof.
  intros H. open_runtime rt. unfold handleTouchState. cbn.
  unfold stopContinuousBeep. cbn.
  destruct continuousBeepTimer0; cbn; repeat split; intros;
    try congruence;
    match goal with
    | E : Some _ = Some _ |- _ => injection E as ->; reflexivity
    end.
Qed.

Lemma touch_hold_run (frames : list (bool * Z)) (rt : Runtime) :
  isTouching (state rt) = true ->
  let rt' := run rt (touchFrames frames) in
  isTouching (state rt') = true
  /\ continuousBeepTimer (state rt') = continuousBeepTimer (state rt)
  /\ alerts rt' = alerts rt
  /\ intervals rt' = intervals rt
  /\ touchCount (state rt') = touchCount (state rt).
Proof.
  revert rt. induction frames as [|f rest IH]; intros rt H; cbn.
  - repeat split; assumption.
  - rewrite touch_hold by exact H.
    destruct (IH (with_state (set_wasTouching true) rt))
      as [A [B [C [D E]]]].
    + open_runtime rt. reflexivity.
    + unfold run, touchFrames in *. rewrite A, B, C, D, E.
      open_runtime rt. repeat split.
Qed.

End TouchMachine.

Section PostureMachine.

Lemma posture_onset (rt : Runtime) (now : Z) :
  isBadPosture (state rt) = false ->
  let rt' := handlePostureState true now rt in
  postureAlertCount (state rt') = (postureAlertCount (state rt) + 1)%Z
  /\ lastPostureAlertTime (state rt') = Some now
  /\ alerts rt'
     = alerts rt ++ [PostureAlert (issueOf (state rt))
                                  (postureAlertCount (state rt) + 1) now]
  /\ isBadPosture (state rt') = true
  /\ postureBeepTimer (state rt') = Some (nextHandle rt)
  /\ In (nextHandle rt,
         (postureBeepCallback,
          Posture.alertCooldownMs (Settings.posture (settings (state rt)))))
        (intervals rt').
Proof.
  intros H. open_runtime rt. unfold handlePostureState. cbn.
  unfold startPostureContinuousAlert, stopPostureContinuousAlert. cbn.
  destruct postureBeepTimer0; cbn; repeat split;
    apply in_or_app; right; left; reflexivity.
Qed.

Lemma posture_onset_timers (rt : Runtime) (now : Z) :
  isBadPosture (state rt) = false ->
  noLiveTimer postureBeepCallback rt = true ->
  let rt' := handlePostureState true now rt in
  exists id,
    postureBeepTimer (state rt') = Some id
    /\ noLiveTimer postureBeepCallback (clearInterval id rt') = true.
Proof.
  intros H N. open_runtime rt. unfold handlePostureState. cbn.
  unfold startPostureContinuousAlert, stopPostureContinuousAlert. cbn.
  unfold noLiveTimer in *. cbn in *.
  destruct postureBeepTimer0; cbn; eexists; (split; [reflexivity|]);
    rewrite filter_app; cbn; rewrite Pos.eqb_refl; cbn;
    rewrite app_nil_r; repeat apply forallb_filter; exact N.
Qed.

Lemma posture_hold (rt : Runtime) (now : Z) :
  isBadPosture (state rt) = true ->
  handlePostureState true now rt = with_state (set_wasBadPosture true) rt.
Proof. intros H. open_runtime rt. reflexivity. Qed.

Lemma posture_release (rt : Runtime) (now : Z) :
  isBadPosture (state rt) = true ->
  let rt' := handlePostureState false now rt in
  isBadPosture (state rt') = false
  /\ postureBeepTimer (state rt') = None
  /\ alerts rt' = alerts rt
  /\ postureAlertCount (state rt') = postureAlertCount (state rt)
  /\ (forall id, postureBeepTimer (state rt) = Some id ->
                 intervals rt' = intervals (clearInterval id rt)).
Proof.
  intros H. open_runtime rt. unfold handlePostureState. cbn.
  unfold stopPostureContinuousAlert. cbn.
  destruct postureBeepTimer0; cbn; repeat split; intros;
    try congruence;
    match goal with
    | E : Some _ = Some _ |- _ => injection E as ->; reflexivity
    end.
Qed.

Lemma posture_hold_run (frames : list Z) (rt : Runtime) :
  isBadPosture (state rt) = true ->
  let rt' := run rt (postureFrames frames) in
  isBadPosture (state rt') = true
  /\ postureBeepTimer (state rt') = postureBeepTimer (state rt)
  /\ alerts rt' = alerts rt
  /\ intervals rt' = intervals rt
  /\ postureAlertCount (state rt') = postureAlertCount (state rt).
Proof.
  revert rt. induction frames as [|f rest IH]; intros rt H; cbn.
  - repeat split; assumption.
  - rewrite posture_hold by exact H.
    destruct (IH (with_state (set_wasBadPosture true) rt))
      as [A [B [C [D E]]]].
    + open_runtime rt. reflexivity.
    + unfold run, postureFrames in *. rewrite A, B, C, D, E.
      open_runtime rt. repeat split.
Qed.

End PostureMachine.

Section OneOnset.

(** Frames with the signal true, then one with it false, and no timer
    firing in between: one onset alert, and the machine is idle again
    with no timer left. *)
Lemma touch_true_then_false (rt : Runtime) (f0 : bool * Z)
      (frames : list (bool * Z)) (v : bool) (now : Z) :
  isTouching (state rt) = false ->
  noLiveTimer continuousBeepCallback rt = true ->
  let rt' := run rt (touchFrames (f0 :: frames) ++ [touchFrame false v now]) in
  alerts rt'
  = alerts rt ++ [TouchAlert (zoneNameOf (state rt))
                             (touchCount (state rt) + 1) (snd f0)]
  /\ touchMode rt' = Idle
  /\ isTouching (state rt') = false
  /\ noLiveTimer continuousBeepCallback rt' = true.
Proof.
  intros H N rt'. subst rt'. unfold run. rewrite fold_left_app.
  cbn [touchFrames map fold_left step].
  fold (touchFrames frames).
  set (rt1 := handleTouchState true (fst f0) (snd f0) rt).
  fold (run rt1 (touchFrames frames)).
  destruct (touch_onset rt (fst f0) (snd f0) H) as [_ [_ [A1 [T1 _]]]].
  destruct (touch_onset_timers rt (fst f0) (snd f0) H N) as [id [I1 N1]].
  fold rt1 in A1, T1, I1, N1.
  destruct (touch_hold_run frames rt1 T1) as [T2 [I2 [A2 [L2 _]]]].
  set (rt2 := run rt1 (touchFrames frames)) in *.
  destruct (touch_release rt2 v now T2) as [T3 [I3 [A3 [_ L3]]]].
  rewrite I1 in I2. specialize (L3 id I2).
  split; [rewrite A3, A2, A1; reflexivity|].
  split; [unfold touchMode; rewrite I3; reflexivity|].
  split; [exact T3|].
  unfold noLiveTimer in *. rewrite L3. cbn [clearInterval intervals] in *.
  rewrite L2. exact N1.
Qed.

Lemma posture_true_then_false (rt : Runtime) (f0 : Z) (frames : list Z)
      (now : Z) :
  isBadPosture (state rt) = false ->
  noLiveTimer postureBeepCallback rt = true ->
  let rt' := run rt (postureFrames (f0 :: frames) ++ [postureFrame false now]) in
  alerts rt'
  = alerts rt ++ [PostureAlert (issueOf (state rt))
                               (postureAlertCount (state rt) + 1) f0]
  /\ postureMode rt' = Idle
  /\ isBadPosture (state rt') = false
  /\ noLiveTimer postureBeepCallback rt' = true.
Proof.
  intros H N rt'. subst rt'. unfold run. rewrite fold_left_app.
  cbn [postureFrames map fold_left step].
  fold (postureFrames frames).
  set (rt1 := handlePostureState true f0 rt).
  fold (run rt1 (postureFrames frames)).
  destruct (posture_onset rt f0 H) as [_ [_ [A1 [T1 _]]]].
  destruct (posture_onset_timers rt f0 H N) as [id [I1 N1]].
  fold rt1 in A1, T1, I1, N1.
  destruct (posture_hold_run frames rt1 T1) as [T2 [I2 [A2 [L2 _]]]].
  set (rt2 := run rt1 (postureFrames frames)) in *.
  destruct (posture_release rt2 now T2) as [T3 [I3 [A3 [_ L3]]]].
  rewrite I1 in I2. specialize (L3 id I2).
  split; [rewrite A3, A2, A1; reflexivity|].
  split; [unfold postureMode; rewrite I3; reflexivity|].
  split; [exact T3|].
  unfold noLiveTimer in *. rewrite L3. cbn [clearInterval intervals] in *.
  rewrite L2. exact N1.
Qed.

End OneOnset.

Section TimerTick.

Lemma touch_tick_true (rt : Runtime) (id : handle) :
  liveInterval id rt = Some continuousBeepCallback ->
  isTouching (state rt) = true ->
  intervalTick id rt = emit (ContinuousAlert (zoneNameOf (state rt))) rt.
Proof.
  intros L T. unfold intervalTick. rewrite L. cbn [runCallback].
  rewrite T. reflexivity.
Qed.

Lemma touch_tick_false (rt : Runtime) (id : handle) :
  continuousBeepTimer (state rt) = Some id ->
  liveInterval id rt = Some continuousBeepCallback ->
  isTouching (state rt) = false ->
  intervalTick id rt
  = with_state (set_continuousBeepTimer None) (clearInterval id rt).
Proof.
  intros I L T. unfold intervalTick. rewrite L. cbn [runCallback].
  rewrite T. unfold stopContinuousBeep. rewrite I. reflexivity.
Qed.

Lemma posture_tick_true (rt : Runtime) (id : handle) :
  liveInterval id rt = Some postureBeepCallback ->
  isBadPosture (state rt) = true ->
  intervalTick id rt = emit (PostureContinuousAlert (issueOf (state rt))) rt.
Proof.
  intros L T. unfold intervalTick. rewrite L. cbn [runCallback].
  rewrite T. reflexivity.
Qed.

Lemma posture_tick_false (rt : Runtime) (id : handle) :
  postureBeepTimer (state rt) = Some id ->
  liveInterval id rt = Some postureBeepCallback ->
  isBadPosture (state rt) = false ->
  intervalTick id rt
  = with_state (set_postureBeepTimer None) (clearInterval id rt).
Proof.
  intros I L T. unfold intervalTick. rewrite L. cbn [runCallback].
  rewrite T. unfold stopPostureContinuousAlert. rewrite I. reflexivity.
Qed.

End TimerTick.

(** ** Alerts: the claims *)

Section AlertClaims.

Example alert_tones :
  alertSinks defaultSettings (TouchAlert "Mouth" 1 1000)
  = [playBeep 440 150; alertFlash false]
  /\ alertSinks defaultSettings (PostureContinuousAlert "Head forward")
     = [playBeep 330 200; alertFlash true].
Proof. split; reflexivity. Qed.

(** The trace of [detect.js] in which a touch starts, ends, and starts
    again before the cooldown timeout has fired. *)
Example detectJs_second_touch_is_silent :
  let rt1 := DetectJs.handleTouchState true true 1000 detectJsInitial in
  let rt2 := DetectJs.handleTouchState false true 1500 rt1 in
  let rt3 := DetectJs.handleTouchState true true 2000 rt2 in
  DetectJs.touchCount (DetectJs.state rt1) = 1%Z
  /\ DetectJs.isTouching (DetectJs.state rt2) = false
  /\ DetectJs.isTouching (DetectJs.state rt3) = true
  /\ DetectJs.touchCount (DetectJs.state rt3) = 1%Z
  /\ DetectJs.alerts rt3 = DetectJs.alerts rt2.
Proof. repeat split. Qed.

(** C3, as stated, fails on [detect.js]: there a rising edge that falls
    within the cooldown of the previous alert raises no onset alert and
    leaves the counter as it was. *)
Lemma C3_detectjs_onset_suppressed_by_cooldown :
  ~ (forall (rt : DetectJs.Runtime) (v : bool) (now : Z),
        DetectJs.isTouching (DetectJs.state rt) = false ->
        DetectJs.touchCount
          (DetectJs.state (DetectJs.handleTouchState true v now rt))
        = (DetectJs.touchCount (DetectJs.state rt) + 1)%Z).
Proof.
  intros H.
  specialize (H (DetectJs.handleTouchState false true 1500
                   (DetectJs.handleTouchState true true 1000 detectJsInitial))
                true 2000%Z eq_refl).
  vm_compute in H. discriminate H.
Qed.

(** C3 (amended): in the script with posture support a rising edge of
    the detection boolean, for touch and for posture alike, raises
    exactly one onset alert, adds 1 to that behaviour's counter and
    records the time, whatever the cooldown flag and the timers are.  In
    [detect.js] the touch onset is raised on a rising edge only while
    the cooldown flag is clear; while it is set the edge raises nothing
    and changes neither counter nor timestamp. *)
Theorem C3_onset_on_rising_edge :
  (forall (rt : Runtime) (v : bool) (now : Z),
      isTouching (state rt) = false ->
      let rt' := handleTouchState true v now rt in
      touchCount (state rt') = (touchCount (state rt) + 1)%Z
      /\ lastTouchTime (state rt') = Some now
      /\ alerts rt'
         = alerts rt ++ [TouchAlert (zoneNameOf (state rt))
                                    (touchCount (state rt) + 1) now])
  /\ (forall (rt : Runtime) (now : Z),
        isBadPosture (state rt) = false ->
        let rt' := handlePostureState true now rt in
        postureAlertCount (state rt') = (postureAlertCount (state rt) + 1)%Z
        /\ lastPostureAlertTime (state rt') = Some now
        /\ alerts rt'
           = alerts rt ++ [PostureAlert (issueOf (state rt))
                                        (postureAlertCount (state rt) + 1)
                                        now])
  /\ (forall (rt : DetectJs.Runtime) (v : bool) (now : Z),
        DetectJs.isTouching (DetectJs.state rt) = false ->
        let rt' := DetectJs.handleTouchState true v now rt in
        (DetectJs.alertCooldown (DetectJs.state rt) = false ->
         DetectJs.touchCount (DetectJs.state rt')
         = (DetectJs.touchCount (DetectJs.state rt) + 1)%Z
         /\ DetectJs.lastTouchTime (DetectJs.state rt') = Some now
         /\ DetectJs.alerts rt'
            = DetectJs.alerts rt
              ++ [TouchAlert (DetectJs.zoneNameOf (DetectJs.state rt))
                             (DetectJs.touchCount (DetectJs.state rt) + 1)
                             now])
        /\ (DetectJs.alertCooldown (DetectJs.state rt) = true ->
            DetectJs.touchCount (DetectJs.state rt')
            = DetectJs.touchCount (DetectJs.state rt)
            /\ DetectJs.lastTouchTime (DetectJs.state rt')
               = DetectJs.lastTouchTime (DetectJs.state rt)
            /\ DetectJs.alerts rt' = DetectJs.alerts rt)).
Proof.
  split; [|split].
  - intros rt v now H.
    destruct (touch_onset rt v now H) as [A [B [C _]]]. auto.
  - intros rt now H.
    destruct (posture_onset rt now H) as [A [B [C _]]]. auto.
  - intros [[c t cd it wt ms z] tos nh al] v now H. cbn in H. subst it.
    unfold DetectJs.handleTouchState. cbn.
    split; intros ->; cbn; repeat split.
Qed.

Lemma C3_onset_on_rising_edge_witness :
  isTouching (state initialRuntime) = false
  /\ touchCount (state (handleTouchState true true 1000 initialRuntime)) = 1%Z
  /\ isBadPosture (state initialRuntime) = false
  /\ postureAlertCount (state (handlePostureState true 1000 initialRuntime))
     = 1%Z
  /\ DetectJs.isTouching (DetectJs.state detectJsInitial) = false
  /\ DetectJs.touchCount
       (DetectJs.state (DetectJs.handleTouchState true true 1000 detectJsInitial))
     = 1%Z.
Proof.
  destruct C3_onset_on_rising_edge as [Htouch [Hposture Hold]].
  split; [reflexivity|].
  split; [exact (proj1 (Htouch initialRuntime true 1000%Z eq_refl))|].
  split; [reflexivity|].
  split; [exact (proj1 (Hposture initialRuntime 1000%Z eq_refl))|].
  split; [reflexivity|].
  exact (proj1 (proj1 (Hold detectJsInitial true 1000%Z eq_refl) eq_refl)).
Defined.

End AlertClaims.

Section TimerClaims.

(** C4: a tick of a behaviour's repeat timer, while that timer is the
    one the state holds, reads the detection flag as it is at the tick.
    If the flag is true the tick raises one continuous alert and changes
    nothing else, so the timer stays registered; if it is false the tick
    raises nothing, clears the timer and leaves the machine idle at
    once.  A signal that is true for some frames and then false, with no
    tick in between, raises exactly one onset alert and no continuous
    alert, and leaves the machine idle with no timer registered. *)
Theorem C4_repeat_timer_tick :
  (forall (rt : Runtime) (id : handle),
      continuousBeepTimer (state rt) = Some id ->
      liveInterval id rt = Some continuousBeepCallback ->
      (isTouching (state rt) = true ->
       intervalTick id rt = emit (ContinuousAlert (zoneNameOf (state rt))) rt
       /\ alerts (intervalTick id rt)
          = alerts rt ++ [ContinuousAlert (zoneNameOf (state rt))]
       /\ liveInterval id (intervalTick id rt) = Some continuousBeepCallback
       /\ touchMode (intervalTick id rt) = Active)
      /\ (isTouching (state rt) = false ->
          alerts (intervalTick id rt) = alerts rt
          /\ touchMode (intervalTick id rt) = Idle
          /\ liveInterval id (intervalTick id rt) = None))
  /\ (forall (rt : Runtime) (id : handle),
        postureBeepTimer (state rt) = Some id ->
        liveInterval id rt = Some postureBeepCallback ->
        (isBadPosture (state rt) = true ->
         intervalTick id rt
         = emit (PostureContinuousAlert (issueOf (state rt))) rt
         /\ alerts (intervalTick id rt)
            = alerts rt ++ [PostureContinuousAlert (issueOf (state rt))]
         /\ liveInterval id (intervalTick id rt) = Some postureBeepCallback
         /\ postureMode (intervalTick id rt) = Active)
        /\ (isBadPosture (state rt) = false ->
            alerts (intervalTick id rt) = alerts rt
            /\ postureMode (intervalTick id rt) = Idle
            /\ liveInterval id (intervalTick id rt) = None))
  /\ (forall (rt : Runtime) (f0 : bool * Z) (frames : list (bool * Z))
             (v : bool) (now : Z),
        isTouching (state rt) = false ->
        noLiveTimer continuousBeepCallback rt = true ->
        let rt' :=
          run rt (touchFrames (f0 :: frames) ++ [touchFrame false v now]) in
        alerts rt'
        = alerts rt ++ [TouchAlert (zoneNameOf (state rt))
                                   (touchCount (state rt) + 1) (snd f0)]
        /\ touchMode rt' = Idle
        /\ isTouching (state rt') = false
        /\ noLiveTimer continuousBeepCallback rt' = true)
  /\ (forall (rt : Runtime) (f0 : Z) (frames : list Z) (now : Z),
        isBadPosture (state rt) = false ->
        noLiveTimer postureBeepCallback rt = true ->
        let rt' :=
          run rt (postureFrames (f0 :: frames) ++ [postureFrame false now]) in
        alerts rt'
        = alerts rt ++ [PostureAlert (issueOf (state rt))
                                     (postureAlertCount (state rt) + 1) f0]
        /\ postureMode rt' = Idle
        /\ isBadPosture (state rt') = false
        /\ noLiveTimer postureBeepCallback rt' = true).
Proof.
  split; [|split; [|split]].
  - intros rt id I L. split; intros T.
    + rewrite (touch_tick_true rt id L T).
      split; [reflexivity|]. split; [reflexivity|].
      split; [exact L|]. unfold touchMode. cbn. rewrite I. reflexivity.
    + rewrite (touch_tick_false rt id I L T).
      split; [reflexivity|]. split; [reflexivity|].
      rewrite liveInterval_with_state. apply liveInterval_cleared.
  - intros rt id I L. split; intros T.
    + rewrite (posture_tick_true rt id L T).
      split; [reflexivity|]. split; [reflexivity|].
      split; [exact L|]. unfold postureMode. cbn. rewrite I. reflexivity.
    + rewrite (posture_tick_false rt id I L T).
      split; [reflexivity|]. split; [reflexivity|].
      rewrite liveInterval_with_state. apply liveInterval_cleared.
  - intros rt f0 frames v now H N. apply touch_true_then_false; assumption.
  - intros rt f0 frames now H N. apply posture_true_then_false; assumption.
Qed.

Lemma C4_repeat_timer_tick_witness :
  (continuousBeepTimer (state touchingRuntime) = Some 1%positive
   /\ liveInterval 1%positive touchingRuntime = Some continuousBeepCallback
   /\ isTouching (state touchingRuntime) = true
   /\ alerts (intervalTick 1%positive touchingRuntime)
      = [TouchAlert "Face" 1%Z 1000%Z; ContinuousAlert "Face"])
  /\ (isTouching (state releasedBeforeTick) = false
      /\ touchMode (intervalTick 1%positive releasedBeforeTick) = Idle)
  /\ (isTouching (state initialRuntime) = false
      /\ noLiveTimer continuousBeepCallback initialRuntime = true
      /\ alerts (run initialRuntime
                     (touchFrames [(true, 1000%Z); (true, 1016%Z)]
                      ++ [touchFrame false true 1032%Z]))
         = [TouchAlert "Face" 1%Z 1000%Z]).
Proof.
  destruct C4_repeat_timer_tick as [Htick [_ [Hrun _]]].
  split; [|split].
  - split; [reflexivity|]. split; [reflexivity|]. split; [reflexivity|].
    destruct (Htick touchingRuntime 1%positive eq_refl eq_refl) as [Htrue _].
    exact (proj1 (proj2 (Htrue eq_refl))).
  - split; [reflexivity|].
    destruct (Htick releasedBeforeTick 1%positive eq_refl eq_refl)
      as [_ Hfalse].
    exact (proj1 (proj2 (Hfalse eq_refl))).
  - split; [reflexivity|]. split; [reflexivity|].
    exact (proj1 (Hrun initialRuntime (true, 1000%Z) [(true, 1016%Z)]
                       true 1032%Z eq_refl eq_refl)).
Defined.

End TimerClaims.

Section StopClaims.

Lemma find_none_filter {A : Type} (f g : A -> bool) (l : list A) :
  find f l = None -> find f (filter g l) = None.
Proof.
  induction l as [|a rest IH]; simpl; [reflexivity|].
  destruct (f a) eqn:F; [discriminate|]. intros H.
  destruct (g a); simpl; [rewrite F|]; auto.
Qed.

Lemma liveInterval_none (id : handle) (rt : Runtime) :
  find (fun t => Pos.eqb (fst t) id) (intervals rt) = None ->
  liveInterval id rt = None.
Proof. unfold liveInterval. intros ->. reflexivity. Qed.

Lemma stopMonitoring_effect (rt : Runtime) :
  let rt' := stopMonitoring rt in
  touchMode rt' = Idle
  /\ postureMode rt' = Idle
  /\ (forall id, continuousBeepTimer (state rt) = Some id ->
                 liveInterval id rt' = None)
  /\ (forall id, postureBeepTimer (state rt) = Some id ->
                 liveInterval id rt' = None)
  /\ isBadPosture (state rt') = false
  /\ wasBadPosture (state rt') = false
  /\ isTouching (state rt') = isTouching (state rt)
  /\ wasTouching (state rt') = wasTouching (state rt).
Proof.
  open_runtime rt. unfold stopMonitoring, stopContinuousBeep. cbn.
  destruct continuousBeepTimer0 as [t|]; cbn;
    unfold stopPostureContinuousAlert; cbn;
    destruct postureBeepTimer0 as [q|]; cbn;
    repeat split; intros id E; try discriminate E;
    injection E as ->; apply liveInterval_none; cbn.
  - apply find_none_filter.
    apply (find_filter_none (fun t => Pos.eqb (fst t) id)).
  - apply (find_filter_none (fun t => Pos.eqb (fst t) id)).
  - apply (find_filter_none (fun t => Pos.eqb (fst t) id)).
  - apply (find_filter_none (fun t => Pos.eqb (fst t) id)).
Qed.

Lemma postureToggle_off_effect (rt : Runtime) :
  let rt' := postureToggleChange false rt in
  postureMode rt' = Idle
  /\ (forall id, postureBeepTimer (state rt) = Some id ->
                 liveInterval id rt' = None)
  /\ isBadPosture (state rt') = false
  /\ wasBadPosture (state rt') = false
  /\ Posture.enabled (Settings.posture (settings (state rt'))) = false
  /\ continuousBeepTimer (state rt') = continuousBeepTimer (state rt)
  /\ (forall id, postureBeepTimer (state rt) <> Some id ->
                 liveInterval id rt' = liveInterval id rt)
  /\ isTouching (state rt') = isTouching (state rt)
  /\ wasTouching (state rt') = wasTouching (state rt).
Proof.
  open_runtime rt. unfold postureToggleChange, stopPostureContinuousAlert.
  cbn. destruct postureBeepTimer0 as [q|]; cbn; repeat split;
    try (intros id E; try discriminate E).
  - injection E as ->. apply liveInterval_none; cbn.
    apply (find_filter_none (fun t => Pos.eqb (fst t) id)).
  - unfold liveInterval. cbn. rewrite find_filter_keep; [reflexivity|].
    intros t Ht. apply Pos.eqb_eq in Ht.
    apply negb_true_iff, Pos.eqb_neq. congruence.
Qed.

(** C5: what [stopMonitoring] and switching posture detection off do to
    the two alert machines.  Stopping cancels both repeat timers and
    clears the posture flags, but leaves [isTouching] and [wasTouching]
    as they were: after stopping during a touch the touch flag is still
    set, and a touch seen by the first frame after the next start is no
    rising edge, so it raises no onset alert and starts no timer.
    Switching posture detection off cancels the posture timer and clears
    the posture flags only. *)
Theorem C5_stop_keeps_touch_flags :
  (forall rt : Runtime,
      let rt' := stopMonitoring rt in
      touchMode rt' = Idle
      /\ postureMode rt' = Idle
      /\ (forall id, continuousBeepTimer (state rt) = Some id ->
                     liveInterval id rt' = None)
      /\ (forall id, postureBeepTimer (state rt) = Some id ->
                     liveInterval id rt' = None)
      /\ isBadPosture (state rt') = false
      /\ wasBadPosture (state rt') = false
      /\ isTouching (state rt') = isTouching (state rt)
      /\ wasTouching (state rt') = wasTouching (state rt))
  /\ (forall rt : Runtime,
        let rt' := postureToggleChange false rt in
        postureMode rt' = Idle
        /\ (forall id, postureBeepTimer (state rt) = Some id ->
                       liveInterval id rt' = None)
        /\ isBadPosture (state rt') = false
        /\ wasBadPosture (state rt') = false
        /\ Posture.enabled (Settings.posture (settings (state rt'))) = false
        /\ continuousBeepTimer (state rt') = continuousBeepTimer (state rt)
        /\ (forall id, postureBeepTimer (state rt) <> Some id ->
                       liveInterval id rt' = liveInterval id rt)
        /\ isTouching (state rt') = isTouching (state rt)
        /\ wasTouching (state rt') = wasTouching (state rt))
  /\ (isTouching (state touchingWhenStopped) = true
      /\ touchMode touchingWhenStopped = Idle
      /\ isTouching (state restartedWhileTouching) = true
      /\ alerts restartedWhileTouching = alerts touchingWhenStopped
      /\ touchCount (state restartedWhileTouching) = 0%Z
      /\ touchMode restartedWhileTouching = Idle).
Proof.
  split; [exact stopMonitoring_effect|].
  split; [exact postureToggle_off_effect|].
  repeat split.
Qed.

End StopClaims.


(** * Further properties of the detection code *)

(** ** More on the order of binary64 numbers *)

Lemma SFltb_leb_trans (a b c : spec_float) :
  SFltb a b = true -> SFleb b c = true -> SFltb a c = true.
Proof. sf_order. Qed.

Lemma SFltb_irrefl (a : spec_float) : SFltb a a = false.
Proof. sf_order. Qed.

Section FloatOrderMore.
Local Open Scope float_scope.

Lemma ltb_leb_trans (a b c : float) :
  (a <? b) = true -> (b <=? c) = true -> (a <? c) = true.
Proof. rewrite !ltb_spec, leb_spec. apply SFltb_leb_trans. Qed.

Lemma ltb_irrefl (a : float) : (a <? a) = false.
Proof. rewrite ltb_spec. apply SFltb_irrefl. Qed.

Lemma ltb_unordered_l (a b : float) : ~ ordered a -> (a <? b) = false.
Proof.
  intros H. destruct (a <? b) eqn:E; [|reflexivity].
  apply ltb_ordered in E. tauto.
Qed.

Lemma ltb_unordered_r (a b : float) : ~ ordered b -> (a <? b) = false.
Proof.
  intros H. destruct (a <? b) eqn:E; [|reflexivity].
  apply ltb_ordered in E. tauto.
Qed.

End FloatOrderMore.

(** ** The proximity test on unusual inputs *)

Section ProximityEdges.
Local Open Scope float_scope.

Lemma fold_keepSmaller_all_nan (point : Point.t) (targets : list Point.t)
      (minDist : float) :
  (forall q, In q targets -> ~ ordered (distance2D point q)) ->
  fold_left (keepSmaller point) targets minDist = minDist.
Proof.
  revert minDist. induction targets as [|q rest IH]; intros m H; simpl.
  - reflexivity.
  - unfold keepSmaller at 2.
    rewrite ltb_unordered_l by (apply H; left; reflexivity).
    apply IH. intros q' Hq'. apply H. right. exact Hq'.
Qed.

(** X1: [getMinDistance] never returns NaN.  For an empty target list, and
    for targets whose distances are all NaN (coordinates that are not
    numbers), it returns [Infinity], and then the proximity test fails
    whatever the sensitivity is. *)
Theorem getMinDistance_is_a_number
    (point : Point.t) (targets : list Point.t) :
  ordered (getMinDistance point targets)
  /\ getMinDistance point [] = infinity
  /\ ((forall q, In q targets -> ~ ordered (distance2D point q)) ->
      getMinDistance point targets = infinity)
  /\ (getMinDistance point targets = infinity ->
      forall st, withinThreshold st point targets = false).
Proof.
  split; [|split; [|split]].
  - rewrite getMinDistance_fold.
    apply fold_keepSmaller_ordered, infinity_ordered.
  - reflexivity.
  - intros H. rewrite getMinDistance_fold.
    apply fold_keepSmaller_all_nan, H.
  - intros E st. unfold withinThreshold. rewrite E.
    apply infinity_not_below.
Qed.

Lemma getMinDistance_is_a_number_witness :
  (forall q, In q [Point.mk nan 360 0] ->
             ~ ordered (distance2D (tipTen 0) q))
  /\ forall st, withinThreshold st (tipTen 0) [Point.mk nan 360 0] = false.
Proof.
  assert (H : forall q, In q [Point.mk nan 360 0] ->
                        ~ ordered (distance2D (tipTen 0) q)).
  { intros q [<-|[]]. unfold ordered. vm_compute. discriminate. }
  split; [exact H|].
  destruct (getMinDistance_is_a_number (tipTen 0) [Point.mk nan 360 0])
    as [_ [_ [Hnan Hinf]]].
  exact (Hinf (Hnan H)).
Defined.

(** X2: the proximity test depends on the set of a zone's points only:
    adding points to a zone never turns a fingertip that is within the
    threshold into one that is not, and reordering the points changes
    nothing. *)
Theorem withinThreshold_grows_with_points
    (st : State) (point : Point.t) (targets targets' : list Point.t) :
  incl targets targets' ->
  (withinThreshold st point targets = true ->
   withinThreshold st point targets' = true)
  /\ (incl targets' targets ->
      withinThreshold st point targets' = withinThreshold st point targets).
Proof.
  intros Hincl.
  assert (G : forall l l', incl l l' ->
                withinThreshold st point l = true ->
                withinThreshold st point l' = true).
  { intros l l' Hl. unfold withinThreshold.
    rewrite !getMinDistance_below, !existsb_exists.
    intros [q [Hq Hd]]. exists q. split; [apply Hl, Hq|exact Hd]. }
  split; [apply G, Hincl|].
  intros Hincl'.
  destruct (withinThreshold st point targets) eqn:A.
  - apply (G _ _ Hincl A).
  - destruct (withinThreshold st point targets') eqn:B; [|reflexivity].
    rewrite (G _ _ Hincl' B) in A. discriminate A.
Qed.

Lemma withinThreshold_grows_with_points_witness :
  incl [Point.mk 640 360 0] [Point.mk 0 0 0; Point.mk 640 360 0]
  /\ withinThreshold initialState (tipTen 0)
       [Point.mk 0 0 0; Point.mk 640 360 0] = true.
Proof.
  assert (H : incl [Point.mk 640 360 0] [Point.mk 0 0 0; Point.mk 640 360 0]).
  { intros q [<-|[]]. right. left. reflexivity. }
  split; [exact H|].
  destruct (withinThreshold_grows_with_points initialState (tipTen 0)
              [Point.mk 640 360 0] [Point.mk 0 0 0; Point.mk 640 360 0] H)
    as [Hgrow _].
  apply Hgrow. vm_compute. reflexivity.
Defined.

End ProximityEdges.

(** ** Choosing the more visible side *)

Section SideSelection.
Local Open Scope float_scope.

(** X3: the landmark [checkPosture] picks from a left/right pair is
    visible (visibility above 0.5) exactly when at least one of the two
    is, provided the right one's visibility is a number; on equal
    visibilities the right one is picked.  If the right visibility is
    not a number the right landmark is picked and counts as not visible,
    whatever the left one is. *)
Theorem moreVisible_visible_iff_either (lm rm : Landmark.t) :
  (ordered (Landmark.visibility rm) ->
   visible (moreVisible lm rm) = visible lm || visible rm)
  /\ (Landmark.visibility lm = Landmark.visibility rm -> moreVisible lm rm = rm)
  /\ (~ ordered (Landmark.visibility rm) ->
      moreVisible lm rm = rm /\ visible (moreVisible lm rm) = false).
Proof.
  unfold moreVisible, visible. split; [|split].
  - intros Hr.
    destruct (Landmark.visibility rm <? Landmark.visibility lm) eqn:E.
    + destruct (0.5 <? Landmark.visibility lm) eqn:A; [reflexivity|].
      destruct (0.5 <? Landmark.visibility rm) eqn:B; [|reflexivity].
      rewrite (ltb_trans _ _ _ B E) in A. discriminate A.
    + destruct (0.5 <? Landmark.visibility lm) eqn:A; [|reflexivity].
      cbn [orb].
      apply ltb_leb_trans with (Landmark.visibility lm); [exact A|].
      apply ltb_false_leb; [exact E|exact Hr|].
      apply ltb_ordered in A. tauto.
  - intros ->. rewrite ltb_irrefl. reflexivity.
  - intros Hr. rewrite (ltb_unordered_l _ _ Hr).
    split; [reflexivity|]. apply ltb_unordered_r, Hr.
Qed.

Lemma moreVisible_visible_iff_either_witness :
  ordered (Landmark.visibility (Landmark.mk 0.5 0.25 0 0.125))
  /\ visible (moreVisible (Landmark.mk 0.5 0.25 0 0.875)
                          (Landmark.mk 0.5 0.25 0 0.125)) = true
  /\ ~ ordered (Landmark.visibility (Landmark.mk 0.5 0.25 0 nan))
  /\ visible (moreVisible (Landmark.mk 0.5 0.25 0 0.875)
                          (Landmark.mk 0.5 0.25 0 nan)) = false.
Proof.
  assert (Ho : ordered (Landmark.visibility (Landmark.mk 0.5 0.25 0 0.125)))
    by reflexivity.
  assert (Hn : ~ ordered (Landmark.visibility (Landmark.mk 0.5 0.25 0 nan)))
    by (unfold ordered; vm_compute; discriminate).
  split; [exact Ho|]. split.
  - destruct (moreVisible_visible_iff_either
                (Landmark.mk 0.5 0.25 0 0.875) (Landmark.mk 0.5 0.25 0 0.125))
      as [H _].
    rewrite (H Ho). vm_compute. reflexivity.
  - split; [exact Hn|].
    destruct (moreVisible_visible_iff_either
                (Landmark.mk 0.5 0.25 0 0.875) (Landmark.mk 0.5 0.25 0 nan))
      as [_ [_ H]].
    exact (proj2 (H Hn)).
Defined.

End SideSelection.

(** ** When the classifiers return and what they write *)

Section ClassifierFrames.
Local Open Scope float_scope.
Local Open Scope string_scope.
Local Open Scope list_scope.

Lemma issue_text_known (a b c d : bool) :
  let issues :=
    (if a then ["Head forward"] else [])
    ++ (if b then ["Uneven shoulders"] else [])
    ++ (if c then ["Spine curved"] else [])
    ++ (if d then ["Shoulders hunched"] else []) in
  issues <> [] -> In (String.concat ", " issues) allIssueTexts.
Proof.
  destruct a, b, c, d; cbv zeta; intros H; try (exfalso; apply H; reflexivity);
    vm_compute; repeat (first [left; reflexivity | right]).
Qed.

Lemma posture_issue_text (atan2 : float -> float -> float) (p : Posture.t)
      (leftEar rightEar leftShoulder rightShoulder leftHip rightHip
         : Landmark.t) :
  let issues :=
    postureIssues atan2 p leftEar rightEar leftShoulder rightShoulder
                  leftHip rightHip in
  issues <> [] -> In (String.concat ", " issues) allIssueTexts.
Proof.
  cbv zeta.
  rewrite (postureIssues_checks atan2 p leftEar rightEar leftShoulder
             rightShoulder leftHip rightHip).
  apply issue_text_known.
Qed.

(** What a returning [checkPosture] wrote: the current issue and nothing
    else, a known text exactly when it returned true. *)
Lemma checkPosture_normal (atan2 : float -> float -> float) (st st' : State)
      (poseLandmarks : option (list Landmark.t)) (b : bool) :
  checkPosture atan2 st poseLandmarks = Normal (st', b) ->
  exists recorded,
    st' = set_currentPostureIssue recorded st
    /\ b = isSome recorded
    /\ forall issue, recorded = Some issue -> In issue allIssueTexts.
Proof.
  unfold checkPosture.
  destruct poseLandmarks as [pose|];
    [|intros [= <- <-]; exists None; repeat split; discriminate].
  destruct (Posture.enabled (Settings.posture (settings st))); cbn [negb];
    [|intros [= <- <-]; exists None; repeat split; discriminate].
  unfold at_index.
  destruct (nth_error pose POSE_LANDMARKS.LEFT_EAR) as [le|];
    cbn [bindC]; [|discriminate].
  destruct (nth_error pose POSE_LANDMARKS.RIGHT_EAR) as [re|];
    cbn [bindC]; [|discriminate].
  destruct (nth_error pose POSE_LANDMARKS.LEFT_SHOULDER) as [ls|];
    cbn [bindC]; [|discriminate].
  destruct (nth_error pose POSE_LANDMARKS.RIGHT_SHOULDER) as [rs|];
    cbn [bindC]; [|discriminate].
  destruct (nth_error pose POSE_LANDMARKS.LEFT_HIP) as [lh|];
    cbn [bindC]; [|discriminate].
  destruct (nth_error pose POSE_LANDMARKS.RIGHT_HIP) as [rh|];
    cbn [bindC]; [|discriminate].
  pose proof (posture_issue_text atan2 (Settings.posture (settings st))
                le re ls rs lh rh) as T. cbv zeta in T.
  destruct (postureIssues atan2 (Settings.posture (settings st))
                          le re ls rs lh rh) as [|i rest] eqn:E.
  - intros [= <- <-]. exists None. repeat split; discriminate.
  - intros [= <- <-]. eexists. split; [reflexivity|].
    split; [reflexivity|]. intros issue [= <-]. apply T. discriminate.
Qed.

(** X4: with posture detection enabled, [checkPosture] throws exactly when
    the pose array has fewer than 25 landmarks (index 24, the right hip,
    is the last one it reads).  When it returns it has written the current
    issue and nothing else; it returned true exactly when the recorded
    issue is not null, and a recorded issue is the comma-joined text of a
    non-empty selection of the four labels, in their fixed order. *)
Theorem checkPosture_throws_iff_short_pose
    (atan2 : float -> float -> float) (st : State) (pose : list Landmark.t) :
  Posture.enabled (Settings.posture (settings st)) = true ->
  (checkPosture atan2 st (Some pose) = Throw <-> (List.length pose < 25)%nat)
  /\ forall st' b,
      checkPosture atan2 st (Some pose) = Normal (st', b) ->
      st' = set_currentPostureIssue (currentPostureIssue st') st
      /\ (b = true <-> currentPostureIssue st' <> None)
      /\ forall issue, currentPostureIssue st' = Some issue ->
                       In issue allIssueTexts.
Proof.
  intros Hen. split.
  - unfold checkPosture, at_index. rewrite Hen. cbn [negb].
    unfold POSE_LANDMARKS.LEFT_EAR, POSE_LANDMARKS.RIGHT_EAR,
      POSE_LANDMARKS.LEFT_SHOULDER, POSE_LANDMARKS.RIGHT_SHOULDER,
      POSE_LANDMARKS.LEFT_HIP, POSE_LANDMARKS.RIGHT_HIP.
    destruct (nth_error pose 7) eqn:E1; cbn [bindC];
      [|apply nth_error_None in E1; split; [lia|reflexivity]].
    destruct (nth_error pose 8) eqn:E2; cbn [bindC];
      [|apply nth_error_None in E2; split; [lia|reflexivity]].
    destruct (nth_error pose 11) eqn:E3; cbn [bindC];
      [|apply nth_error_None in E3; split; [lia|reflexivity]].
    destruct (nth_error pose 12) eqn:E4; cbn [bindC];
      [|apply nth_error_None in E4; split; [lia|reflexivity]].
    destruct (nth_error pose 23) eqn:E5; cbn [bindC];
      [|apply nth_error_None in E5; split; [lia|reflexivity]].
    destruct (nth_error pose 24) eqn:E6; cbn [bindC];
      [|apply nth_error_None in E6; split; [lia|reflexivity]].
    assert (L : (24 < List.length pose)%nat)
      by (apply nth_error_Some; congruence).
    split; [|lia].
    destruct (0 <? List.length _)%nat; discriminate.
  - intros st' b H. apply checkPosture_normal in H.
    destruct H as [recorded [-> [-> Htext]]]. cbn.
    split; [reflexivity|]. split; [|exact Htext].
    destruct recorded; cbn; split; congruence.
Qed.

Lemma checkPosture_throws_iff_short_pose_witness :
  Posture.enabled (Settings.posture (settings (postureOn initialState))) = true
  /\ checkPosture atan2_axes (postureOn initialState)
                  (Some (repeat (Landmark.mk 0 0 0 0) 24)) = Throw.
Proof.
  split; [reflexivity|].
  destruct (checkPosture_throws_iff_short_pose atan2_axes
              (postureOn initialState) (repeat (Landmark.mk 0 0 0 0) 24)
              eq_refl) as [[_ H] _].
  apply H. vm_compute. lia.
Defined.

End ClassifierFrames.

(** ** Landmark arrays that are too short *)

Section ShortArrays.
Local Open Scope float_scope.

Lemma mapC_throws {A B : Type} (f : A -> Completion B) (l : list A) :
  mapC f l = Throw <-> exists a, In a l /\ f a = Throw.
Proof.
  induction l as [|a rest IH]; cbn [mapC].
  - split; [discriminate|]. intros [a [[] _]].
  - destruct (f a) as [b|] eqn:E; cbn [bindC].
    + destruct (mapC f rest) as [bs|] eqn:M; cbn [bindC].
      * split; [discriminate|].
        intros [a' [[<-|Hin] Ha']]; [congruence|].
        assert (C : @Normal (list B) bs = Throw)
          by (apply (proj2 IH); exists a'; auto).
        discriminate C.
      * split; [|reflexivity]. intros _.
        destruct (proj1 IH eq_refl) as [a' [Hin Ha']].
        exists a'. split; [right; exact Hin|exact Ha'].
    + split; [|reflexivity]. intros _. exists a. split; [left; reflexivity|exact E].
Qed.

Lemma regionPoints_throws (face : list Landmark.t) (w h : float)
      (indices : list nat) :
  regionPoints face w h indices = Throw
  <-> exists idx, In idx indices /\ (List.length face <= idx)%nat.
Proof.
  unfold regionPoints. rewrite mapC_throws.
  split; intros [idx [Hin H]]; exists idx; (split; [exact Hin|]).
  - unfold at_index in H.
    destruct (nth_error face idx) eqn:E; [discriminate H|].
    apply nth_error_None, E.
  - unfold at_index. apply nth_error_None in H. rewrite H. reflexivity.
Qed.

Lemma buildFacePoints_throws (face : list Landmark.t) (w h : float)
      (zones : list zone) :
  buildFacePoints face w h zones = Throw
  <-> exists region idx,
      In region zones /\ In idx (FACE_REGIONS region)
      /\ (List.length face <= idx)%nat.
Proof.
  unfold buildFacePoints. rewrite mapC_throws. split.
  - intros [region [Hin H]].
    destruct (regionPoints face w h (FACE_REGIONS region)) eqn:E;
      [discriminate H|].
    apply regionPoints_throws in E. destruct E as [idx [Hidx Hlen]].
    exists region, idx. auto.
  - intros [region [idx [Hin [Hidx Hlen]]]]. exists region.
    split; [exact Hin|].
    rewrite (proj2 (regionPoints_throws face w h (FACE_REGIONS region)))
      by (exists idx; auto).
    reflexivity.
Qed.

Lemma scanFingertips_throws (st : State) (w h : float)
      (facePoints : list (zone * list Point.t)) (hand : list Landmark.t)
      (tips : list nat) :
  scanFingertips st w h facePoints hand tips = Throw ->
  exists tipIdx, In tipIdx tips /\ (List.length hand <= tipIdx)%nat.
Proof.
  induction tips as [|tipIdx rest IH]; cbn [scanFingertips]; [discriminate|].
  unfold at_index. destruct (nth_error hand tipIdx) as [tip|] eqn:E;
    cbn [bindC].
  - destruct (scanRegions st _ facePoints); [discriminate|].
    intros H. destruct (IH H) as [i [Hi Hl]]. exists i.
    split; [right; exact Hi|exact Hl].
  - intros _. exists tipIdx. split; [left; reflexivity|].
    apply nth_error_None, E.
Qed.

Lemma scanHands_throws (st : State) (w h : float)
      (facePoints : list (zone * list Point.t))
      (hands : list (list Landmark.t)) :
  scanHands st w h facePoints hands = Throw ->
  exists hand, In hand hands /\ (List.length hand < 21)%nat.
Proof.
  induction hands as [|hand rest IH]; cbn [scanHands]; [discriminate|].
  destruct (scanFingertips st w h facePoints hand FINGERTIPS) as [[r|]|] eqn:S;
    cbn [bindC]; [discriminate| |].
  - intros H. destruct (IH H) as [hd [Hin Hl]]. exists hd.
    split; [right; exact Hin|exact Hl].
  - intros _. apply scanFingertips_throws in S.
    destruct S as [i [Hi Hl]]. exists hand. split; [left; reflexivity|].
    unfold FINGERTIPS in Hi. cbn [In] in Hi.
    destruct Hi as [<-|[<-|[<-|[<-|[<-|[]]]]]]; lia.
Qed.

(** X5: with a face and at least one hand present, [checkFaceTouch] throws
    whenever some enabled zone uses a landmark index that the face array
    does not have; and these are, with a hand of fewer than 21 landmarks,
    the only ways it can throw.  The largest index used is 466, so a face
    of 467 landmarks or more never makes it throw. *)
Theorem checkFaceTouch_throws_on_short_arrays
    (st : State) (face : list Landmark.t) (hand : list Landmark.t)
    (hands : list (list Landmark.t)) :
  ((exists region idx,
       zoneEnabled (Settings.zones (settings st)) region = true
       /\ In idx (FACE_REGIONS region)
       /\ (List.length face <= idx)%nat) ->
   checkFaceTouch st (Some face) (hand :: hands) = Throw)
  /\ (checkFaceTouch st (Some face) (hand :: hands) = Throw ->
      (exists region idx,
          zoneEnabled (Settings.zones (settings st)) region = true
          /\ In idx (FACE_REGIONS region)
          /\ (List.length face <= idx)%nat)
      \/ (exists short, In short (hand :: hands)
                        /\ (List.length short < 21)%nat))
  /\ (forall region idx, In idx (FACE_REGIONS region) -> (idx < 467)%nat).
Proof.
  split; [|split].
  - intros [region [idx [Hen [Hidx Hlen]]]].
    apply In_enabledZones in Hen.
    assert (B : buildFacePoints face (Canvas.width (canvas st))
                  (Canvas.height (canvas st)) (enabledZones st) = Throw).
    { apply buildFacePoints_throws. exists region, idx. auto. }
    unfold checkFaceTouch.
    destruct (enabledZones st) as [|r rest] eqn:EZ; [destruct Hen|].
    rewrite B. reflexivity.
  - unfold checkFaceTouch.
    destruct (enabledZones st) as [|r rest] eqn:EZ; [discriminate|].
    rewrite <- EZ.
    destruct (buildFacePoints face _ _ (enabledZones st)) as [fp|] eqn:B;
      cbn [bindC].
    + destruct (scanHands st _ _ fp (hand :: hands)) as [[rg|]|] eqn:S;
        cbn [bindC]; [discriminate..|].
      intros _. right. apply scanHands_throws in S. exact S.
    + intros _. left. apply buildFacePoints_throws in B.
      destruct B as [region [idx [Hin [Hidx Hlen]]]].
      exists region, idx. split; [apply In_enabledZones, Hin|auto].
  - intros region idx Hin.
    pose proof (FACE_REGIONS_bound region) as F.
    rewrite Forall_forall in F. apply F, Hin.
Qed.

Lemma checkFaceTouch_throws_on_short_arrays_witness :
  (exists region idx,
      zoneEnabled (Settings.zones (settings initialState)) region = true
      /\ In idx (FACE_REGIONS region)
      /\ (List.length (repeat (landmarkAt 0.5 0.5 0) 466) <= idx)%nat)
  /\ checkFaceTouch initialState (Some (repeat (landmarkAt 0.5 0.5 0) 466))
                    [hand39] = Throw.
Proof.
  assert (H : exists region idx,
             zoneEnabled (Settings.zones (settings initialState)) region = true
             /\ In idx (FACE_REGIONS region)
             /\ (List.length (repeat (landmarkAt 0.5 0.5 0) 466) <= idx)%nat).
  { exists rightEye, 466%nat. split; [reflexivity|]. split.
    - cbn. tauto.
    - rewrite repeat_length. lia. }
  split; [exact H|].
  destruct (checkFaceTouch_throws_on_short_arrays initialState
              (repeat (landmarkAt 0.5 0.5 0) 466) hand39 []) as [Hthrow _].
  exact (Hthrow H).
Defined.

End ShortArrays.

(** ** The timer table and the two handles *)

Section TimersAgree.

Lemma NoDup_map_fst_filter {A B : Type} (f : A * B -> bool) (l : list (A * B)) :
  NoDup (map fst l) -> NoDup (map fst (filter f l)).
Proof.
  induction l as [|t rest IH]; cbn [map filter]; intros N; [constructor|].
  inversion N as [|? ? Hnotin Hrest]; subst.
  destruct (f t); cbn [map]; [|apply IH, Hrest].
  constructor; [|apply IH, Hrest].
  intros Hin. apply Hnotin.
  apply in_map_iff in Hin. destruct Hin as [t' [E Hin]].
  apply filter_In in Hin. apply in_map_iff. exists t'. tauto.
Qed.

Lemma NoDup_map_fst_same {A B : Type} (l : list (A * B)) (a : A) (b b' : B) :
  NoDup (map fst l) -> In (a, b) l -> In (a, b') l -> b = b'.
Proof.
  induction l as [|t rest IH]; cbn [map]; intros N H1 H2; [destruct H1|].
  inversion N as [|? ? Hnotin Hrest]; subst.
  destruct H1 as [->|H1], H2 as [E|H2].
  - congruence.
  - exfalso. apply Hnotin. apply in_map_iff. exists (a, b'). auto.
  - exfalso. subst t. apply Hnotin. apply in_map_iff. exists (a, b). auto.
  - apply IH; assumption.
Qed.

Lemma find_unique_id (l : list (handle * (IntervalCallback * float)))
      (id : handle) (entry : IntervalCallback * float) :
  NoDup (map fst l) -> In (id, entry) l ->
  find (fun t => Pos.eqb (fst t) id) l = Some (id, entry).
Proof.
  intros N Hin.
  destruct (find (fun t => Pos.eqb (fst t) id) l) as [[id' entry']|] eqn:F.
  - apply find_some in F. destruct F as [Hin' E]. cbn in E.
    apply Pos.eqb_eq in E. subst id'.
    rewrite (NoDup_map_fst_same l id entry entry' N Hin Hin'). reflexivity.
  - exfalso. apply (find_none _ _ F) in Hin. cbn in Hin.
    rewrite Pos.eqb_refl in Hin. discriminate Hin.
Qed.

Lemma timersAgree_same (rt rt' : Runtime) :
  intervals rt' = intervals rt -> nextHandle rt' = nextHandle rt ->
  (forall callback, held rt' callback = held rt callback) ->
  timersAgree rt -> timersAgree rt'.
Proof.
  unfold timersAgree. intros Ei En Eh [F [N [H L]]]. rewrite Ei, En.
  split; [exact F|]. split; [exact N|]. split.
  - intros t Hin. rewrite Eh. apply H, Hin.
  - intros cb id E. rewrite Eh in E. apply L, E.
Qed.

Lemma callback_cases (a b : IntervalCallback) : a = b \/ a <> b.
Proof. destruct a, b; auto; right; discriminate. Qed.

(** Clearing the held timer of one closure and forgetting its handle. *)
Lemma timersAgree_clear (rt : Runtime) (callback : IntervalCallback)
      (id : handle) (f : State -> State) :
  timersAgree rt -> held rt callback = Some id ->
  held (with_state f rt) callback = None ->
  (forall other, other <> callback ->
                 held (with_state f rt) other = held rt other) ->
  timersAgree (with_state f (clearInterval id rt)).
Proof.
  intros [F [N [H L]]] Eheld Enone Eother.
  unfold timersAgree.
  change (held (with_state f (clearInterval id rt)))
    with (held (with_state f rt)).
  change (intervals (with_state f (clearInterval id rt)))
    with (filter (fun t => negb (Pos.eqb (fst t) id)) (intervals rt)).
  change (nextHandle (with_state f (clearInterval id rt)))
    with (nextHandle rt).
  split; [|split; [|split]].
  - intros t Hin. apply filter_In in Hin. apply F, Hin.
  - apply NoDup_map_fst_filter, N.
  - intros t Hin. apply filter_In in Hin. destruct Hin as [Hin Hne].
    apply negb_true_iff, Pos.eqb_neq in Hne.
    destruct (callback_cases (fst (snd t)) callback) as [E|E].
    + exfalso. apply Hne. specialize (H t Hin). rewrite E, Eheld in H.
      injection H as H. symmetry. exact H.
    + rewrite (Eother _ E). apply H, Hin.
  - intros cb id' E.
    destruct (callback_cases cb callback) as [->|Hne]; [congruence|].
    rewrite (Eother _ Hne) in E.
    destruct (L cb id' E) as [d Hin]. exists d.
    apply filter_In. split; [exact Hin|]. cbn [fst].
    apply negb_true_iff, Pos.eqb_neq. intros ->.
    destruct (L callback id Eheld) as [d' Hin'].
    pose proof (NoDup_map_fst_same _ _ _ _ N Hin Hin') as C.
    congruence.
Qed.

(** Registering a timer for a closure that holds none. *)
Lemma timersAgree_register (rt : Runtime) (callback : IntervalCallback)
      (delay : float) (f : State -> State) :
  timersAgree rt -> held rt callback = None ->
  held (with_state f rt) callback = Some (nextHandle rt) ->
  (forall other, other <> callback ->
                 held (with_state f rt) other = held rt other) ->
  timersAgree (with_state f (snd (setInterval callback delay rt))).
Proof.
  intros [F [N [H L]]] Enone Esome Eother.
  unfold timersAgree.
  change (held (with_state f (snd (setInterval callback delay rt))))
    with (held (with_state f rt)).
  change (intervals (with_state f (snd (setInterval callback delay rt))))
    with (intervals rt ++ [(nextHandle rt, (callback, delay))]).
  change (nextHandle (with_state f (snd (setInterval callback delay rt))))
    with (Pos.succ (nextHandle rt)).
  split; [|split; [|split]].
  - intros t Hin. apply in_app_or in Hin. destruct Hin as [Hin|[<-|[]]].
    + specialize (F t Hin). lia.
    + cbn [fst]. lia.
  - rewrite map_app. cbn [map fst].
    apply NoDup_app; [exact N|repeat constructor; intros []|].
    intros id Hin [<-|[]].
    apply in_map_iff in Hin. destruct Hin as [t [E Hin]].
    specialize (F t Hin). rewrite E in F. lia.
  - intros t Hin. apply in_app_or in Hin. destruct Hin as [Hin|[<-|[]]].
    + destruct (callback_cases (fst (snd t)) callback) as [E|E].
      * specialize (H t Hin). rewrite E in H. congruence.
      * rewrite (Eother _ E). apply H, Hin.
    + exact Esome.
  - intros cb id E.
    destruct (callback_cases cb callback) as [->|Hne].
    + exists delay. apply in_or_app. right. left. congruence.
    + rewrite (Eother _ Hne) in E. destruct (L cb id E) as [d Hin].
      exists d. apply in_or_app. left. exact Hin.
Qed.

Lemma timersAgree_stopContinuousBeep (rt : Runtime) :
  timersAgree rt -> timersAgree (stopContinuousBeep rt).
Proof.
  intros T. unfold stopContinuousBeep.
  destruct (continuousBeepTimer (state rt)) as [id|] eqn:E; [|exact T].
  apply (timersAgree_clear rt continuousBeepCallback id); auto.
  intros [] Hne; [congruence|reflexivity].
Qed.

Lemma timersAgree_stopPostureContinuousAlert (rt : Runtime) :
  timersAgree rt -> timersAgree (stopPostureContinuousAlert rt).
Proof.
  intros T. unfold stopPostureContinuousAlert.
  destruct (postureBeepTimer (state rt)) as [id|] eqn:E; [|exact T].
  apply (timersAgree_clear rt postureBeepCallback id); auto.
  intros [] Hne; [reflexivity|congruence].
Qed.

Lemma stopContinuousBeep_cleared (rt : Runtime) :
  continuousBeepTimer (state (stopContinuousBeep rt)) = None.
Proof.
  unfold stopContinuousBeep.
  destruct (continuousBeepTimer (state rt)) eqn:E; [reflexivity|exact E].
Qed.

Lemma stopPostureContinuousAlert_cleared (rt : Runtime) :
  postureBeepTimer (state (stopPostureContinuousAlert rt)) = None.
Proof.
  unfold stopPostureContinuousAlert.
  destruct (postureBeepTimer (state rt)) eqn:E; [reflexivity|exact E].
Qed.

Lemma timersAgree_startContinuousBeep (rt : Runtime) :
  timersAgree rt -> timersAgree (startContinuousBeep rt).
Proof.
  intros T. apply timersAgree_stopContinuousBeep in T.
  pose proof (stopContinuousBeep_cleared rt) as E.
  unfold startContinuousBeep.
  apply (timersAgree_register (stopContinuousBeep rt) continuousBeepCallback);
    auto.
  intros [] Hne; [congruence|reflexivity].
Qed.

Lemma timersAgree_startPostureContinuousAlert (rt : Runtime) :
  timersAgree rt -> timersAgree (startPostureContinuousAlert rt).
Proof.
  intros T. apply timersAgree_stopPostureContinuousAlert in T.
  pose proof (stopPostureContinuousAlert_cleared rt) as E.
  unfold startPostureContinuousAlert.
  apply (timersAgree_register (stopPostureContinuousAlert rt)
                              postureBeepCallback); auto.
  intros [] Hne; [reflexivity|congruence].
Qed.

End TimersAgree.

(** ** What every reachable state satisfies *)

Section Consistency.
Local Open Scope string_scope.
Local Open Scope list_scope.

Lemma handleTouchState_cases (d v : bool) (now : Z) (rt : Runtime) :
  handleTouchState d v now rt
  = let rt1 := with_state (set_isTouching d)
                 (with_state (fun st => set_wasTouching (isTouching st) st) rt) in
    if d && negb (isTouching (state rt)) then
      startContinuousBeep (triggerAlert now rt1)
    else if negb d && isTouching (state rt) then stopContinuousBeep rt1
    else rt1.
Proof. reflexivity. Qed.

Lemma handlePostureState_cases (d : bool) (now : Z) (rt : Runtime) :
  handlePostureState d now rt
  = let rt1 := with_state (set_isBadPosture d)
                 (with_state (fun st => set_wasBadPosture (isBadPosture st) st)
                             rt) in
    if d && negb (isBadPosture (state rt)) then
      startPostureContinuousAlert (triggerPostureAlert now rt1)
    else if negb d && isBadPosture (state rt) then
      stopPostureContinuousAlert rt1
    else rt1.
Proof. reflexivity. Qed.

(** What the two handlers leave alone, and what they append. *)
Lemma handleTouchState_frame (d v : bool) (now : Z) (rt : Runtime) :
  let rt' := handleTouchState d v now rt in
  isTouching (state rt') = d
  /\ isBadPosture (state rt') = isBadPosture (state rt)
  /\ postureBeepTimer (state rt') = postureBeepTimer (state rt)
  /\ lastTouchedZone (state rt') = lastTouchedZone (state rt)
  /\ currentPostureIssue (state rt') = currentPostureIssue (state rt)
  /\ settings (state rt') = settings (state rt)
  /\ isRunning (state rt') = isRunning (state rt)
  /\ postureAlertCount (state rt') = postureAlertCount (state rt)
  /\ (continuousBeepTimer (state rt) = None -> d = false ->
      continuousBeepTimer (state rt') = None)
  /\ (d = false -> isTouching (state rt) = true ->
      continuousBeepTimer (state rt') = None)
  /\ alerts rt'
     = alerts rt
       ++ (if d && negb (isTouching (state rt))
           then [TouchAlert (zoneNameOf (state rt))
                            (touchCount (state rt) + 1) now]
           else [])
  /\ touchCount (state rt')
     = (touchCount (state rt)
        + (if d && negb (isTouching (state rt)) then 1 else 0))%Z.
Proof.
  open_runtime rt. unfold handleTouchState, startContinuousBeep,
    stopContinuousBeep. cbn.
  destruct d, isTouching0, continuousBeepTimer0; cbn;
    repeat split; intros; try congruence; try rewrite app_nil_r;
    try reflexivity; lia.
Qed.

Lemma handlePostureState_frame (d : bool) (now : Z) (rt : Runtime) :
  let rt' := handlePostureState d now rt in
  isBadPosture (state rt') = d
  /\ isTouching (state rt') = isTouching (state rt)
  /\ continuousBeepTimer (state rt') = continuousBeepTimer (state rt)
  /\ lastTouchedZone (state rt') = lastTouchedZone (state rt)
  /\ currentPostureIssue (state rt') = currentPostureIssue (state rt)
  /\ settings (state rt') = settings (state rt)
  /\ isRunning (state rt') = isRunning (state rt)
  /\ touchCount (state rt') = touchCount (state rt)
  /\ (postureBeepTimer (state rt) = None -> d = false ->
      postureBeepTimer (state rt') = None)
  /\ (d = false -> isBadPosture (state rt) = true ->
      postureBeepTimer (state rt') = None)
  /\ alerts rt'
     = alerts rt
       ++ (if d && negb (isBadPosture (state rt))
           then [PostureAlert (issueOf (state rt))
                              (postureAlertCount (state rt) + 1) now]
           else [])
  /\ postureAlertCount (state rt')
     = (postureAlertCount (state rt)
        + (if d && negb (isBadPosture (state rt)) then 1 else 0))%Z.
Proof.
  open_runtime rt. unfold handlePostureState, startPostureContinuousAlert,
    stopPostureContinuousAlert. cbn.
  destruct d, isBadPosture0, postureBeepTimer0; cbn;
    repeat split; intros; try congruence; try rewrite app_nil_r;
    try reflexivity; lia.
Qed.

Lemma timersAgree_handleTouchState (d v : bool) (now : Z) (rt : Runtime) :
  timersAgree rt -> timersAgree (handleTouchState d v now rt).
Proof.
  intros T. rewrite handleTouchState_cases. cbv zeta.
  assert (T1 : timersAgree
                 (with_state (set_isTouching d)
                    (with_state (fun st => set_wasTouching (isTouching st) st)
                                rt)))
    by (apply (timersAgree_same rt); auto; intros []; reflexivity).
  destruct (d && negb (isTouching (state rt))).
  - apply timersAgree_startContinuousBeep.
    eapply timersAgree_same; [| | |exact T1]; auto; intros []; reflexivity.
  - destruct (negb d && isTouching (state rt)); [|exact T1].
    apply timersAgree_stopContinuousBeep, T1.
Qed.

Lemma timersAgree_handlePostureState (d : bool) (now : Z) (rt : Runtime) :
  timersAgree rt -> timersAgree (handlePostureState d now rt).
Proof.
  intros T. rewrite handlePostureState_cases. cbv zeta.
  assert (T1 : timersAgree
                 (with_state (set_isBadPosture d)
                    (with_state
                       (fun st => set_wasBadPosture (isBadPosture st) st) rt)))
    by (apply (timersAgree_same rt); auto; intros []; reflexivity).
  destruct (d && negb (isBadPosture (state rt))).
  - apply timersAgree_startPostureContinuousAlert.
    eapply timersAgree_same; [| | |exact T1]; auto; intros []; reflexivity.
  - destruct (negb d && isBadPosture (state rt)); [|exact T1].
    apply timersAgree_stopPostureContinuousAlert, T1.
Qed.

Lemma displayName_not_fallback (region : zone) :
  getZoneDisplayName region <> "Face".
Proof. destruct region; discriminate. Qed.

Lemma issueText_not_fallback : ~ In "Poor posture" allIssueTexts.
Proof.
  vm_compute. intros H.
  repeat (destruct H as [H|H]; [discriminate H|]). exact H.
Qed.

Lemma issueOf_recorded (st : State) (issue : string) :
  currentPostureIssue st = Some issue -> In issue allIssueTexts ->
  issueOf st = issue.
Proof.
  intros E H. unfold issueOf. rewrite E.
  destruct issue; [|reflexivity].
  exfalso. vm_compute in H.
  repeat (destruct H as [H|H]; [discriminate H|]). exact H.
Qed.

Lemma consistent_same (rt rt' : Runtime) :
  intervals rt' = intervals rt -> nextHandle rt' = nextHandle rt ->
  alerts rt' = alerts rt ->
  continuousBeepTimer (state rt') = continuousBeepTimer (state rt) ->
  postureBeepTimer (state rt') = postureBeepTimer (state rt) ->
  isTouching (state rt') = isTouching (state rt) ->
  isBadPosture (state rt') = isBadPosture (state rt) ->
  lastTouchedZone (state rt') = lastTouchedZone (state rt) ->
  currentPostureIssue (state rt') = currentPostureIssue (state rt) ->
  consistent rt -> consistent rt'.
Proof.
  intros Ei En Ea Et Ep Eit Eib Ez Ec [T [A [B [C [D F]]]]].
  unfold consistent. rewrite Ea, Et, Ep, Eit, Eib, Ez, Ec.
  split; [|tauto].
  apply (timersAgree_same rt); auto. intros []; assumption.
Qed.

Lemma consistent_startup (rt : Runtime) : startup rt -> consistent rt.
Proof.
  intros [Ei [Ea [Et [Ep [Eit [Eib [Ez Ec]]]]]]].
  unfold consistent, timersAgree. rewrite Ei, Ea, Et, Ep, Eit, Eib, Ez.
  repeat split; try (intros; congruence); try constructor.
  - intros t [].
  - intros t [].
  - intros [] id E; cbn in E; congruence.
Qed.

(** One frame's touch part: the zone found is recorded, then handled. *)
Lemma consistent_touch_frame (rt : Runtime) (found : option zone)
      (v : bool) (now : Z) :
  consistent rt ->
  consistent (handleTouchState (isSome found) v now
                (with_state (set_lastTouchedZone found) rt)).
Proof.
  intros [T [A [B [C [D F]]]]].
  set (rt0 := with_state (set_lastTouchedZone found) rt).
  assert (T0 : timersAgree rt0)
    by (apply (timersAgree_same rt); auto; intros []; reflexivity).
  pose proof (timersAgree_handleTouchState (isSome found) v now rt0 T0) as T'.
  destruct (handleTouchState_frame (isSome found) v now rt0)
    as [E1 [E2 [E3 [E4 [E5 [_ [_ [_ [N1 [N2 [Ealerts _]]]]]]]]]]].
  change (isBadPosture (state rt0)) with (isBadPosture (state rt)) in E2.
  change (postureBeepTimer (state rt0)) with (postureBeepTimer (state rt)) in E3.
  change (lastTouchedZone (state rt0)) with found in E4.
  change (currentPostureIssue (state rt0))
    with (currentPostureIssue (state rt)) in E5.
  change (continuousBeepTimer (state rt0))
    with (continuousBeepTimer (state rt)) in N1.
  change (isTouching (state rt0)) with (isTouching (state rt)) in N2, Ealerts.
  change (alerts rt0) with (alerts rt) in Ealerts.
  change (zoneNameOf (state rt0))
    with (match found with
          | Some region => getZoneDisplayName region
          | None => "Face"
          end) in Ealerts.
  unfold consistent. rewrite E1, E2, E3, E4, E5, Ealerts.
  split; [exact T'|]. split; [|split; [exact B|split; [reflexivity|split;
    [exact D|]]]].
  - intros Hheld. destruct found as [region|]; [reflexivity|]. exfalso.
    apply Hheld. cbn [isSome] in N1, N2.
    destruct (isTouching (state rt)) eqn:It; [apply N2; reflexivity|].
    apply N1; [|reflexivity].
    destruct (continuousBeepTimer (state rt)) eqn:Ht; [|reflexivity].
    assert (X : true = false) by (rewrite <- A; [reflexivity|discriminate]).
    discriminate X.
  - apply Forall_app. split; [exact F|].
    destruct (isSome found && negb (isTouching (state rt))) eqn:G;
      [|constructor].
    destruct found as [region|]; [|discriminate G].
    constructor; [|constructor]. cbn. exists region. reflexivity.
Qed.

(** One frame's posture part. *)
Lemma consistent_posture_frame (rt : Runtime) (recorded : option string)
      (now : Z) :
  (forall issue, recorded = Some issue -> In issue allIssueTexts) ->
  consistent rt ->
  consistent (handlePostureState (isSome recorded) now
                (with_state (set_currentPostureIssue recorded) rt)).
Proof.
  intros R [T [A [B [C [D F]]]]].
  set (rt0 := with_state (set_currentPostureIssue recorded) rt).
  assert (T0 : timersAgree rt0)
    by (apply (timersAgree_same rt); auto; intros []; reflexivity).
  pose proof (timersAgree_handlePostureState (isSome recorded) now rt0 T0)
    as T'.
  destruct (handlePostureState_frame (isSome recorded) now rt0)
    as [E1 [E2 [E3 [E4 [E5 [_ [_ [_ [N1 [N2 [Ealerts _]]]]]]]]]]].
  change (isTouching (state rt0)) with (isTouching (state rt)) in E2.
  change (continuousBeepTimer (state rt0))
    with (continuousBeepTimer (state rt)) in E3.
  change (lastTouchedZone (state rt0)) with (lastTouchedZone (state rt)) in E4.
  change (currentPostureIssue (state rt0)) with recorded in E5.
  change (postureBeepTimer (state rt0))
    with (postureBeepTimer (state rt)) in N1.
  change (isBadPosture (state rt0)) with (isBadPosture (state rt))
    in N2, Ealerts.
  change (alerts rt0) with (alerts rt) in Ealerts.
  unfold consistent. rewrite E1, E2, E3, E4, E5, Ealerts.
  split; [exact T'|]. split; [exact A|]. split; [|split; [exact C|split]].
  - intros Hheld. destruct recorded as [issue|]; [reflexivity|]. exfalso.
    apply Hheld. cbn [isSome] in N1, N2.
    destruct (isBadPosture (state rt)) eqn:It; [apply N2; reflexivity|].
    apply N1; [|reflexivity].
    destruct (postureBeepTimer (state rt)) eqn:Ht; [|reflexivity].
    assert (X : true = false) by (rewrite <- B; [reflexivity|discriminate]).
    discriminate X.
  - intros G. destruct recorded as [issue|]; [|discriminate G].
    exists issue. split; [reflexivity|apply R; reflexivity].
  - apply Forall_app. split; [exact F|].
    destruct (isSome recorded && negb (isBadPosture (state rt))) eqn:G;
      [|constructor].
    destruct recorded as [issue|]; [|discriminate G].
    constructor; [|constructor]. cbn [namesItsCause].
    rewrite (issueOf_recorded (state rt0) issue eq_refl (R issue eq_refl)).
    apply R. reflexivity.
Qed.

End Consistency.

Section Reachability.
Local Open Scope string_scope.
Local Open Scope list_scope.

Variable atan2 : float -> float -> float.

Lemma liveInterval_held (rt : Runtime) (id : handle)
      (callback : IntervalCallback) :
  timersAgree rt -> liveInterval id rt = Some callback ->
  held rt callback = Some id.
Proof.
  intros [_ [_ [H _]]]. unfold liveInterval.
  destruct (find (fun t => Pos.eqb (fst t) id) (intervals rt))
    as [[id' [cb d]]|] eqn:F; [|discriminate].
  intros [= <-]. apply find_some in F. destruct F as [Hin E].
  cbn in E. apply Pos.eqb_eq in E. subst id'.
  exact (H _ Hin).
Qed.

Lemma held_liveInterval (rt : Runtime) (id : handle)
      (callback : IntervalCallback) :
  timersAgree rt -> held rt callback = Some id ->
  liveInterval id rt = Some callback.
Proof.
  intros [_ [N [_ L]]] E. destruct (L callback id E) as [d Hin].
  unfold liveInterval. rewrite (find_unique_id _ id (callback, d) N Hin).
  reflexivity.
Qed.

Lemma consistent_emit (rt : Runtime) (a : Alert) :
  consistent rt -> namesItsCause a -> consistent (emit a rt).
Proof.
  intros [T [A [B [C [D F]]]]] Ha. unfold consistent.
  split; [apply (timersAgree_same rt); auto; intros []; reflexivity|].
  split; [exact A|]. split; [exact B|]. split; [exact C|].
  split; [exact D|].
  cbn [emit alerts]. apply Forall_app. split; [exact F|].
  constructor; [exact Ha|constructor].
Qed.

(** In a consistent state a firing timer finds its flag set. *)
Lemma intervalTick_consistent_form (rt : Runtime) (id : handle) :
  consistent rt ->
  intervalTick id rt
  = match liveInterval id rt with
    | Some continuousBeepCallback =>
        emit (ContinuousAlert (zoneNameOf (state rt))) rt
    | Some postureBeepCallback =>
        emit (PostureContinuousAlert (issueOf (state rt))) rt
    | None => rt
    end.
Proof.
  intros [T [A [B _]]]. unfold intervalTick.
  destruct (liveInterval id rt) as [[]|] eqn:L; [| |reflexivity];
    apply (liveInterval_held rt id _ T) in L; cbn [held] in L;
    cbn [runCallback].
  - rewrite A by congruence. reflexivity.
  - rewrite B by congruence. reflexivity.
Qed.

Lemma consistent_intervalTick (rt : Runtime) (id : handle) :
  consistent rt -> consistent (intervalTick id rt).
Proof.
  intros K. rewrite (intervalTick_consistent_form rt id K).
  pose proof K as [T [A [B [C [D F]]]]].
  destruct (liveInterval id rt) as [[]|] eqn:L; [| |exact K];
    apply (liveInterval_held rt id _ T) in L; cbn [held] in L;
    apply consistent_emit; try exact K; cbn [namesItsCause].
  - unfold zoneNameOf.
    rewrite A in C by congruence.
    destruct (lastTouchedZone (state rt)) as [region|]; [|discriminate C].
    exists region. reflexivity.
  - destruct D as [issue [E Hin]]; [apply B; congruence|].
    rewrite (issueOf_recorded _ _ E Hin). exact Hin.
Qed.

Lemma stopMonitoring_frame (rt : Runtime) :
  let rt' := stopMonitoring rt in
  continuousBeepTimer (state rt') = None
  /\ postureBeepTimer (state rt') = None
  /\ isTouching (state rt') = isTouching (state rt)
  /\ isBadPosture (state rt') = false
  /\ lastTouchedZone (state rt') = lastTouchedZone (state rt)
  /\ alerts rt' = alerts rt
  /\ isRunning (state rt') = false
  /\ touchCount (state rt') = touchCount (state rt)
  /\ postureAlertCount (state rt') = postureAlertCount (state rt).
Proof.
  open_runtime rt. unfold stopMonitoring, stopContinuousBeep. cbn.
  destruct continuousBeepTimer0; cbn; unfold stopPostureContinuousAlert; cbn;
    destruct postureBeepTimer0; cbn; repeat split.
Qed.

Lemma timersAgree_stopMonitoring (rt : Runtime) :
  timersAgree rt -> timersAgree (stopMonitoring rt).
Proof.
  intros T. unfold stopMonitoring.
  eapply timersAgree_same;
    [| | |apply timersAgree_stopPostureContinuousAlert,
          timersAgree_stopContinuousBeep,
          (timersAgree_same rt (with_state (set_isRunning false) rt));
          [| | |exact T]]; auto; intros []; reflexivity.
Qed.

Lemma consistent_stopMonitoring (rt : Runtime) :
  consistent rt -> consistent (stopMonitoring rt).
Proof.
  intros [T [A [B [C [D F]]]]].
  destruct (stopMonitoring_frame rt) as [E1 [E2 [E3 [E4 [E5 [E6 _]]]]]].
  unfold consistent. rewrite E1, E2, E3, E4, E5, E6.
  split; [apply timersAgree_stopMonitoring, T|].
  repeat split; try assumption; intros; congruence.
Qed.

Lemma postureToggleChange_frame (checked : bool) (rt : Runtime) :
  let rt' := postureToggleChange checked rt in
  continuousBeepTimer (state rt') = continuousBeepTimer (state rt)
  /\ isTouching (state rt') = isTouching (state rt)
  /\ lastTouchedZone (state rt') = lastTouchedZone (state rt)
  /\ currentPostureIssue (state rt') = currentPostureIssue (state rt)
  /\ alerts rt' = alerts rt
  /\ touchCount (state rt') = touchCount (state rt)
  /\ postureAlertCount (state rt') = postureAlertCount (state rt)
  /\ (checked = false ->
      postureBeepTimer (state rt') = None
      /\ isBadPosture (state rt') = false)
  /\ (checked = true ->
      postureBeepTimer (state rt') = postureBeepTimer (state rt)
      /\ isBadPosture (state rt') = isBadPosture (state rt)
      /\ intervals rt' = intervals rt /\ nextHandle rt' = nextHandle rt).
Proof.
  open_runtime rt. unfold postureToggleChange, stopPostureContinuousAlert.
  destruct checked; cbn; [repeat split; intros; congruence|].
  destruct postureBeepTimer0; cbn; repeat split; intros; congruence.
Qed.

Lemma timersAgree_postureToggleChange (checked : bool) (rt : Runtime) :
  timersAgree rt -> timersAgree (postureToggleChange checked rt).
Proof.
  intros T. unfold postureToggleChange.
  set (rt1 := with_state _ rt).
  assert (T1 : timersAgree rt1)
    by (apply (timersAgree_same rt); auto; intros []; reflexivity).
  destruct checked; [exact T1|].
  eapply timersAgree_same;
    [| | |apply timersAgree_stopPostureContinuousAlert, T1];
    auto; intros []; reflexivity.
Qed.

Lemma consistent_postureToggleChange (checked : bool) (rt : Runtime) :
  consistent rt -> consistent (postureToggleChange checked rt).
Proof.
  intros [T [A [B [C [D F]]]]].
  destruct (postureToggleChange_frame checked rt)
    as [E1 [E2 [E3 [E4 [E5 [_ [_ [Hoff Hon]]]]]]]].
  unfold consistent. rewrite E1, E2, E3, E4, E5.
  split; [apply timersAgree_postureToggleChange, T|].
  split; [exact A|]. split; [|split; [exact C|split; [|exact F]]].
  - destruct checked.
    + destruct (Hon eq_refl) as [-> [-> _]]. exact B.
    + destruct (Hoff eq_refl) as [-> _]. congruence.
  - destruct checked.
    + destruct (Hon eq_refl) as [_ [-> _]]. exact D.
    + destruct (Hoff eq_refl) as [_ ->]. discriminate.
Qed.

Lemma consistent_detectFrame
      (face : option (list Landmark.t)) (hands : list (list Landmark.t))
      (lateralReady : bool) (pose : option (list Landmark.t)) (now later : Z)
      (rt : Runtime) :
  consistent rt ->
  consistent (snd (detectFrame atan2 face hands lateralReady pose now later rt)).
Proof.
  intros K. unfold detectFrame.
  destruct (negb (isRunning (state rt))); [exact K|].
  destruct (checkFaceTouch (state rt) face hands) as [[st b]|] eqn:CF;
    [|exact K].
  apply checkFaceTouch_normal in CF. destruct CF as [found [-> [-> _]]].
  pose proof (consistent_touch_frame rt found (isSome face) now K) as K1.
  change (with_state (fun _ => set_lastTouchedZone found (state rt)) rt)
    with (with_state (set_lastTouchedZone found) rt).
  set (rt1 := handleTouchState (isSome found) (isSome face) now
                (with_state (set_lastTouchedZone found) rt)) in *.
  destruct (Posture.enabled (Settings.posture (settings (state rt1)))
            && lateralReady); [|exact K1].
  destruct (checkPosture atan2 (state rt1) pose) as [[st b]|] eqn:CP;
    [|exact K1].
  apply checkPosture_normal in CP. destruct CP as [recorded [-> [-> R]]].
  cbn [snd].
  change (with_state (fun _ => set_currentPostureIssue recorded (state rt1)) rt1)
    with (with_state (set_currentPostureIssue recorded) rt1).
  apply consistent_posture_frame; assumption.
Qed.

Lemma consistent_perform (rt : Runtime) (a : Action) :
  consistent rt -> consistent (perform atan2 rt a).
Proof.
  intros K. destruct a; cbn [perform].
  - apply consistent_detectFrame, K.
  - apply consistent_intervalTick, K.
  - apply consistent_stopMonitoring, K.
  - apply (consistent_same rt); auto.
  - apply (consistent_same rt); auto.
  - apply consistent_postureToggleChange, K.
  - apply (consistent_same rt); auto.
  - apply (consistent_same rt); auto.
  - apply (consistent_same rt); auto.
  - apply (consistent_same rt); auto.
  - apply (consistent_same rt); auto.
  - apply (consistent_same rt); auto.
  - apply (consistent_same rt); auto.
Qed.

Lemma reachable_consistent (rt : Runtime) :
  reachable atan2 rt -> consistent rt.
Proof.
  induction 1 as [rt S|rt a _ IH].
  - apply consistent_startup, S.
  - apply consistent_perform, IH.
Qed.

End Reachability.

(** ** The page in use *)

Section PageInvariants.
Local Open Scope string_scope.
Local Open Scope list_scope.

Variable atan2 : float -> float -> float.

Lemma reachable_performAll (rt : Runtime) (actions : list Action) :
  reachable atan2 rt -> reachable atan2 (performAll atan2 rt actions).
Proof.
  revert rt. induction actions as [|a rest IH]; intros rt R; [exact R|].
  apply IH. apply reachable_perform, R.
Qed.

Lemma at_most_two_timers (rt : Runtime) :
  timersAgree rt -> (List.length (intervals rt) <= 2)%nat.
Proof.
  intros [_ [N [H _]]].
  destruct (intervals rt) as [|t1 [|t2 [|t3 rest]]]; cbn [List.length];
    try lia.
  exfalso.
  pose proof (H t1 (or_introl eq_refl)) as H1.
  pose proof (H t2 (or_intror (or_introl eq_refl))) as H2.
  pose proof (H t3 (or_intror (or_intror (or_introl eq_refl)))) as H3.
  cbn [map] in N.
  inversion N as [|? ? N1 N']; subst.
  inversion N' as [|? ? N2 _]; subst.
  cbn [In] in N1, N2.
  destruct (fst (snd t1)), (fst (snd t2)), (fst (snd t3));
    cbn [held] in H1, H2, H3;
    first [ apply N1; left; congruence
          | apply N1; right; left; congruence
          | apply N2; left; congruence ].
Qed.

(** X6: in every state the page can reach, the interval timers registered
    with the host are exactly the ones whose handles the state holds: a
    timer is live for a closure if and only if its handle is the one
    stored for that behaviour, no handle is registered twice, and there
    are never more than two timers.  A held touch timer means
    [isTouching] is set, a held posture timer means [isBadPosture] is. *)
Theorem reachable_timers_never_leak (rt : Runtime) :
  reachable atan2 rt ->
  (forall id callback,
      liveInterval id rt = Some callback <-> held rt callback = Some id)
  /\ NoDup (map fst (intervals rt))
  /\ (List.length (intervals rt) <= 2)%nat
  /\ (continuousBeepTimer (state rt) <> None -> isTouching (state rt) = true)
  /\ (postureBeepTimer (state rt) <> None -> isBadPosture (state rt) = true).
Proof.
  intros R. apply reachable_consistent in R.
  destruct R as [T [A [B _]]].
  split; [|split; [|split; [|split]]].
  - intros id cb. split;
      [apply liveInterval_held, T|apply held_liveInterval, T].
  - apply T.
  - apply at_most_two_timers, T.
  - exact A.
  - exact B.
Qed.

(** X7: in every reachable state a firing repeat timer finds its
    detection flag set: the tick appends one continuous alert and changes
    neither the state nor the timer table, and the branch in which the
    timer cancels itself is never taken.  A handle that is not live
    changes nothing. *)
Theorem reachable_tick_always_alerts (rt : Runtime) (id : handle) :
  reachable atan2 rt ->
  state (intervalTick id rt) = state rt
  /\ intervals (intervalTick id rt) = intervals rt
  /\ alerts (intervalTick id rt)
     = alerts rt
       ++ match liveInterval id rt with
          | Some continuousBeepCallback =>
              [ContinuousAlert (zoneNameOf (state rt))]
          | Some postureBeepCallback =>
              [PostureContinuousAlert (issueOf (state rt))]
          | None => []
          end.
Proof.
  intros R. apply reachable_consistent in R.
  rewrite (intervalTick_consistent_form rt id R).
  destruct (liveInterval id rt) as [[]|]; cbn;
    repeat split; rewrite ?app_nil_r; reflexivity.
Qed.

(** X8: every alert the page raises names its cause.  A touch alert,
    first or repeated, carries the display name of a zone, never the
    fallback "Face"; a posture alert carries a text joined from the four
    issue labels, never the fallback "Poor posture". *)
Theorem reachable_alerts_name_their_cause (rt : Runtime) :
  reachable atan2 rt ->
  Forall namesItsCause (alerts rt)
  /\ (forall count time, ~ In (TouchAlert "Face" count time) (alerts rt))
  /\ ~ In (ContinuousAlert "Face") (alerts rt)
  /\ (forall count time,
        ~ In (PostureAlert "Poor posture" count time) (alerts rt))
  /\ ~ In (PostureContinuousAlert "Poor posture") (alerts rt).
Proof.
  intros R. apply reachable_consistent in R.
  destruct R as [_ [_ [_ [_ [_ F]]]]].
  split; [exact F|]. rewrite Forall_forall in F.
  repeat split; intros; intros Hin; apply F in Hin; cbn in Hin.
  - destruct Hin as [region E]. symmetry in E.
    exact (displayName_not_fallback region E).
  - destruct Hin as [region E]. symmetry in E.
    exact (displayName_not_fallback region E).
  - exact (issueText_not_fallback Hin).
  - exact (issueText_not_fallback Hin).
Qed.

(** X9: after [stopMonitoring], in any reachable state, no interval timer
    is left, so no timer firing raises an alert or changes anything, and
    a frame callback that still runs returns at once: nothing happens
    until monitoring is started again. *)
Theorem reachable_stop_silences (rt : Runtime) :
  reachable atan2 rt ->
  let rt' := stopMonitoring rt in
  intervals rt' = []
  /\ (forall id, intervalTick id rt' = rt')
  /\ (forall face hands lateralReady pose now later,
        detectFrame atan2 face hands lateralReady pose now later rt'
        = (notRunning, rt')).
Proof.
  intros R rt'. apply reachable_consistent in R.
  apply consistent_stopMonitoring in R. fold rt' in R.
  destruct (stopMonitoring_frame rt) as [E1 [E2 [_ [_ [_ [_ [E7 _]]]]]]].
  fold rt' in E1, E2, E7.
  assert (Ei : intervals rt' = []).
  { destruct R as [[_ [_ [H _]]] _].
    destruct (intervals rt') as [|t rest]; [reflexivity|]. exfalso.
    specialize (H t (or_introl eq_refl)).
    destruct (fst (snd t)); cbn [held] in H; congruence. }
  split; [exact Ei|]. split.
  - intros id. unfold intervalTick, liveInterval. rewrite Ei. reflexivity.
  - intros. unfold detectFrame. rewrite E7. reflexivity.
Qed.

End PageInvariants.

Section PageInvariantWitnesses.
Local Open Scope string_scope.
Local Open Scope list_scope.

Lemma initialRuntime_startup : startup initialRuntime.
Proof. repeat split. Qed.

Lemma afterTouch_reachable : reachable atan2_axes afterTouch.
Proof.
  apply reachable_performAll, reachable_startup, initialRuntime_startup.
Qed.

Lemma afterSession_reachable : reachable atan2_axes afterSession.
Proof.
  apply reachable_performAll, reachable_startup, initialRuntime_startup.
Qed.

Lemma reachable_timers_never_leak_witness :
  reachable atan2_axes afterTouch
  /\ continuousBeepTimer (state afterTouch) = Some 1%positive
  /\ liveInterval 1%positive afterTouch = Some continuousBeepCallback.
Proof.
  split; [exact afterTouch_reachable|].
  assert (E : continuousBeepTimer (state afterTouch) = Some 1%positive)
    by (vm_compute; reflexivity).
  split; [exact E|].
  destruct (reachable_timers_never_leak atan2_axes afterTouch
              afterTouch_reachable) as [H _].
  apply H. exact E.
Defined.

Lemma reachable_tick_always_alerts_witness :
  reachable atan2_axes afterTouch
  /\ alerts (intervalTick 1%positive afterTouch)
     = alerts afterTouch ++ [ContinuousAlert "Mouth"].
Proof.
  split; [exact afterTouch_reachable|].
  destruct (reachable_tick_always_alerts atan2_axes afterTouch 1%positive
              afterTouch_reachable) as [_ [_ H]].
  rewrite H. vm_compute. reflexivity.
Defined.

Lemma reachable_alerts_name_their_cause_witness :
  reachable atan2_axes afterSession
  /\ alerts afterSession
     = [TouchAlert "Mouth" 1%Z 1000%Z; ContinuousAlert "Mouth"]
  /\ Forall namesItsCause (alerts afterSession).
Proof.
  split; [exact afterSession_reachable|].
  split; [vm_compute; reflexivity|].
  exact (proj1 (reachable_alerts_name_their_cause atan2_axes afterSession
                  afterSession_reachable)).
Defined.

Lemma reachable_stop_silences_witness :
  reachable atan2_axes afterTouch
  /\ intervals afterTouch <> []
  /\ intervals (stopMonitoring afterTouch) = [].
Proof.
  split; [exact afterTouch_reachable|].
  split; [vm_compute; discriminate|].
  exact (proj1 (reachable_stop_silences atan2_axes afterTouch
                  afterTouch_reachable)).
Defined.

End PageInvariantWitnesses.

(** ** Counters and onset alerts *)

Section Counters.
Local Open Scope list_scope.

Variable atan2 : float -> float -> float.

Lemma countsOnsets_refl (rt rt' : Runtime) :
  alerts rt' = alerts rt ->
  touchCount (state rt') = touchCount (state rt) ->
  postureAlertCount (state rt') = postureAlertCount (state rt) ->
  countsOnsets rt rt'.
Proof.
  intros Ea Et Ep. exists []. rewrite Ea, Et, Ep, app_nil_r. cbn.
  repeat split; lia.
Qed.

Lemma countsOnsets_trans (a b c : Runtime) :
  countsOnsets a b -> countsOnsets b c -> countsOnsets a c.
Proof.
  intros [n1 [A1 [T1 P1]]] [n2 [A2 [T2 P2]]]. exists (n1 ++ n2).
  rewrite A2, A1, T2, T1, P2, P1, !filter_app, !length_app, app_assoc.
  repeat split; lia.
Qed.

Lemma countsOnsets_handleTouchState (d v : bool) (now : Z) (rt : Runtime) :
  countsOnsets rt (handleTouchState d v now rt).
Proof.
  destruct (handleTouchState_frame d v now rt)
    as [_ [_ [_ [_ [_ [_ [_ [Ep [_ [_ [Ea Et]]]]]]]]]]].
  eexists. split; [exact Ea|]. rewrite Et, Ep.
  destruct (d && negb (isTouching (state rt))); cbn; split; lia.
Qed.

Lemma countsOnsets_handlePostureState (d : bool) (now : Z) (rt : Runtime) :
  countsOnsets rt (handlePostureState d now rt).
Proof.
  destruct (handlePostureState_frame d now rt)
    as [_ [_ [_ [_ [_ [_ [_ [Et [_ [_ [Ea Ep]]]]]]]]]]].
  eexists. split; [exact Ea|]. rewrite Et, Ep.
  destruct (d && negb (isBadPosture (state rt))); cbn; split; lia.
Qed.

Lemma countsOnsets_intervalTick (id : handle) (rt : Runtime) :
  countsOnsets rt (intervalTick id rt).
Proof.
  unfold intervalTick.
  destruct (liveInterval id rt) as [[]|];
    [| |apply countsOnsets_refl; reflexivity]; cbn [runCallback].
  - destruct (isTouching (state rt)).
    + exists [ContinuousAlert (zoneNameOf (state rt))]. cbn.
      repeat split; lia.
    + unfold stopContinuousBeep.
      destruct (continuousBeepTimer (state rt));
        apply countsOnsets_refl; reflexivity.
  - destruct (isBadPosture (state rt)).
    + exists [PostureContinuousAlert (issueOf (state rt))]. cbn.
      repeat split; lia.
    + unfold stopPostureContinuousAlert.
      destruct (postureBeepTimer (state rt));
        apply countsOnsets_refl; reflexivity.
Qed.

Lemma countsOnsets_detectFrame
      (face : option (list Landmark.t)) (hands : list (list Landmark.t))
      (lateralReady : bool) (pose : option (list Landmark.t)) (now later : Z)
      (rt : Runtime) :
  countsOnsets rt
    (snd (detectFrame atan2 face hands lateralReady pose now later rt)).
Proof.
  unfold detectFrame.
  destruct (negb (isRunning (state rt)));
    [apply countsOnsets_refl; reflexivity|].
  destruct (checkFaceTouch (state rt) face hands) as [[st b]|] eqn:CF;
    [|apply countsOnsets_refl; reflexivity].
  apply checkFaceTouch_normal in CF. destruct CF as [found [-> [-> _]]].
  set (rt0 := with_state (fun _ => set_lastTouchedZone found (state rt)) rt).
  assert (S1 : countsOnsets rt
                 (handleTouchState (isSome found) (isSome face) now rt0)).
  { apply (countsOnsets_trans rt rt0);
      [apply countsOnsets_refl; reflexivity|].
    apply countsOnsets_handleTouchState. }
  set (rt1 := handleTouchState (isSome found) (isSome face) now rt0) in *.
  destruct (Posture.enabled (Settings.posture (settings (state rt1)))
            && lateralReady); [|exact S1].
  destruct (checkPosture atan2 (state rt1) pose) as [[st b]|] eqn:CP;
    [|exact S1].
  apply checkPosture_normal in CP. destruct CP as [recorded [-> [-> _]]].
  cbn [snd].
  apply (countsOnsets_trans rt rt1); [exact S1|].
  set (rt2 := with_state _ rt1).
  apply (countsOnsets_trans rt1 rt2);
    [apply countsOnsets_refl; reflexivity|].
  apply countsOnsets_handlePostureState.
Qed.

Lemma countsOnsets_perform (rt : Runtime) (a : Action) :
  keepsCounters a = true -> countsOnsets rt (perform atan2 rt a).
Proof.
  destruct a; cbn [keepsCounters perform]; intros K; try discriminate K.
  - apply countsOnsets_detectFrame.
  - apply countsOnsets_intervalTick.
  - destruct (stopMonitoring_frame rt) as [_ [_ [_ [_ [_ [Ea [_ [Et Ep]]]]]]]].
    apply countsOnsets_refl; assumption.
  - destruct (postureToggleChange_frame checked rt)
      as [_ [_ [_ [_ [Ea [Et [Ep _]]]]]]].
    apply countsOnsets_refl; assumption.
  - apply countsOnsets_refl; reflexivity.
  - apply countsOnsets_refl; reflexivity.
  - apply countsOnsets_refl; reflexivity.
  - apply countsOnsets_refl; reflexivity.
  - apply countsOnsets_refl; reflexivity.
  - apply countsOnsets_refl; reflexivity.
  - apply countsOnsets_refl; reflexivity.
Qed.

(** X10: over any sequence of frames, timer firings, stops and setting
    changes, from any state, the page only appends alerts, and each
    counter grows by exactly the number of onset alerts of its behaviour
    raised meanwhile: repeated (continuous) alerts are never counted, and
    nothing but [startMonitoring] and [resetStatistics] sets a counter
    back. *)
Theorem counters_count_onsets (rt : Runtime) (actions : list Action) :
  forallb keepsCounters actions = true ->
  exists new,
    alerts (performAll atan2 rt actions) = alerts rt ++ new
    /\ touchCount (state (performAll atan2 rt actions))
       = (touchCount (state rt)
          + Z.of_nat (List.length (filter isTouchOnset new)))%Z
    /\ postureAlertCount (state (performAll atan2 rt actions))
       = (postureAlertCount (state rt)
          + Z.of_nat (List.length (filter isPostureOnset new)))%Z.
Proof.
  revert rt. induction actions as [|a rest IH]; intros rt K.
  - apply (countsOnsets_refl rt rt); reflexivity.
  - cbn [forallb] in K. apply andb_true_iff in K. destruct K as [Ka Kr].
    apply (countsOnsets_trans rt (perform atan2 rt a)).
    + apply countsOnsets_perform, Ka.
    + apply IH, Kr.
Qed.

End Counters.

Lemma counters_count_onsets_witness :
  forallb keepsCounters (tl sampleSession) = true
  /\ exists new,
      alerts (performAll atan2_axes startedRuntime (tl sampleSession))
      = alerts startedRuntime ++ new
      /\ touchCount (state (performAll atan2_axes startedRuntime
                                       (tl sampleSession)))
         = (touchCount (state startedRuntime)
            + Z.of_nat (List.length (filter isTouchOnset new)))%Z.
Proof.
  assert (K : forallb keepsCounters (tl sampleSession) = true) by reflexivity.
  split; [exact K|].
  destruct (counters_count_onsets atan2_axes startedRuntime
              (tl sampleSession) K) as [new [Ea [Et _]]].
  exists new. split; [exact Ea|exact Et].
Defined.

(** ** [detect.js]: one alert per cooldown *)

Section DetectJsCooldown.

Lemma detectJsStep_budget (rt : DetectJs.Runtime) (i : DetectJsInput) :
  (alertBudget (detectJsStep rt i)
   <= alertBudget rt + (if isTimeout i then 1 else 0))%nat
  /\ (DetectJs.touchCount (DetectJs.state (detectJsStep rt i))
      - Z.of_nat (List.length (DetectJs.alerts (detectJsStep rt i)))
      = DetectJs.touchCount (DetectJs.state rt)
        - Z.of_nat (List.length (DetectJs.alerts rt)))%Z.
Proof.
  destruct rt as [[c t cd it wt ms z] tos nh al].
  destruct i as [d v now|id]; unfold alertBudget;
    cbn [detectJsStep isTimeout].
  - unfold DetectJs.handleTouchState. cbn.
    destruct d, it, cd; cbn; rewrite ?length_app; cbn; split; lia.
  - unfold DetectJs.timeoutFires. cbn.
    destruct (existsb (Pos.eqb id) tos); cbn; destruct cd; split; lia.
Qed.

Lemma detectJsRun_budget (inputs : list DetectJsInput)
      (rt : DetectJs.Runtime) :
  (alertBudget (detectJsRun rt inputs)
   <= alertBudget rt + List.length (filter isTimeout inputs))%nat
  /\ (DetectJs.touchCount (DetectJs.state (detectJsRun rt inputs))
      - Z.of_nat (List.length (DetectJs.alerts (detectJsRun rt inputs)))
      = DetectJs.touchCount (DetectJs.state rt)
        - Z.of_nat (List.length (DetectJs.alerts rt)))%Z.
Proof.
  revert rt. induction inputs as [|i rest IH]; intros rt.
  - cbn. split; lia.
  - change (detectJsRun rt (i :: rest))
      with (detectJsRun (detectJsStep rt i) rest).
    destruct (IH (detectJsStep rt i)) as [B C].
    destruct (detectJsStep_budget rt i) as [B1 C1].
    cbn [filter]. destruct (isTimeout i); cbn [List.length]; split; lia.
Qed.

(** X11: in [detect.js], from the initial state and for any sequence of
    frames and cooldown timeouts, the number of alerts raised is at most
    one more than the number of timeouts that have fired, and at most that
    number whenever the cooldown flag is clear: no two alerts without a
    cooldown expiring in between.  The counter equals the number of alerts
    raised. *)
Theorem detectJs_one_alert_per_cooldown (inputs : list DetectJsInput) :
  let rt := detectJsRun detectJsInitial inputs in
  (List.length (DetectJs.alerts rt)
   <= List.length (filter isTimeout inputs) + 1)%nat
  /\ (DetectJs.alertCooldown (DetectJs.state rt) = false ->
      (List.length (DetectJs.alerts rt)
       <= List.length (filter isTimeout inputs))%nat)
  /\ DetectJs.touchCount (DetectJs.state rt)
     = Z.of_nat (List.length (DetectJs.alerts rt)).
Proof.
  cbv zeta. destruct (detectJsRun_budget inputs detectJsInitial) as [B C].
  unfold alertBudget in B. cbn in B, C.
  split; [|split].
  - destruct (DetectJs.alertCooldown _); lia.
  - intros E. rewrite E in B. lia.
  - lia.
Qed.

Lemma detectJs_one_alert_per_cooldown_witness :
  DetectJs.alertCooldown
    (DetectJs.state
       (detectJsRun detectJsInitial
          [detectJsFrame true true 1000; detectJsTimeout 1%positive;
           detectJsFrame false true 5000])) = false
  /\ (List.length
        (DetectJs.alerts
           (detectJsRun detectJsInitial
              [detectJsFrame true true 1000; detectJsTimeout 1%positive;
               detectJsFrame false true 5000])) <= 1)%nat.
Proof.
  split; [reflexivity|].
  exact (proj1 (proj2 (detectJs_one_alert_per_cooldown
                         [detectJsFrame true true 1000;
                          detectJsTimeout 1%positive;
                          detectJsFrame false true 5000])) eq_refl).
Defined.

End DetectJsCooldown.

(** ** The zone checkboxes *)

Section ZoneControls.

(** X12: the eyes checkbox switches both eye zones, the cheeks checkbox
    both cheek zones, and each of the five handlers leaves every other
    zone as it was; what [applySettingsToUI] then shows for the checkbox
    is the value just set.  A pair's checkbox is shown unchecked as soon
    as one of the two flags is off, so with stored flags that differ the
    eyes box is unchecked while the left eye is still a detection zone. *)
Theorem zone_checkboxes_drive_detection (st : State) (checked : bool)
    (region : zone) :
  (In region (enabledZones (zoneEyesChange checked st))
   <-> match region with
       | leftEye | rightEye => checked = true
       | _ => In region (enabledZones st)
       end)
  /\ (In region (enabledZones (zoneCheeksChange checked st))
      <-> match region with
          | leftCheek | rightCheek => checked = true
          | _ => In region (enabledZones st)
          end)
  /\ (In region (enabledZones (zoneMouthChange checked st))
      <-> match region with
          | mouth => checked = true
          | _ => In region (enabledZones st)
          end)
  /\ (In region (enabledZones (zoneNoseChange checked st))
      <-> match region with
          | nose => checked = true
          | _ => In region (enabledZones st)
          end)
  /\ (In region (enabledZones (zoneChinChange checked st))
      <-> match region with
          | chin => checked = true
          | _ => In region (enabledZones st)
          end)
  /\ zoneEyes (applyZonesToUI (zoneEyesChange checked st)) = checked
  /\ zoneCheeks (applyZonesToUI (zoneCheeksChange checked st)) = checked
  /\ zoneMouth (applyZonesToUI (zoneMouthChange checked st)) = checked
  /\ zoneNose (applyZonesToUI (zoneNoseChange checked st)) = checked
  /\ zoneChin (applyZonesToUI (zoneChinChange checked st)) = checked
  /\ (Zones.leftEye (Settings.zones (settings st)) = true ->
      Zones.rightEye (Settings.zones (settings st)) = false ->
      zoneEyes (applyZonesToUI st) = false
      /\ In leftEye (enabledZones st)).
Proof.
  destruct region; rewrite !In_enabledZones;
    destruct st as [r c tc lt pc lp stt ac it wt cb ib wb pb ci
                      [se co so no vi [zm zn zl zr zlc zrc zc] po] lz];
    cbn; repeat split; intros; subst; cbn; try reflexivity;
    try assumption; try apply andb_diag.
Qed.

Lemma zone_checkboxes_drive_detection_witness :
  Zones.leftEye (Settings.zones
                   (settings (set_zones
                                (Zones.mk true true true false false false false)
                                initialState))) = true
  /\ zoneEyes (applyZonesToUI
                 (set_zones (Zones.mk true true true false false false false)
                            initialState)) = false
  /\ In leftEye
        (enabledZones
           (set_zones (Zones.mk true true true false false false false)
                      initialState)).
Proof.
  split; [reflexivity|].
  destruct (zone_checkboxes_drive_detection
              (set_zones (Zones.mk true true true false false false false)
                         initialState) true leftEye)
    as [_ [_ [_ [_ [_ [_ [_ [_ [_ [_ H]]]]]]]]]].
  exact (H eq_refl eq_refl).
Defined.

End ZoneControls.

(** ** The proximity overlay and the detector *)

Lemma SFeqb_leb (a b : spec_float) :
  SFeqb a b = true -> SFleb a b = true /\ SFleb b a = true.
Proof. unfold SFeqb. sf_order; split; sf_cases. Qed.

Lemma SFleb_refl_eqb (a : spec_float) : SFleb a a = true -> SFeqb a a = true.
Proof. unfold SFeqb. sf_order. Qed.

Section Overlay.
Local Open Scope float_scope.

Lemma overlayPoints_regionPoints (face : list Landmark.t) (w h : float)
      (indices : list nat) :
  match regionPoints face w h indices, overlayPoints face w h indices with
  | Normal points, Normal ps =>
      ps = map (fun p => (Point.x p, Point.y p)) points
  | Throw, Throw => True
  | _, _ => False
  end.
Proof.
  unfold regionPoints, overlayPoints.
  induction indices as [|idx rest IH]; cbn [mapC]; [reflexivity|].
  destruct (at_index face idx) as [lm|]; cbn [bindC]; [|exact I].
  destruct (mapC _ rest) as [points|], (mapC _ rest) as [ps|];
    cbn [bindC]; try exact IH.
  rewrite IH. reflexivity.
Qed.

Lemma drawZones_buildFacePoints (st : State) (face : list Landmark.t)
      (zones : list zone) :
  let w := Canvas.width (canvas st) in
  let h := Canvas.height (canvas st) in
  let enabled := zoneEnabled (Settings.zones (settings st)) in
  match buildFacePoints face w h (filter enabled zones),
        drawZones face w h (touchThreshold st)
                  (map (fun r => (r, (zoneColor r, enabled r))) zones) with
  | Normal facePoints, Normal drawn => drawn = map (overlayOf st) facePoints
  | Throw, Throw => True
  | _, _ => False
  end.
Proof.
  cbv zeta. unfold buildFacePoints.
  induction zones as [|r rest IH]; cbn [map filter drawZones mapC];
    [reflexivity|].
  destruct (zoneEnabled (Settings.zones (settings st)) r);
    cbn [negb mapC]; [|exact IH].
  pose proof (overlayPoints_regionPoints face (Canvas.width (canvas st))
                (Canvas.height (canvas st)) (FACE_REGIONS r)) as P.
  destruct (regionPoints face _ _ (FACE_REGIONS r)) as [points|],
    (overlayPoints face _ _ (FACE_REGIONS r)) as [ps|];
    cbn [bindC]; try exact P; try contradiction.
  subst ps.
  destruct (mapC _ (filter _ rest)) as [fp|],
    (drawZones face _ _ _ (map _ rest)) as [drawn|];
    cbn [bindC]; try exact IH.
  rewrite IH. unfold overlayOf at 2. cbn [fst snd map].
  rewrite !map_map. reflexivity.
Qed.

(** X13: the proximity overlay and the detector agree.  When
    [drawProximityZones] returns it has drawn one ellipse for each enabled
    zone, in the order in which [checkFaceTouch] scans the zones, each
    around the very pixel points the detector tests and widened by the
    detector's own threshold; and it throws on exactly the face arrays on
    which building the detector's zone points throws. *)
Theorem overlay_matches_detection (st : State) (face : list Landmark.t) :
  let w := Canvas.width (canvas st) in
  let h := Canvas.height (canvas st) in
  (drawProximityZones st face = Throw
   <-> buildFacePoints face w h (enabledZones st) = Throw)
  /\ forall drawn,
      drawProximityZones st face = Normal drawn ->
      map fst drawn = enabledZones st
      /\ exists facePoints,
          buildFacePoints face w h (enabledZones st) = Normal facePoints
          /\ drawn = map (overlayOf st) facePoints.
Proof.
  cbv zeta.
  pose proof (drawZones_buildFacePoints st face zoneOrder) as R.
  cbv zeta in R. rewrite <- enabledZones_filter in R.
  change (drawZones face (Canvas.width (canvas st)) (Canvas.height (canvas st))
            (touchThreshold st)
            (map (fun r => (r, (zoneColor r,
                                zoneEnabled (Settings.zones (settings st)) r)))
                 zoneOrder))
    with (drawProximityZones st face) in R.
  destruct (buildFacePoints face _ _ (enabledZones st)) as [fp|] eqn:B,
    (drawProximityZones st face) as [drawn|]; try contradiction.
  - split; [split; discriminate|].
    intros d [= <-]. subst drawn. split.
    + rewrite map_map. cbn [overlayOf fst].
      apply (buildFacePoints_keys _ _ _ _ _ B).
    + exists fp. split; reflexivity.
  - split; [split; reflexivity|]. discriminate.
Qed.

Lemma overlay_matches_detection_witness :
  exists drawn,
    drawProximityZones initialState faceA = Normal drawn
    /\ map fst drawn = enabledZones initialState.
Proof.
  pose proof (proj2 (overlay_matches_detection initialState faceA)) as H.
  destruct (drawProximityZones initialState faceA) as [drawn|] eqn:E.
  - exists drawn. split; [reflexivity|]. exact (proj1 (H drawn eq_refl)).
  - vm_compute in E. discriminate E.
Defined.

(** One round of [Math.min] and of [Math.max]. *)
Lemma is_nan_ordered (f : float) : ordered f -> is_nan f = false.
Proof.
  unfold ordered, is_nan. rewrite FloatAxioms.leb_spec, FloatAxioms.eqb_spec.
  intros H. rewrite (SFleb_refl_eqb _ H). reflexivity.
Qed.

Lemma eqb_leb (a b : float) :
  (a =? b) = true -> (a <=? b) = true /\ (b <=? a) = true.
Proof. rewrite FloatAxioms.eqb_spec, !FloatAxioms.leb_spec. apply SFeqb_leb. Qed.

Lemma Math_min_lower (values : list float) (lowest : float) :
  ordered lowest -> Forall ordered values ->
  let result :=
    fold_left
      (fun lowest number =>
         if is_nan lowest || is_nan number then nan
         else if number <? lowest then number
         else if (number =? lowest)
                 && match classify number with NZero => true | _ => false end
              then number
         else lowest)
      values lowest in
  ordered result /\ (result <=? lowest) = true
  /\ forall v, In v values -> (result <=? v) = true.
Proof.
  intros Hl Hv. revert lowest Hl.
  induction Hv as [|number rest Hn Hrest IH]; intros lowest Hl; cbn [fold_left].
  - split; [exact Hl|]. split; [exact Hl|]. intros v [].
  - rewrite (is_nan_ordered _ Hl), (is_nan_ordered _ Hn). cbn [orb].
    set (next := if number <? lowest then number
                 else if (number =? lowest) && _ then number else lowest).
    assert (N : ordered next /\ (next <=? lowest) = true
                /\ (next <=? number) = true).
    { subst next. destruct (number <? lowest) eqn:L.
      - split; [exact Hn|]. split; [apply ltb_leb, L|exact Hn].
      - destruct ((number =? lowest) && _) eqn:E.
        + apply andb_true_iff in E. destruct E as [E _].
          apply eqb_leb in E. split; [exact Hn|]. split; [apply E|exact Hn].
        + split; [exact Hl|]. split; [exact Hl|].
          apply ltb_false_leb; assumption. }
    destruct N as [No [Nl Nn]].
    destruct (IH next No) as [Ro [Rl Rv]].
    split; [exact Ro|]. split; [apply leb_trans with next; assumption|].
    intros v [<-|Hin]; [apply leb_trans with next; assumption|].
    apply Rv, Hin.
Qed.

Lemma Math_max_upper (values : list float) (highest : float) :
  ordered highest -> Forall ordered values ->
  let result :=
    fold_left
      (fun highest number =>
         if is_nan highest || is_nan number then nan
         else if highest <? number then number
         else if (number =? highest)
                 && match classify number with PZero => true | _ => false end
              then number
         else highest)
      values highest in
  ordered result /\ (highest <=? result) = true
  /\ forall v, In v values -> (v <=? result) = true.
Proof.
  intros Hl Hv. revert highest Hl.
  induction Hv as [|number rest Hn Hrest IH]; intros highest Hl;
    cbn [fold_left].
  - split; [exact Hl|]. split; [exact Hl|]. intros v [].
  - rewrite (is_nan_ordered _ Hl), (is_nan_ordered _ Hn). cbn [orb].
    set (next := if highest <? number then number
                 else if (number =? highest) && _ then number else highest).
    assert (N : ordered next /\ (highest <=? next) = true
                /\ (number <=? next) = true).
    { subst next. destruct (highest <? number) eqn:L.
      - split; [exact Hn|]. split; [apply ltb_leb, L|exact Hn].
      - destruct ((number =? highest) && _) eqn:E.
        + apply andb_true_iff in E. destruct E as [E _].
          apply eqb_leb in E. split; [exact Hn|]. split; [apply E|exact Hn].
        + split; [exact Hl|]. split; [exact Hl|].
          apply ltb_false_leb; assumption. }
    destruct N as [No [Nl Nn]].
    destruct (IH next No) as [Ro [Rl Rv]].
    split; [exact Ro|]. split; [apply leb_trans with next; assumption|].
    intros v [<-|Hin]; [apply leb_trans with next; assumption|].
    apply Rv, Hin.
Qed.

(** X14: the box [drawProximityZones] computes for a zone, before it is
    widened by the threshold, contains every point of the zone: when the
    coordinates are numbers, [Math.min(...xs)] is at most, and
    [Math.max(...xs)] at least, every coordinate, and neither is NaN. *)
Theorem overlay_box_contains_points (values : list float) (v : float) :
  Forall ordered values -> In v values ->
  (Math_min values <=? v) = true /\ (v <=? Math_max values) = true
  /\ ordered (Math_min values) /\ ordered (Math_max values).
Proof.
  intros Hv Hin.
  destruct (Math_min_lower values infinity infinity_ordered Hv)
    as [Mo [_ Ml]].
  assert (Ninf : ordered neg_infinity) by reflexivity.
  destruct (Math_max_upper values neg_infinity Ninf Hv) as [Xo [_ Xu]].
  split; [apply Ml, Hin|]. split; [apply Xu, Hin|].
  split; [exact Mo|exact Xo].
Qed.

Lemma overlay_box_contains_points_witness :
  Forall ordered [640; 675; 0] /\ In 675 [640; 675; 0]
  /\ (Math_min [640; 675; 0] <=? 675) = true.
Proof.
  assert (H : Forall ordered [640; 675; 0])
    by (repeat constructor).
  assert (Hin : In 675 [640; 675; 0]) by (right; left; reflexivity).
  split; [exact H|]. split; [exact Hin|].
  exact (proj1 (overlay_box_contains_points [640; 675; 0] 675 H Hin)).
Defined.

End Overlay.

(** ** Resetting the statistics during a touch *)

Section ResetDuringTouch.

(** X15: [resetStatistics] and [startMonitoring] set the counters to zero
    but leave the alert state alone.  If a touch is in progress, the
    frames that go on detecting it raise no onset alert and keep the
    counter at zero, and the repeat timer stays as it was: the touch is
    counted again only after it has ended and started anew. *)
Theorem reset_during_touch_is_not_counted
    (rt : Runtime) (now : Z) (frames : list (bool * Z)) :
  isTouching (state rt) = true ->
  (let rt' := run (resetStatistics now rt) (touchFrames frames) in
   touchCount (state rt') = 0%Z /\ alerts rt' = alerts rt
   /\ continuousBeepTimer (state rt') = continuousBeepTimer (state rt)
   /\ intervals rt' = intervals rt)
  /\ (let rt' := run (startMonitoring now rt) (touchFrames frames) in
      touchCount (state rt') = 0%Z /\ alerts rt' = alerts rt
      /\ continuousBeepTimer (state rt') = continuousBeepTimer (state rt)
      /\ intervals rt' = intervals rt).
Proof.
  intros H. split; cbv zeta.
  - destruct (touch_hold_run frames (resetStatistics now rt) H)
      as [_ [B [C [D E]]]].
    rewrite B, C, D, E. repeat split.
  - destruct (touch_hold_run frames (startMonitoring now rt) H)
      as [_ [B [C [D E]]]].
    rewrite B, C, D, E. repeat split.
Qed.

Lemma reset_during_touch_is_not_counted_witness :
  isTouching (state touchingRuntime) = true
  /\ touchCount (state touchingRuntime) = 1%Z
  /\ touchCount
       (state (run (resetStatistics 2000 touchingRuntime)
                   (touchFrames [(true, 2016%Z); (true, 2032%Z)]))) = 0%Z.
Proof.
  split; [reflexivity|]. split; [reflexivity|].
  destruct (reset_during_touch_is_not_counted touchingRuntime 2000%Z
              [(true, 2016%Z); (true, 2032%Z)] eq_refl) as [H _].
  exact (proj1 H).
Defined.

End ResetDuringTouch.
